(** * stormpath.resources.base: resources, collections and the name codec

    A shallow embedding of [stormpath/resources/base.py] and the
    properties of its resource runtime: the name codec, lazy
    materialisation, the life cycle of new resources, windowed iteration
    over collections, slices and query building, serialisation, writes and
    the dictionary protocol.

    How the Python is read.

    - Objects.  A [Resource] instance is a record of its class and its
      [__dict__], an insertion-ordered association list; the receiver of
      a method is part of the state, so a method that raises leaves what
      it had written.  The dictionary that [_query] refers to is an object
      on a heap, because [query] reaches it through a second name.  Nested
      resources are held by value.
    - Effects.  Every call of the data store and every signal is appended
      to a trace; methods are computations in a state-and-exception monad
      over receiver, heap and trace.  The only loop that is not bounded by
      its input, the paging loop of [__iter__], takes a step budget.
    - Outside.  The data store, the date parser and the field tables of
      the concrete resource types are parameters ([DataStore], [Schema]).
    - Text.  Names are strings of 8-bit characters; [lower], [upper] and
      [title] change case in the ASCII range only, which is what Python's
      [str] does on 7-bit text.
    - Numbers.  Python integers are [Z]. *)

From Stdlib Require Import String Ascii List ZArith Lia Bool Arith.
From Stdlib Require DecimalString.
Import ListNotations.

Local Open Scope string_scope.
Local Open Scope Z_scope.

(** ** Characters and the string methods the source calls *)

Module Py.

Definition UNDERSCORE : ascii := "_"%char.

Definition isupper (c : ascii) : bool :=
  (65 <=? nat_of_ascii c)%nat && (nat_of_ascii c <=? 90)%nat.

Definition islower (c : ascii) : bool :=
  (97 <=? nat_of_ascii c)%nat && (nat_of_ascii c <=? 122)%nat.

Definition isdigit (c : ascii) : bool :=
  (48 <=? nat_of_ascii c)%nat && (nat_of_ascii c <=? 57)%nat.

(** [c.lower()] and [c.upper()] on one character. *)
Definition lower_char (c : ascii) : ascii :=
  if isupper c then ascii_of_nat (nat_of_ascii c + 32) else c.

Definition upper_char (c : ascii) : ascii :=
  if islower c then ascii_of_nat (nat_of_ascii c - 32) else c.

(** [s.upper()]. *)
Fixpoint upper (s : string) : string :=
  match s with
  | EmptyString => EmptyString
  | String c rest => String (upper_char c) (upper rest)
  end.

(** [ch in s]. *)
Fixpoint contains (ch : ascii) (s : string) : bool :=
  match s with
  | EmptyString => false
  | String c rest => if Ascii.eqb c ch then true else contains ch rest
  end.

(** [s.split(ch, 1)] for an [s] that contains [ch]: the text before the
    first [ch] and the text after it.  (Without a [ch] the whole string is
    the head and the tail is empty; the source never splits such a name.) *)
Fixpoint split_once (ch : ascii) (s : string) : string * string :=
  match s with
  | EmptyString => (EmptyString, EmptyString)
  | String c rest =>
      if Ascii.eqb c ch then (EmptyString, rest)
      else let (head, tail) := split_once ch rest in (String c head, tail)
  end.

(** [s.title()]: a cased character is upper-cased when the character before
    it is not cased and lower-cased otherwise. *)
Fixpoint title_from (previous_is_cased : bool) (s : string) : string :=
  match s with
  | EmptyString => EmptyString
  | String c rest =>
      if islower c then
        String (if previous_is_cased then c else upper_char c)
               (title_from true rest)
      else if isupper c then
        String (if previous_is_cased then lower_char c else c)
               (title_from true rest)
      else String c (title_from false rest)
  end.

Definition title (s : string) : string := title_from false s.

(** [s.replace(ch, '')]. *)
Fixpoint remove (ch : ascii) (s : string) : string :=
  match s with
  | EmptyString => EmptyString
  | String c rest =>
      if Ascii.eqb c ch then remove ch rest else String c (remove ch rest)
  end.

(** [''.join(parts)]. *)
Fixpoint join (parts : list string) : string :=
  match parts with
  | [] => EmptyString
  | p :: rest => p ++ join rest
  end.

(** [s.startswith(prefix)]. *)
Definition startswith (prefix s : string) : bool := String.prefix prefix s.

(** ['%d' % z]. *)
Definition str_of_int (z : Z) : string :=
  DecimalString.NilZero.string_of_int (Z.to_int z).

End Py.

(** ** NameCodec: [Resource.to_camel_case] and [Resource.from_camel_case] *)

Definition to_camel_case (name : string) : string :=
  if negb (Py.contains Py.UNDERSCORE name) then name
  else
    let (head, tail) := Py.split_once Py.UNDERSCORE name in
    let tail := Py.remove Py.UNDERSCORE (Py.title tail) in
    head ++ tail.

(** The loop of [from_camel_case]: [cs] is the list being appended to. *)
Fixpoint from_camel_case_loop (name : string) (cs : list string) : list string :=
  match name with
  | EmptyString => cs
  | String c rest =>
      let cl := Py.lower_char c in
      if Ascii.eqb c cl then from_camel_case_loop rest (cs ++ [String c ""])
      else
        from_camel_case_loop rest
          (cs ++ [String Py.UNDERSCORE ""; String (Py.lower_char c) ""])
  end.

Definition from_camel_case (name : string) : string :=
  Py.join (from_camel_case_loop name []).

(** ** Values, classes and instance dictionaries *)

(** A Python [dict]: keys in insertion order.  Keys are unique in every
    dictionary the functions below build; lookups take the first entry. *)
Section Dict.
Context {V : Type}.

Fixpoint dict_get (k : string) (d : list (string * V)) : option V :=
  match d with
  | [] => None
  | (k', v) :: rest => if String.eqb k' k then Some v else dict_get k rest
  end.

Definition dict_has (k : string) (d : list (string * V)) : bool :=
  match dict_get k d with Some _ => true | None => false end.

(** [d[k] = v]: an existing key keeps its place, a new key goes last. *)
Fixpoint dict_set (k : string) (v : V) (d : list (string * V)) : list (string * V) :=
  match d with
  | [] => [(k, v)]
  | (k', v') :: rest =>
      if String.eqb k' k then (k', v) :: rest else (k', v') :: dict_set k v rest
  end.

(** [d.update(other)]. *)
Fixpoint dict_update (d other : list (string * V)) : list (string * V) :=
  match other with
  | [] => d
  | (k, v) :: rest => dict_update (dict_set k v d) rest
  end.

Definition dict_keys (d : list (string * V)) : list string := map fst d.

End Dict.

(** [name in names] for a tuple or list of strings. *)
Definition name_in (name : string) (names : list string) : bool :=
  existsb (String.eqb name) names.

(** The classes of the module.  Concrete resource types only add
    configuration (their field tables), so a subclass is named and its
    tables are looked up in the [Schema] below; a collection class carries
    its two class attributes. *)
Inductive class : Type :=
| Resource_cls
| Entity (name : string)
| Collection (create_path : option string) (resource_class : class)
| FixedAttrs (name : string).

(** [CollectionResource] itself: [create_path = None], [resource_class = Resource]. *)
Definition CollectionResource_cls : class := Collection None Resource_cls.

(** [Expansion.items]: for each expanded attribute the [offset]/[limit]
    entries given to [add_property]. *)
Record Expansion : Type := mkExpansion { expansion_items : list (string * list (string * Z)) }.

(** A reference to a dictionary object on the heap. *)
Definition ref : Type := nat.

#[warnings="-register-all"]
Inductive value : Type :=
| VNone
| VInt (z : Z)
| VStr (s : string)
| VDatetime (t : Z)
| VList (elements : list value)
| VDict (entries : list (string * value))
| VResource (cls : class) (query : option ref) (expand : option Expansion)
            (dict : list (string * value))
| VFixedAttrs (cls : class) (dict : list (string * value)).

Abbreviation props := (list (string * value)).

(** A [Resource] instance: its class and its [__dict__].  The bookkeeping
    slots [_query] and [_expand] are kept as fields of their own ([_client]
    and [_store] are the data store below); every other entry of
    [__dict__] is in [r_dict].  (A payload whose key has one of the four
    slot names as its local form would overwrite the slot; such payloads
    are left out.)  [_query] is a reference: the dictionary it names lives
    on the heap and may be reached through other names. *)
Record Resource : Type := mkResource {
  r_cls : class;
  r_query : option ref;
  r_expand : option Expansion;
  r_dict : props
}.

Definition value_of_resource (r : Resource) : value :=
  VResource (r_cls r) (r_query r) (r_expand r) (r_dict r).

Inductive exn : Type :=
| AttributeError
| TypeError
| ValueError
| KeyError
| IndexError
| RemoteError (detail : string).

(** What a function gives back: a value, or a raised exception. *)
Inductive result (A : Type) : Type :=
| Ok (a : A)
| Error (e : exn).
Arguments Ok {A} a.
Arguments Error {A} e.

Definition rbind {A B} (r : result A) (k : A -> result B) : result B :=
  match r with
  | Ok a => k a
  | Error e => Error e
  end.

(** The field tables of the concrete resource types, the API root and the
    date parser ([dateutil.parser.parse]) are configuration from outside
    this module. *)
Class Schema : Type := {
  resource_attributes : string -> list (string * class);
  writable_attributes : string -> list string;
  BASE_URL : string;
  parse_date : string -> option Z
}.

(** Python truth value. *)
Definition truthy (v : value) : bool :=
  match v with
  | VNone => false
  | VInt z => negb (z =? 0)
  | VStr s => negb (String.eqb s "")
  | VList l => match l with [] => false | _ => true end
  | VDict d => match d with [] => false | _ => true end
  | _ => true
  end.

Section Wrapping.
Context {schema : Schema}.

(** [cls.get_resource_attributes()] ([get_dict_attributes()] for a
    [FixedAttrsDict]); both base classes return the empty table. *)
Definition get_resource_attributes (cls : class) : list (string * class) :=
  match cls with
  | Entity name | FixedAttrs name => resource_attributes name
  | Resource_cls | Collection _ _ => []
  end.

Definition writable_attrs (cls : class) : list string :=
  match cls with
  | Entity name | FixedAttrs name => writable_attributes name
  | Resource_cls | Collection _ _ => []
  end.

(** [dateutil.parser.parse(value)]. *)
Definition parse (v : value) : result value :=
  match v with
  | VStr s => match parse_date s with
              | Some t => Ok (VDatetime t)
              | None => Error ValueError
              end
  | _ => Error TypeError
  end.

(** [Resource(self._client, href=href)] for the class [Resource] itself:
    the checks of [__init__] and then [_set_properties({'href': href})],
    whose loop stores the string as it is (no table entry, not a mapping,
    not a timestamp name). *)
Definition generic_resource (href : value) : result value :=
  match href with
  | VNone => Error ValueError
  | VStr _ => Ok (VResource Resource_cls None None [("href", href)])
  | _ => Error TypeError
  end.

Definition TIMESTAMPS : list string := ["created_at"; "modified_at"].

(** The [_set_properties] loops, over the function [wrap] that
    [_wrap_resource_attr] turns out to be (the two are mutually recursive
    in the source; the recursion is on the nesting of the payload).

    [set_properties_loop in_fixed popped resource_attrs properties dict]
    is the [for name, value in properties.items()] loop writing into
    [dict]: [Resource._set_properties] when [in_fixed] is false,
    [FixedAttrsDict._set_properties] when it is true.  With [popped] the
    entry ['items'] is not visited, which is what the loop sees after
    [properties.pop('items', None)].

    [wrap_popped_items resource_class properties] is the value popped by
    [properties.pop('items', None)] run through the comprehension
    [[self._wrap_resource_attr(self.resource_class, item) for item in items]]
    ([None] when there is no such entry or it holds [None]); an empty
    mapping or string iterates as no items, any other value that is not a
    list raises [TypeError]. *)
Section Loops.
Variable wrap : bool -> class -> value -> result value.

Fixpoint set_properties_loop (in_fixed popped : bool)
  (resource_attrs : list (string * class)) (properties : props)
  (dict : props) {struct properties} : result props :=
  match properties with
  | [] => Ok dict
  | (key, v) :: rest =>
      if popped && String.eqb key "items" then
        set_properties_loop in_fixed popped resource_attrs rest dict
      else
        let name := from_camel_case key in
        rbind
          (match dict_get name resource_attrs with
           | Some cls => wrap in_fixed cls v
           | None =>
               if in_fixed then Ok v else
               match v with
               | VDict entries =>
                   match dict_get "href" entries with
                   | Some href => generic_resource href
                   | None => if name_in name TIMESTAMPS then parse v else Ok v
                   end
               | _ => if name_in name TIMESTAMPS then parse v else Ok v
               end
           end)
          (fun v' =>
             set_properties_loop in_fixed popped resource_attrs rest
               (dict_set name v' dict))
  end.

Fixpoint wrap_items (resource_class : class) (items : list value)
  {struct items} : result (list value) :=
  match items with
  | [] => Ok []
  | item :: rest =>
      rbind (wrap false resource_class item)
        (fun w => rbind (wrap_items resource_class rest)
                    (fun ws => Ok (w :: ws)))
  end.

Fixpoint wrap_popped_items (resource_class : class) (properties : props)
  {struct properties} : result (option (list value)) :=
  match properties with
  | [] => Ok None
  | (key, v) :: rest =>
      if String.eqb key "items" then
        match v with
        | VNone => Ok None
        | VList items =>
            rbind (wrap_items resource_class items) (fun ws => Ok (Some ws))
        | VDict [] | VStr "" => Ok (Some [])
        | _ => Error TypeError
        end
      else wrap_popped_items resource_class rest
  end.

(** [CollectionResource._set_properties(properties)] on the dictionary
    [dict] of an instance whose element class is [resource_class]. *)
Definition collection_set_properties (resource_attrs : list (string * class))
  (resource_class : class) (properties dict : props) : result props :=
  rbind (set_properties_loop false true resource_attrs properties dict)
    (fun d =>
       rbind (wrap_popped_items resource_class properties)
         (fun items =>
            match items with
            | None => Ok d
            | Some ws => Ok (dict_set "items" (VList ws) d)
            end)).

End Loops.

(** [_wrap_resource_attr(cls, value)]: [Resource._wrap_resource_attr] when
    [in_fixed] is false and [FixedAttrsDict._wrap_resource_attr] when it is
    true.  A mapping is handed to [cls(client, properties=value)], whose
    [__init__] runs the [_set_properties] of the class on a new instance;
    the [FixedAttrsDict] variant passes [client = None], which
    [Resource.__init__] cannot dereference ([client.data_store]). *)
Fixpoint wrap_resource_attr (in_fixed : bool) (cls : class) (v : value)
  {struct v} : result value :=
  match v with
  | VResource _ _ _ _ => if in_fixed then Error TypeError else Ok v
  | VFixedAttrs _ _ => if in_fixed then Ok v else Error TypeError
  | VDict properties =>
      match cls with
      | FixedAttrs _ =>
          rbind (set_properties_loop wrap_resource_attr true false
                   (get_resource_attributes cls) properties [])
            (fun d => Ok (VFixedAttrs cls d))
      | Collection _ resource_class =>
          if in_fixed then Error AttributeError else
          rbind (collection_set_properties wrap_resource_attr
                   (get_resource_attributes cls) resource_class properties [])
            (fun d => Ok (VResource cls None None d))
      | _ =>
          if in_fixed then Error AttributeError else
          rbind (set_properties_loop wrap_resource_attr false false
                   (get_resource_attributes cls) properties [])
            (fun d => Ok (VResource cls None None d))
      end
  | VNone => Ok VNone
  | _ => Error TypeError
  end.

End Wrapping.

(** ** Serialisation: [_sanitize_property] and [_get_properties] *)

Section SanitizeLoops.
Variable sanitize : value -> value.

(** [{Resource.to_camel_case(k): sanitize(v) for k, v in value.items()}]. *)
Fixpoint sanitize_entries (entries data : props) {struct entries} : props :=
  match entries with
  | [] => data
  | (k, v) :: rest =>
      sanitize_entries rest (dict_set (to_camel_case k) (sanitize v) data)
  end.

(** The loop of [_get_properties] over [self.__dict__.items()]. *)
Fixpoint get_properties_loop (writable : list string) (dict data : props)
  {struct dict} : props :=
  match dict with
  | [] => data
  | (k, v) :: rest =>
      if name_in k writable then
        get_properties_loop writable rest
          (dict_set (to_camel_case k) (sanitize v) data)
      else get_properties_loop writable rest data
  end.

End SanitizeLoops.

(** [self.href] where no fetch can be involved: the entry of [__dict__],
    or [None] through the first branch of [__getattr__]. *)
Definition dict_href (dict : props) : value :=
  match dict_get "href" dict with
  | Some h => h
  | None => VNone
  end.

Section Sanitize.
Context {schema : Schema}.

(** [Resource._sanitize_property] ([in_fixed] false) and
    [FixedAttrsDict._sanitize_property] ([in_fixed] true).  The second
    hands the values of a plain mapping to the first and has no case for a
    [Resource]. *)
Fixpoint sanitize_property (in_fixed : bool) (v : value) {struct v} : value :=
  match v with
  | VResource cls _ _ dict =>
      if in_fixed then v
      else if truthy (dict_href dict) then VDict [("href", dict_href dict)]
      else VDict (get_properties_loop (sanitize_property false)
                    (writable_attrs cls) dict [])
  | VDict entries => VDict (sanitize_entries (sanitize_property false) entries [])
  | VFixedAttrs cls dict =>
      VDict (get_properties_loop (sanitize_property true)
               (writable_attrs cls) dict [])
  | _ => v
  end.

(** [self._get_properties()] on a [Resource]. *)
Definition get_properties (r : Resource) : props :=
  get_properties_loop (sanitize_property false) (writable_attrs (r_cls r))
    (r_dict r) [].

(** [self._set_properties(properties)] on an instance of class [cls]
    whose dictionary is [dict]. *)
Definition set_properties (cls : class) (properties dict : props) : result props :=
  match cls with
  | Collection _ resource_class =>
      collection_set_properties wrap_resource_attr
        (get_resource_attributes cls) resource_class properties dict
  | FixedAttrs _ =>
      set_properties_loop wrap_resource_attr true false
        (get_resource_attributes cls) properties dict
  | _ =>
      set_properties_loop wrap_resource_attr false false
        (get_resource_attributes cls) properties dict
  end.

(** [cls(client, href=href, properties=properties, query=query, expand=expand)]:
    [Resource.__init__]. *)
Definition Resource_init (cls : class) (href : value) (properties : option props)
  (query : option ref) (expand : option Expansion) : result Resource :=
  match href with
  | VNone =>
      match properties with
      | Some p => rbind (set_properties cls p [])
                    (fun d => Ok (mkResource cls query expand d))
      | None => Error ValueError
      end
  | VStr _ =>
      rbind (set_properties cls [("href", href)] [])
        (fun d => Ok (mkResource cls query expand d))
  | _ => Error TypeError
  end.

End Sanitize.

(** ** Expansion *)

(** [','.join(parts)]. *)
Fixpoint join_comma (parts : list string) : string :=
  match parts with
  | [] => ""
  | [p] => p
  | p :: rest => p ++ "," ++ join_comma rest
  end.

(** [Expansion.add_property(attr, offset, limit)]. *)
Definition add_property (e : Expansion) (attr : string)
  (offset limit : option Z) : Expansion :=
  let d := [] in
  let d := match offset with Some o => dict_set "offset" o d | None => d end in
  let d := match limit with Some l => dict_set "limit" l d | None => d end in
  mkExpansion (dict_set attr d (expansion_items e)).

(** [Expansion.get_params()]. *)
Definition get_params (e : Expansion) : string :=
  join_comma
    (map (fun kv : string * list (string * Z) =>
            let v := join_comma
                       (map (fun i : string * Z => fst i ++ ":" ++ Py.str_of_int (snd i))
                          (snd kv)) in
            let v := if String.eqb v "" then v else "(" ++ v ++ ")" in
            fst kv ++ v)
       (expansion_items e)).

(** ** The data store, the dispatcher and the state monad *)

(** The data-store boundary ([client.data_store]).  The remote side is
    taken as it stands while the operations below run: an answer depends on
    the arguments of the call only. *)
Class DataStore : Type := {
  get_resource : value -> option props -> result props;
  update_resource : value -> props -> result props;
  delete_resource : value -> result unit;
  uncache_resource : value -> result unit
}.

Definition SIGNAL_RESOURCE_CREATED : string := "resource-created".
Definition SIGNAL_RESOURCE_UPDATED : string := "resource-updated".
Definition SIGNAL_RESOURCE_DELETED : string := "resource-deleted".

(** What leaves the module: calls of the data store and signals sent
    through [dispatcher.send]. *)
Inductive effect : Type :=
| GetResource (href : value) (params : option props)
| UpdateResource (href : value) (properties : props)
| DeleteResource (href : value)
| UncacheResource (href : value)
| Send (signal : string) (href : value) (properties : option props).

(** The receiver [self], the heap of dictionary objects that [_query]
    slots refer to, and the trace of effects so far.  The receiver is part
    of the state, so what a method wrote into [self.__dict__] before it
    raised is still there afterwards. *)
Record state : Type := mkState {
  self : Resource;
  heap : list props;
  trace : list effect
}.

(** What a method produces: a result, a raised exception, or nothing yet
    because the step budget of a loop ran out. *)
Inductive outcome (A : Type) : Type :=
| Ret (a : A)
| Raise (e : exn)
| OutOfFuel.
Arguments Ret {A} a.
Arguments Raise {A} e.
Arguments OutOfFuel {A}.

Definition M (A : Type) : Type := state -> outcome A * state.

Definition ret {A} (a : A) : M A := fun st => (Ret a, st).

Definition raise {A} (e : exn) : M A := fun st => (Raise e, st).

Definition out_of_fuel {A} : M A := fun st => (OutOfFuel, st).

Definition bind {A B} (m : M A) (k : A -> M B) : M B :=
  fun st =>
    match m st with
    | (Ret a, st') => k a st'
    | (Raise e, st') => (Raise e, st')
    | (OutOfFuel, st') => (OutOfFuel, st')
    end.

Declare Scope monad_scope.
Delimit Scope monad_scope with monad.
Notation "x <- m ;; k" := (bind m (fun x => k))
  (at level 61, m at next level, right associativity) : monad_scope.
Notation "' pat <- m ;; k" := (bind m (fun pat => k))
  (at level 61, pat pattern, m at next level, right associativity) : monad_scope.
Notation "m ;; k" := (bind m (fun _ => k))
  (at level 61, right associativity) : monad_scope.
Local Open Scope monad_scope.

(** A function called inside a method. *)
Definition lift {A} (r : result A) : M A :=
  fun st => (match r with Ok a => Ret a | Error e => Raise e end, st).

Definition get_self : M Resource := fun st => (Ret (self st), st).

Definition get_dict : M props := fun st => (Ret (r_dict (self st)), st).

(** [self.__dict__ = dict], as a whole. *)
Definition put_dict (dict : props) : M unit :=
  fun st =>
    (Ret tt,
     mkState (mkResource (r_cls (self st)) (r_query (self st))
                (r_expand (self st)) dict)
       (heap st) (trace st)).

(** [self.__dict__[name] = v]. *)
Definition set_item (name : string) (v : value) : M unit :=
  dict <- get_dict ;; put_dict (dict_set name v dict).

(** [self.__dict__[name]]. *)
Definition get_item (name : string) : M value :=
  dict <- get_dict ;;
  match dict_get name dict with
  | Some v => ret v
  | None => raise KeyError
  end.

Definition emit (e : effect) : M unit :=
  fun st => (Ret tt, mkState (self st) (heap st) (trace st ++ [e])).

(** A new dictionary object. *)
Definition alloc (d : props) : M ref :=
  fun st => (Ret (length (heap st)), mkState (self st) (heap st ++ [d]) (trace st)).

(** The present contents of a dictionary object. *)
Definition deref (l : ref) : M props :=
  fun st => (Ret (nth l (heap st) []), st).

Fixpoint list_assign {A} (l : nat) (a : A) (xs : list A) : list A :=
  match xs, l with
  | [], _ => []
  | _ :: rest, O => a :: rest
  | x :: rest, S l' => x :: list_assign l' a rest
  end.

(** In-place change of a dictionary object. *)
Definition assign (l : ref) (d : props) : M unit :=
  fun st => (Ret tt, mkState (self st) (list_assign l d (heap st)) (trace st)).

(** Run a method on another instance [r]; gives its result and what the
    instance has become, and leaves the receiver as it was. *)
Definition on {A} (r : Resource) (m : M A) : M (A * Resource) :=
  fun st =>
    match m (mkState r (heap st) (trace st)) with
    | (Ret a, st') => (Ret (a, self st'), mkState (self st) (heap st') (trace st'))
    | (Raise e, st') => (Raise e, mkState (self st) (heap st') (trace st'))
    | (OutOfFuel, st') => (OutOfFuel, mkState (self st) (heap st') (trace st'))
    end.

(** [hasattr(self, ...)]: true unless the read raises [AttributeError]. *)
Definition has_attr {A} (read : M A) : M bool :=
  fun st =>
    match read st with
    | (Ret _, st') => (Ret true, st')
    | (Raise AttributeError, st') => (Ret false, st')
    | (Raise e, st') => (Raise e, st')
    | (OutOfFuel, st') => (OutOfFuel, st')
    end.

(** Run a method on the instance [r] that [self.__dict__[name]] holds.
    The object in the dictionary is the one the method runs on, so what it
    has become is in the dictionary afterwards, whatever the outcome. *)
Definition visit {A} (name : string) (r : Resource) (m : M A) : M A :=
  fun st =>
    let (o, st') := m (mkState r (heap st) (trace st)) in
    (o,
     mkState
       (mkResource (r_cls (self st)) (r_query (self st)) (r_expand (self st))
          (dict_set name (value_of_resource (self st')) (r_dict (self st))))
       (heap st') (trace st')).

(** The number of fetch calls in a trace. *)
Definition is_fetch (e : effect) : bool :=
  match e with GetResource _ _ => true | _ => false end.

Definition fetches (t : list effect) : nat := length (filter is_fetch t).

(** ** Resource *)

Section Resource.
Context {schema : Schema} {store : DataStore}.

(** [self.href]: found in [__dict__], or [None] from [__getattr__]; never
    a fetch. *)
Definition href : M value := dict <- get_dict ;; ret (dict_href dict).

Definition is_new : M bool :=
  h <- href ;;
  ret (match h with VNone => true | _ => false end).

(** [self._query], read as a mapping ([None] stays [None]). *)
Definition held_query (st : state) : option props :=
  match r_query (self st) with
  | Some l => Some (nth l (heap st) [])
  | None => None
  end.

Definition read_query : M (option props) := fun st => (Ret (held_query st), st).

(** [q or {}] for a mapping or [None]. *)
Definition or_empty (q : option props) : props :=
  match q with
  | Some (e :: es) => e :: es
  | _ => []
  end.

(** The [params] that [_ensure_data] builds from the query, the expansion
    and the window recorded in [__dict__]. *)
Definition ensure_data_params (query : option props) (expand : option Expansion)
  (dict : props) : option props :=
  let params := [] in
  let params := match query with
                | Some (e :: es) => dict_update params (e :: es)
                | _ => params
                end in
  let params := match expand with
                | Some e => dict_update params [("expand", VStr (get_params e))]
                | None => params
                end in
  let params := match dict_get "limit" dict, dict_get "offset" dict with
                | Some limit, Some offset =>
                    dict_set "offset" offset (dict_set "limit" limit params)
                | _, _ => params
                end in
  match params with [] => None | _ => Some params end.

(** [_ensure_data()].  (When [_set_properties] raises part-way the
    source has already written the entries before the failing one into
    [__dict__]; here the dictionary is then left as it was.  What is
    stated below about a merge that fails is the exception and the calls
    made, not the dictionary.) *)
Definition ensure_data : M unit :=
  new <- is_new ;;
  if new then ret tt
  else
    q <- read_query ;;
    r <- get_self ;;
    dict <- get_dict ;;
    let params := ensure_data_params q (r_expand r) dict in
    h <- href ;;
    emit (GetResource h params) ;;
    data <- lift (get_resource h params) ;;
    dict <- get_dict ;;
    dict <- lift (set_properties (r_cls r) data dict) ;;
    put_dict dict.

(** [Resource.__getattr__(name)], the hook Python calls when the normal
    lookup found nothing. *)
Definition getattr_hook (name : string) : M value :=
  if String.eqb name "href" then
    dict <- get_dict ;; ret (dict_href dict)
  else
    ensure_data ;;
    dict <- get_dict ;;
    match dict_get name dict with
    | Some v => ret v
    | None => raise AttributeError
    end.

(** [self.name] for a data attribute: the entry of [__dict__] when there
    is one, the hook otherwise.  (Names defined on the class, such as the
    methods, are found on the class and reach neither.) *)
Definition getattr (name : string) : M value :=
  dict <- get_dict ;;
  match dict_get name dict with
  | Some v => ret v
  | None => getattr_hook name
  end.

(** [_get_property_names()]. *)
Definition get_property_names (dict : props) : list string :=
  filter (fun a => negb (Py.startswith "_" a)) (dict_keys dict).

(** [__dir__()]. *)
Definition dir : M (list string) :=
  ensure_data ;; dict <- get_dict ;; ret (get_property_names dict).

Definition refresh : M unit :=
  h <- href ;;
  emit (UncacheResource h) ;;
  lift (uncache_resource h) ;;
  ensure_data.

(** [SaveMixin.save()]. *)
Definition save : M unit :=
  new <- is_new ;;
  if new then raise ValueError
  else
    r <- get_self ;;
    let properties := get_properties r in
    h <- href ;;
    emit (UpdateResource h properties) ;;
    data <- lift (update_resource h properties) ;;
    h <- href ;;
    emit (Send SIGNAL_RESOURCE_UPDATED h (Some properties)) ;;
    has <- has_attr (getattr "modified_at") ;;
    if has then
      match dict_get "modifiedAt" data with
      | Some stamp => t <- lift (parse stamp) ;; set_item "modified_at" t
      | None => ret tt
      end
    else ret tt.

(** [DeleteMixin.delete()]. *)
Definition delete : M unit :=
  new <- is_new ;;
  if new then ret tt
  else
    h <- href ;;
    emit (DeleteResource h) ;;
    lift (delete_resource h) ;;
    h <- href ;;
    emit (Send SIGNAL_RESOURCE_DELETED h None).

Definition STATUS_ENABLED : string := "ENABLED".
Definition STATUS_DISABLED : string := "DISABLED".

(** [value.method(...)] for a method of [str] on a value that is not a
    string.  A nested [Resource] answers through its own attribute
    protocol (which may fetch) and a [FixedAttrsDict] through its own
    [__getattr__]; what either finds is data, which cannot be called.  No
    other value has the method. *)
Definition str_method_on_other (slot method : string) (v : value) : M unit :=
  match v with
  | VResource c q e d =>
      visit slot (mkResource c q e d) (getattr method) ;; raise TypeError
  | VFixedAttrs _ d =>
      if dict_has method d then raise TypeError else raise AttributeError
  | _ => raise AttributeError
  end.

(** [StatusMixin.get_status()]. *)
Definition get_status : M string :=
  ensure_data ;;
  dict <- get_dict ;;
  match dict_get "status" dict with
  | Some (VStr s) => ret (Py.upper s)
  | Some v => str_method_on_other "status" "upper" v ;; raise AttributeError
  | None => ret (Py.upper STATUS_DISABLED)
  end.

Definition is_enabled : M bool :=
  s <- get_status ;; ret (String.eqb s STATUS_ENABLED).

(** [DictMixin.keys()]. *)
Definition keys : M (list string) :=
  ensure_data ;;
  dict <- get_dict ;;
  ret (filter (fun k => negb (Py.startswith "_" k)) (dict_keys dict)).

End Resource.

(** ** CollectionResource *)

(** An index given to [collection[idx]]: a slice (its step is not looked
    at), a string key or an integer. *)
Inductive index : Type :=
| Slice (start stop : option Z)
| Key (name : string)
| Position (i : Z).

Section CollectionResource.
Context {schema : Schema} {store : DataStore}.

(** [self.resource_class] and [self.create_path]. *)
Definition resource_class_of (cls : class) : class :=
  match cls with
  | Collection _ rc => rc
  | _ => Resource_cls
  end.

Definition create_path_of (cls : class) : option string :=
  match cls with
  | Collection cp _ => cp
  | _ => None
  end.

(** [for item in v]: the elements when [v] is a list.  An empty mapping
    or string has nothing to iterate; any other value either cannot be
    iterated or yields elements that [_wrap_resource_attr] rejects. *)
Definition elements_of (v : value) : result (list value) :=
  match v with
  | VList l => Ok l
  | VDict [] | VStr "" => Ok []
  | _ => Error TypeError
  end.

(** [a < b], [a + n] and [a - b] on Python integers. *)
Definition py_lt (a b : value) : result bool :=
  match a, b with
  | VInt x, VInt y => Ok (x <? y)
  | _, _ => Error TypeError
  end.

Definition py_add (a : value) (n : Z) : result value :=
  match a with
  | VInt x => Ok (VInt (x + n))
  | _ => Error TypeError
  end.

Definition len (items : list value) : Z := Z.of_nat (length items).

(** [CollectionResource._get_next_page(offset, limit)]. *)
Definition get_next_page (offset limit : value) : M (list value) :=
  q <- read_query ;;
  let params := or_empty q in
  if dict_has "offset" params || dict_has "limit" params then ret []
  else
    size <- getattr "size" ;;
    below <- lift (py_lt offset size) ;;
    if negb below then ret []
    else
      let params := dict_set "limit" limit (dict_set "offset" offset params) in
      h <- href ;;
      emit (GetResource h (Some params)) ;;
      data <- lift (get_resource h (Some params)) ;;
      r <- get_self ;;
      raw <- lift (elements_of (match dict_get "items" data with
                                | Some v => v
                                | None => VList []
                                end)) ;;
      items <- lift (wrap_items wrap_resource_attr
                       (resource_class_of (r_cls r)) raw) ;;
      held <- get_item "items" ;;
      match held with
      | VList old =>
          set_item "items" (VList (old ++ items)%list) ;;
          limit_now <- get_item "limit" ;;
          grown <- lift (py_add limit_now (len items)) ;;
          set_item "limit" grown ;;
          ret items
      | _ => raise AttributeError
      end.

(** The [while] loop of [__iter__].  [items] is the window being yielded
    (in the first round the very list held in [__dict__], which nothing
    extends before the round has read its length); the result is what the
    generator yields from here to its end. *)
Fixpoint iter_loop (fuel : nat) (items : list value) (offset limit : value)
  {struct fuel} : M (list value) :=
  match fuel with
  | O => out_of_fuel
  | S fuel' =>
      if 0 <? len items then
        short <- lift (py_lt (VInt (len items)) limit) ;;
        if short then ret items
        else
          offset <- lift (py_add offset (len items)) ;;
          page <- get_next_page offset limit ;;
          rest <- iter_loop fuel' page offset limit ;;
          ret (items ++ rest)%list
      else ret []
  end.

(** One pass of [CollectionResource.__iter__], run to its end: the
    elements yielded, in order.  (['items'] holds a list whenever
    [_set_properties] of a collection has stored it; the last case is for
    dictionaries that did not come from there.) *)
Definition iter (fuel : nat) : M (list value) :=
  ensure_data ;;
  held <- get_item "items" ;;
  offset <- get_item "offset" ;;
  limit <- get_item "limit" ;;
  match held with
  | VList items =>
      yielded <- iter_loop fuel items offset limit ;;
      set_item "limit" limit ;;
      ret yielded
  | _ => raise TypeError
  end.

(** [CollectionResource.__len__()]. *)
Definition length_of : M value :=
  ensure_data ;;
  size <- getattr "size" ;;
  dict <- get_dict ;;
  match dict_get "_sliced_size" dict with
  | Some n => ret n
  | None => ret size
  end.

(** [{self.to_camel_case(k): v for k, v in q.items()}]. *)
Definition camel_keys (q : props) : props :=
  fold_left (fun d kv => dict_set (to_camel_case (fst kv)) (snd kv) d) q [].

(** [CollectionResource.query], called with the keyword arguments
    [kwargs].  [q = self._query or {}] binds [q] to the dictionary object
    of the receiver when that is not empty, and to a new one otherwise;
    [q.update(kwargs)] then changes that object in place. *)
Definition query (kwargs : props) : M Resource :=
  r <- get_self ;;
  held <- read_query ;;
  q <- match r_query r, held with
       | Some l, Some (_ :: _) => ret l
       | _, _ => alloc []
       end ;;
  before <- deref q ;;
  assign q (dict_update before kwargs) ;;
  layered <- deref q ;;
  q' <- alloc (camel_keys layered) ;;
  h <- href ;;
  lift (Resource_init (r_cls r) h None (Some q') None).

(** [CollectionResource._get_create_path()]. *)
Definition get_create_path : M string :=
  r <- get_self ;;
  match create_path_of (r_cls r) with
  | Some (String c p) => ret (BASE_URL ++ String c p)
  | _ =>
      h <- href ;;
      match h with
      | VStr s => if Py.startswith BASE_URL s then ret s else ret (BASE_URL ++ s)
      | v => str_method_on_other "href" "startswith" v ;; raise AttributeError
      end
  end.

(** [CollectionResource.get(href, expand)]. *)
Definition get (target : string) (expand : option Expansion) : M Resource :=
  r <- get_self ;;
  target <- (if negb (Py.contains "/"%char target) then
               path <- get_create_path ;; ret (path ++ "/" ++ target)
             else ret target) ;;
  lift (Resource_init (resource_class_of (r_cls r)) (VStr target) None None expand).

Definition py_min (a b : value) : result value :=
  match a, b with
  | VInt x, VInt y => Ok (VInt (Z.min x y))
  | _, _ => Error TypeError
  end.

Definition py_sub (a b : value) : result value :=
  match a, b with
  | VInt x, VInt y => Ok (VInt (x - y))
  | _, _ => Error TypeError
  end.

Definition py_max0 (a : value) : result value :=
  match a with
  | VInt x => Ok (VInt (Z.max 0 x))
  | _ => Error TypeError
  end.

(** The slice branch of [CollectionResource.__getitem__]: the sliced
    view [r]. *)
Definition getitem_slice (start stop : option Z) : M Resource :=
  let start := match start with Some s => s | None => 0 end in
  let stop := match stop with Some s => s | None => 0 end in
  let query_ := [("offset", VInt start)] in
  let query_ := if negb (stop =? 0) && (start <? stop)
                then dict_set "limit" (VInt (stop - start)) query_
                else query_ in
  r <- query query_ ;;
  '(size1, r) <- on r (getattr "size") ;;
  let bound := match dict_get "limit" query_ with
               | Some l => l
               | None => size1
               end in
  '(size2, r) <- on r (getattr "size") ;;
  rest <- lift (rbind (py_sub size2 (VInt start)) py_max0) ;;
  sliced <- lift (py_min bound rest) ;;
  '(_, r) <- on r (set_item "_sliced_size" sliced) ;;
  ret r.

(** [self.__dict__['items'][i]] on a list, negative positions counting
    from the end. *)
Definition list_index (items : list value) (i : Z) : result value :=
  let n := len items in
  let at_ (k : Z) := match nth_error items (Z.to_nat k) with
                     | Some item => Ok item
                     | None => Error IndexError
                     end in
  if (0 <=? i) && (i <? n) then at_ i
  else if (i <? 0) && (- n <=? i) then at_ (n + i)
  else Error IndexError.

(** [CollectionResource.__getitem__(idx)]; the result is a collection for
    a slice, an element resource for a key and the indexed item for an
    integer. *)
Definition getitem (idx : index) : M value :=
  match idx with
  | Slice start stop =>
      r <- getitem_slice start stop ;; ret (value_of_resource r)
  | Key name =>
      r <- get name None ;; ret (value_of_resource r)
  | Position i =>
      ensure_data ;;
      held <- get_item "items" ;;
      match held with
      | VList items => lift (list_index items i)
      | _ => raise TypeError
      end
  end.

(** [len(self[start:stop])]. *)
Definition len_of_slice (start stop : option Z) : M value :=
  r <- getitem_slice start stop ;;
  '(n, _) <- on r length_of ;;
  ret n.

End CollectionResource.

(** ** A paged remote collection *)

(** The integer that [params] gives for [name], [default] when there is
    none. *)
Definition int_param (name : string) (params : option props) (default : Z) : Z :=
  match params with
  | Some p => match dict_get name p with
              | Some (VInt z) => z
              | _ => default
              end
  | None => default
  end.

(** The window of [limit] elements of [remote] that starts at [offset]. *)
Definition window {A} (offset limit : Z) (remote : list A) : list A :=
  firstn (Z.to_nat limit) (skipn (Z.to_nat offset) remote).

(** Modelled from the spec: the data-store boundary [fetch(locator, params)]
    (the data store itself is not part of this module), answering for a
    remote collection that holds the payloads [remote] in this order and
    serves pages of width [page] unless [params] asks otherwise: the
    answer carries the window asked for together with its [offset] and
    [limit] and the total [size]. *)
Definition paged_get (remote : list value) (page : Z) (h : value)
  (params : option props) : result props :=
  let offset := int_param "offset" params 0 in
  let limit := int_param "limit" params page in
  Ok [("href", h); ("offset", VInt offset); ("limit", VInt limit);
      ("size", VInt (len remote)); ("items", VList (window offset limit remote))].

(** Modelled from the spec: a data store in front of one paged remote
    collection; [update], [delete] and [invalidate] succeed. *)
Definition paged_store (remote : list value) (page : Z) : DataStore :=
  {| get_resource := paged_get remote page;
     update_resource := fun _ properties => Ok properties;
     delete_resource := fun _ => Ok tt;
     uncache_resource := fun _ => Ok tt |}.

(** Modelled from the spec: a data store that answers every fetch with the
    same property map [data]. *)
Definition fixed_store (data : props) : DataStore :=
  {| get_resource := fun _ _ => Ok data;
     update_resource := fun _ properties => Ok properties;
     delete_resource := fun _ => Ok tt;
     uncache_resource := fun _ => Ok tt |}.

(** A schema with no concrete resource types. *)
Definition bare_schema : Schema :=
  {| resource_attributes := fun _ => [];
     writable_attributes := fun _ => [];
     BASE_URL := "https://api.stormpath.com/v1";
     parse_date := fun _ => Some 0 |}.

(** [n] remote payloads, each a bare reference [{'href': ...}]. *)
Definition remote_refs (n : nat) : list value :=
  map (fun i => VDict [("href", VStr ("/accounts/" ++ Py.str_of_int (Z.of_nat i)))])
    (seq 0 n).


(** The state in which a method starts on the instance [r]. *)
Definition start (r : Resource) (h : list props) : state := mkState r h [].

(** An instance that was built from a locator only. *)
Definition lazy (cls : class) (h : string) : Resource :=
  mkResource cls None None [("href", VStr h)].

(** ** Definitions used in the statements below *)

(** What the loop appends for the character [c]. *)
Definition snake_char (c : ascii) : string :=
  if Py.isupper c then String Py.UNDERSCORE (String (Py.lower_char c) "")
  else String c "".

(** The reading of the specification: the leading character is kept as it
    is and only the characters after it are converted. *)
Definition leading_case_preserved (name : string) : string :=
  match name with
  | EmptyString => EmptyString
  | String c rest => String c (from_camel_case rest)
  end.

(** The identifiers of the round-trip law: lowercase letters, digits and
    underscores. *)
Definition ident_char (c : ascii) : bool :=
  Py.islower c || Py.isdigit c || Ascii.eqb c Py.UNDERSCORE.

Fixpoint identifier (s : string) : bool :=
  match s with
  | EmptyString => true
  | String c rest => ident_char c && identifier rest
  end.

(** What stood just before the position being read. *)
Inductive previous : Type := AfterUnderscore | AfterLetter | AfterDigit.

(** The text after an underscore is well separated when every underscore
    (the one before it included) is directly followed by a letter and no
    letter directly follows a digit. *)
Fixpoint well_separated_from (p : previous) (s : string) : bool :=
  match s with
  | EmptyString => match p with AfterUnderscore => false | _ => true end
  | String c rest =>
      if Py.islower c then
        match p with
        | AfterDigit => false
        | _ => well_separated_from AfterLetter rest
        end
      else if Py.isdigit c then
        match p with
        | AfterUnderscore => false
        | _ => well_separated_from AfterDigit rest
        end
      else
        match p with
        | AfterUnderscore => false
        | _ => well_separated_from AfterUnderscore rest
        end
  end.

(** A name is well separated when it has no underscore, or when the text
    after its first underscore is. *)
Definition well_separated (name : string) : bool :=
  if Py.contains Py.UNDERSCORE name
  then well_separated_from AfterUnderscore (snd (Py.split_once Py.UNDERSCORE name))
  else true.

(** Whether [title] has just passed a cased character. *)
Definition cased (p : previous) : bool :=
  match p with AfterLetter => true | _ => false end.

(** The text that the round trip has to give back from [s] on. *)
Definition expected (p : previous) (s : string) : string :=
  match p with
  | AfterUnderscore => String Py.UNDERSCORE s
  | _ => s
  end.

(** The way back for the text after the first underscore. *)
Definition back (previous_is_cased : bool) (s : string) : string :=
  from_camel_case (Py.remove Py.UNDERSCORE (Py.title_from previous_is_cased s)).

(** The locator is absent: [__dict__] has no ['href'], or holds [None]
    for it. *)
Definition href_absent (r : Resource) : Prop :=
  dict_get "href" (r_dict r) = None \/ dict_get "href" (r_dict r) = Some VNone.

(** A schema with two concrete resource types. *)
Definition demo_schema : Schema :=
  {| resource_attributes := fun name =>
       if String.eqb name "Account"
       then [("directory", Entity "Directory");
             ("groups", Collection None (Entity "Group"))]
       else [];
     writable_attributes := fun name =>
       if String.eqb name "Account" then ["email"; "given_name"; "status"]
       else ["name"];
     BASE_URL := "https://api.stormpath.com/v1";
     parse_date := fun _ => Some 0 |}.

(** An account that was built from properties and never saved. *)
Definition unsaved_account : Resource :=
  mkResource (Entity "Account") None None [("email", VStr "a@example.com")].

(** The classes whose [_set_properties] is [Resource._set_properties]
    itself. *)
Definition plain_resource_class (cls : class) : bool :=
  match cls with
  | Resource_cls | Entity _ => true
  | _ => false
  end.

(** The attribute [key] of a payload is merged by the loop of
    [Resource._set_properties] on an instance of [cls]: [cls] is a class
    of resources and, when it is a collection class, the local name of
    [key] is not ['items'] ([CollectionResource._set_properties] takes
    ['items'] out of the payload and stores the wrapped elements under
    that name afterwards). *)
Definition merged_by_loop (cls : class) (key : string) : bool :=
  match cls with
  | Resource_cls | Entity _ => true
  | Collection _ _ => negb (String.eqb (from_camel_case key) "items")
  | FixedAttrs _ => false
  end.

(** The locator of a wire value that is a mapping with a string under
    ['href']. *)
Definition reference_to (v : value) : option string :=
  match v with
  | VDict entries =>
      match dict_get "href" entries with
      | Some (VStr h) => Some h
      | _ => None
      end
  | _ => None
  end.

(** The wire value is a mapping that has the key ['href']. *)
Definition has_href (v : value) : bool :=
  match v with
  | VDict entries => dict_has "href" entries
  | _ => false
  end.

(** The mapping that [self._query] holds now (empty for [None]). *)
Definition current_query (st : state) : props :=
  match r_query (self st) with
  | Some l => nth l (heap st) []
  | None => []
  end.

(** The active query pins an explicit window. *)
Definition pinned (st : state) : bool :=
  dict_has "offset" (current_query st) || dict_has "limit" (current_query st).

(** A collection reached through a search, [q = 'a'] being its query. *)
Definition filtered_collection : Resource :=
  mkResource CollectionResource_cls (Some 0%nat) None [("href", VStr "/applications")].

Definition filtered_start : state :=
  start filtered_collection [[("q", VStr "a")]].

(** The status held is itself a [Resource]. *)
Definition status_is_resource (st : state) : bool :=
  match dict_get "status" (r_dict (self st)) with
  | Some (VResource _ _ _ _) => true
  | _ => false
  end.

(** An account as the data store has returned it. *)
Definition saved_account : Resource :=
  mkResource (Entity "Account") None None
    [("href", VStr "/accounts/1"); ("email", VStr "a@example.com");
     ("given_name", VStr "Ann");
     ("directory",
      VResource (Entity "Directory") None None [("href", VStr "/directories/9")])].

(** The locator is absent, as a test. *)
Definition absent (st : state) : bool :=
  match dict_href (r_dict (self st)) with
  | VNone => true
  | _ => false
  end.

(** What the remote side holds for one account. *)
Definition account_payload : props :=
  [("href", VStr "/accounts/1"); ("email", VStr "a@example.com");
   ("status", VStr "enabled")].

(** Three reads on an instance: an attribute, the status and the keys. *)
Definition three_reads {schema : Schema} {store : DataStore} : M (list string) :=
  getattr "email" ;; get_status ;; keys.

(** The state in which methods run on the instance that [res] has just
    built (the state of [res] itself when it built none). *)
Definition enter (res : outcome Resource * state) : state :=
  match fst res with
  | Ret r => mkState r (heap (snd res)) (trace (snd res))
  | _ => snd res
  end.





(** The store serves the remote collection [remote] in windows, pages
    being [page] wide when no width is asked for. *)
Definition serves {store : DataStore} (remote : list value) (page : Z) : Prop :=
  forall h params, get_resource h params = paged_get remote page h params.

(** The dictionary of a collection once a page answer has been merged
    into [d]. *)
Definition page_dict (h : string) (offset limit size : Z) (items : list value)
  (d : props) : props :=
  dict_set "items" (VList items)
    (dict_set "size" (VInt size)
       (dict_set "limit" (VInt limit)
          (dict_set "offset" (VInt offset)
             (dict_set "href" (VStr h) d)))).

(** No window is recorded yet, or the recorded one is the first page. *)
Definition first_window (page : Z) (st : state) : Prop :=
  (dict_get "limit" (r_dict (self st)) = None \/
   dict_get "offset" (r_dict (self st)) = None) \/
  (dict_get "limit" (r_dict (self st)) = Some (VInt page) /\
   dict_get "offset" (r_dict (self st)) = Some (VInt 0)).


(** A collection reached from the client, not yet fetched. *)
Definition applications : state :=
  start (lazy CollectionResource_cls "/applications") [].

(** The collection [query(limit=3)] of the applications. *)
Definition limited_applications : state :=
  start (mkResource CollectionResource_cls (Some 0%nat) None
           [("href", VStr "/applications")])
    [[("limit", VInt 3)]].

(** ** More of the module, and the definitions its properties are stated with *)

Fixpoint has_upper (s : string) : bool :=
  match s with
  | EmptyString => false
  | String c rest => Py.isupper c || has_upper rest
  end.

Definition alnum_char (c : ascii) : bool :=
  Py.islower c || Py.isupper c || Py.isdigit c.

Fixpoint alnum (s : string) : bool :=
  match s with
  | EmptyString => true
  | String c rest => alnum_char c && alnum rest
  end.

Fixpoint no_lower_after_digit (after_digit : bool) (s : string) : bool :=
  match s with
  | EmptyString => true
  | String c rest =>
      if Py.islower c then negb after_digit && no_lower_after_digit false rest
      else if Py.isdigit c then no_lower_after_digit true rest
      else no_lower_after_digit false rest
  end.

Fixpoint camel_separated (s : string) : bool :=
  match s with
  | EmptyString => true
  | String c rest =>
      if Py.isupper c then no_lower_after_digit false rest
      else camel_separated rest
  end.

Fixpoint has_digit (s : string) : bool :=
  match s with
  | EmptyString => false
  | String c rest => Py.isdigit c || has_digit rest
  end.

(** A name of 7-bit characters, on which [lower], [upper] and [title]
    here are those of Python's [str]. *)
Fixpoint seven_bit (s : string) : bool :=
  match s with
  | EmptyString => true
  | String c rest => (nat_of_ascii c <? 128)%nat && seven_bit rest
  end.

(** No name occurs twice. *)
Fixpoint distinct (names : list string) : bool :=
  match names with
  | [] => true
  | n :: rest => negb (name_in n rest) && distinct rest
  end.

(** A value that is neither a mapping nor an instance. *)
Definition plain_value (v : value) : bool :=
  match v with
  | VDict _ | VResource _ _ _ _ | VFixedAttrs _ _ => false
  | _ => true
  end.

(** An entry of a payload whose key is made of letters and digits and
    which, when its local name is writable, is stored as it came and has a
    key that the codec gives back. *)
Definition echoed {schema : Schema} (cls : class) (kv : string * value) : bool :=
  let name := from_camel_case (fst kv) in
  alnum (fst kv) &&
  (negb (name_in name (writable_attrs cls)) ||
   camel_separated (fst kv) &&
   negb (dict_has name (get_resource_attributes cls)) &&
   negb (name_in name TIMESTAMPS) &&
   plain_value (snd kv)).

(** The entries of a payload whose local name is writable. *)
Definition writable_part {schema : Schema} (cls : class) (p : props) : props :=
  filter (fun kv => name_in (from_camel_case (fst kv)) (writable_attrs cls)) p.

(** A schema with a resource type that links two others. *)
Definition membership_schema : Schema :=
  {| resource_attributes := fun name =>
       if String.eqb name "GroupMembership"
       then [("account", Entity "Account"); ("group", Entity "Group")]
       else [];
     writable_attributes := fun name =>
       if String.eqb name "GroupMembership" then ["account"; "group"]
       else ["name"];
     BASE_URL := "https://api.stormpath.com/v1";
     parse_date := fun _ => Some 0 |}.

(** A membership as the data store has returned it. *)
Definition membership : Resource :=
  mkResource (Entity "GroupMembership") None None
    [("href", VStr "/groupMemberships/1");
     ("account", VResource (Entity "Account") None None [("href", VStr "/accounts/1")]);
     ("group", VResource (Entity "Group") None None [("href", VStr "/groups/2")])].

(** ** FixedAttrsDict *)

(** A [FixedAttrsDict] instance is its class and its [__dict__]; it has no
    data store behind it, so its methods are functions of the dictionary. *)
Module FixedAttrsDict.
Section Methods.
Context {schema : Schema}.

(** [cls(client, properties)]: the dictionary of the new instance. *)
Definition init (cls : class) (properties : props) : result props :=
  set_properties_loop wrap_resource_attr true false
    (get_resource_attributes cls) properties [].

(** [FixedAttrsDict.__setattr__(name, value)]. *)
Definition setattr (cls : class) (name : string) (v : value) (dict : props) :
  result props :=
  if Py.startswith "_" name || name_in name (writable_attrs cls)
  then Ok (dict_set name v dict)
  else Error AttributeError.

(** [self.name]: the entry of [__dict__], and [__getattr__] otherwise,
    which finds nothing more. *)
Definition getattr (name : string) (dict : props) : result value :=
  match dict_get name dict with
  | Some v => Ok v
  | None => Error AttributeError
  end.

(** [__dir__()]. *)
Definition dir (dict : props) : list string := dict_keys dict.

(** [keys()]. *)
Definition keys (dict : props) : list string :=
  filter (fun k => negb (Py.startswith "_" k)) (dict_keys dict).

(** [_get_properties()]. *)
Definition get_properties (cls : class) (dict : props) : props :=
  get_properties_loop (sanitize_property true) (writable_attrs cls) dict [].

End Methods.
End FixedAttrsDict.

(** How [_set_properties] stores the entry [kv] of a payload: under its
    local name, and as it came when nothing converts it. *)
Definition kept (attrs : list (string * class)) (kv nw : string * value) : Prop :=
  fst nw = from_camel_case (fst kv) /\
  (dict_has (fst nw) attrs = false -> name_in (fst nw) TIMESTAMPS = false ->
   plain_value (snd kv) = true -> snd nw = snd kv).

(** ** Writes, the status test and the dictionary protocol *)

Section Writes.
Context {schema : Schema} {store : DataStore}.

(** [Resource.__setattr__(name, value)], which Python calls for every
    [self.name = value]; [object.__setattr__] puts the value into
    [__dict__].  (The four bookkeeping slots are fields of their own here;
    the names meant are all the others.) *)
Definition setattr (name : string) (v : value) : M unit :=
  r <- get_self ;;
  if Py.startswith "_" name || name_in name (writable_attrs (r_cls r))
  then set_item name v
  else raise AttributeError.

(** [StatusMixin.is_disabled()]. *)
Definition is_disabled : M bool :=
  s <- get_status ;; ret (String.eqb s STATUS_DISABLED).

End Writes.

(** [DictMixin] on a [Resource]. *)
Module DictMixin.
Section Protocol.
Context {schema : Schema} {store : DataStore}.

(** [__getitem__(key)] and [__setitem__(key, value)], for the name of a
    data attribute. *)
Definition getitem (key : string) : M value := getattr key.

Definition setitem (key : string) (v : value) : M unit := setattr key v.

(** [__contains__(key)], which is [hasattr(self, key)].  Normal lookup
    comes first: it finds the names that the class defines (its methods
    and class attributes) and the four bookkeeping slots, which is what
    [defined] tells, and it finds the entries of [__dict__]; only for
    another name is [__getattr__] asked, and an [AttributeError] from
    there is the answer no. *)
Definition contains (defined : string -> bool) (key : string) : M bool :=
  if defined key then ret true else has_attr (getattr key).

(** [[f(k, self.__dict__[k]) for k in ks]]. *)
Fixpoint for_keys {A : Type} (f : string -> value -> A) (dict : props)
  (ks : list string) : result (list A) :=
  match ks with
  | [] => Ok []
  | k :: rest =>
      match dict_get k dict with
      | Some v => rbind (for_keys f dict rest) (fun r => Ok (f k v :: r))
      | None => Error KeyError
      end
  end.

(** [values()] and [items()]. *)
Definition values : M (list value) :=
  ks <- keys ;; dict <- get_dict ;; lift (for_keys (fun _ v => v) dict ks).

Definition items : M (list (string * value)) :=
  ks <- keys ;; dict <- get_dict ;; lift (for_keys (fun k v => (k, v)) dict ks).

(** [__iter__()], run to its end. *)
Definition iter : M (list string) := keys.

(** The loop of [update]: [setattr(self, k, v)] for every entry. *)
Fixpoint setattr_each (dct : props) : M unit :=
  match dct with
  | [] => ret tt
  | (k, v) :: rest => setattr k v ;; setattr_each rest
  end.

(** [update(dct)]; [save_method] is the [save] of the class when the
    class is a [SaveMixin]. *)
Definition update (save_method : option (M unit)) (dct : props) : M unit :=
  setattr_each dct ;;
  match save_method with
  | Some save_ => save_
  | None => ret tt
  end.

End Protocol.
End DictMixin.

(** The state [st] once the effects [t] have been added to its trace. *)
Definition after (st : state) (t : list effect) : state :=
  mkState (self st) (heap st) (trace st ++ t).

(** The state [st] with [dict] as the receiver's [__dict__]. *)
Definition with_dict (st : state) (dict : props) : state :=
  mkState (mkResource (r_cls (self st)) (r_query (self st)) (r_expand (self st)) dict)
    (heap st) (trace st).

(** Every entry of [dct] names a writable attribute of [cls]. *)
Definition all_writable {schema : Schema} (cls : class) (dct : props) : bool :=
  forallb (fun kv => name_in (fst kv) (writable_attrs cls)) dct.

(** Every effect of [t] is a fetch. *)
Definition only_fetches (t : list effect) : bool := forallb is_fetch t.

(** A data store whose [update] and [delete] fail. *)
Definition failing_store (data : props) : DataStore :=
  {| get_resource := fun _ _ => Ok data;
     update_resource := fun _ _ => Error (RemoteError "update");
     delete_resource := fun _ => Error (RemoteError "delete");
     uncache_resource := fun _ => Ok tt |}.

(** ** Searches *)

Section Searches.
Context {schema : Schema}.

(** [CollectionResource.search(query)]. *)
Definition search (q : value) : M Resource :=
  match q with
  | VDict kwargs => query kwargs
  | _ => query [("q", q)]
  end.

(** [CollectionResource.order(order_by)]. *)
Definition order (order_by : string) : M Resource :=
  query [("orderBy", VStr (to_camel_case order_by))].

End Searches.

(** ** Expansions, creation *)

(** [Expansion(k1, k2, ...)]: every attribute named starts with no
    window. *)
Definition Expansion_init (args : list string) : Expansion :=
  mkExpansion (fold_left (fun items k => dict_set k [] items) args []).

(** The text of a window in the [expand] parameter. *)
Definition window_text (offset limit : option Z) : string :=
  match offset, limit with
  | None, None => ""
  | Some o, None => "(offset:" ++ Py.str_of_int o ++ ")"
  | None, Some l => "(limit:" ++ Py.str_of_int l ++ ")"
  | Some o, Some l =>
      "(offset:" ++ Py.str_of_int o ++ ",limit:" ++ Py.str_of_int l ++ ")"
  end.

Section Create.
Context {schema : Schema}.

(** The loop of [CollectionResource.create] over [properties.items()],
    which builds the [data] that is sent: a mapping under a declared
    attribute is wrapped first, and only writable attributes are kept. *)
Fixpoint create_data (resource_class : class) (properties data : props)
  {struct properties} : result props :=
  match properties with
  | [] => Ok data
  | (k, v) :: rest =>
      rbind
        (match v, dict_get k (get_resource_attributes resource_class) with
         | VDict _, Some cls => wrap_resource_attr false cls v
         | _, _ => Ok v
         end)
        (fun v =>
           if name_in k (writable_attrs resource_class)
           then create_data resource_class rest
                  (dict_set (to_camel_case k) (sanitize_property false v) data)
           else create_data resource_class rest data)
  end.

(** The [params] that [create] sends. *)
Definition create_params (params : props) (expand : option Expansion) : props :=
  let params := camel_keys params in
  match expand with
  | Some e => dict_update params [("expand", VStr (get_params e))]
  | None => params
  end.

End Create.

(** A [FixedAttrsDict] class. *)
Definition is_fixed (cls : class) : bool :=
  match cls with
  | FixedAttrs _ => true
  | _ => false
  end.

(** An instance: a [Resource] or a [FixedAttrsDict]. *)
Definition is_instance (v : value) : bool :=
  match v with
  | VResource _ _ _ _ | VFixedAttrs _ _ => true
  | _ => false
  end.




(** ** AutoSaveMixin *)

Section AutoSave.
Context {schema : Schema} {store : DataStore}.

(** [self.__dict__[res].save()] for the value [v] held under [res].
    [nested_save] gives the [save] method of a resource class that has
    one.  An instance of a class without one answers through its own
    attribute protocol, and what that finds is data, which cannot be
    called; no other value has the method. *)
Definition save_held (nested_save : class -> option (M unit)) (res : string)
  (v : value) : M unit :=
  match v with
  | VResource c q e d =>
      match nested_save c with
      | Some save_ => visit res (mkResource c q e d) save_
      | None => visit res (mkResource c q e d) (getattr "save") ;; raise TypeError
      end
  | VFixedAttrs _ d =>
      if dict_has "save" d then raise TypeError else raise AttributeError
  | _ => raise AttributeError
  end.

(** The loop of [AutoSaveMixin.save] over [self.autosaves]. *)
Fixpoint autosave_loop (nested_save : class -> option (M unit))
  (autosaves : list string) : M unit :=
  match autosaves with
  | [] => ret tt
  | res :: rest =>
      dict <- get_dict ;;
      match dict_get res dict with
      | Some v => save_held nested_save res v ;; autosave_loop nested_save rest
      | None => autosave_loop nested_save rest
      end
  end.

(** [AutoSaveMixin.save()] for a class whose [autosaves] are given. *)
Definition AutoSaveMixin_save (autosaves : list string)
  (nested_save : class -> option (M unit)) : M unit :=
  save ;; autosave_loop nested_save autosaves.

End AutoSave.

(** An account with custom data that was never saved. *)
Definition account_with_new_data : Resource :=
  mkResource (Entity "Account") None None
    [("href", VStr "/accounts/1"); ("email", VStr "a@example.com");
     ("modified_at", VDatetime 0);
     ("custom_data", VResource (Entity "CustomData") None None [("rank", VInt 1)])].


(** * Properties *)

(** Running the monad by hand: unfold the primitive steps, then reduce the
    projections of the state. *)
Ltac run :=
  repeat progress
    (unfold get_item, set_item, get_dict, get_self, put_dict, href,
       read_query, emit, lift, ret, raise, out_of_fuel, bind;
     cbn beta iota zeta delta
       [fst snd self heap trace r_dict r_query r_cls r_expand]).

Tactic Notation "run" "in" hyp(H) :=
  repeat progress
    (unfold get_item, set_item, get_dict, get_self, put_dict, href,
       read_query, emit, lift, ret, raise, out_of_fuel, bind in H;
     cbn beta iota zeta delta
       [fst snd self heap trace r_dict r_query r_cls r_expand] in H).

(** ** The model at work *)

Example to_camel_case_created_at : to_camel_case "created_at" = "createdAt".
Proof. reflexivity. Qed.

Example to_camel_case_three_words :
  to_camel_case "default_account_store_mapping" = "defaultAccountStoreMapping".
Proof. reflexivity. Qed.

Example to_camel_case_no_underscore : to_camel_case "href" = "href".
Proof. reflexivity. Qed.

Example from_camel_case_modified_at : from_camel_case "modifiedAt" = "modified_at".
Proof. reflexivity. Qed.

Example get_params_three :
  get_params
    (add_property
       (add_property (mkExpansion [("tenant", [])]) "accounts" (Some 0) (Some 10))
       "groups" None (Some 5)) =
  "tenant,accounts(offset:0,limit:10),groups(limit:5)".
Proof. reflexivity. Qed.

(** Materialising an account: a declared attribute becomes an instance of
    its class, a declared collection wraps its items, a timestamp is
    parsed, an undeclared reference becomes a generic resource. *)
Example set_properties_account :
  set_properties (schema := demo_schema) (Entity "Account")
    [("href", VStr "/accounts/1"); ("givenName", VStr "Ann");
     ("directory", VDict [("href", VStr "/directories/9")]);
     ("groups", VDict [("href", VStr "/accounts/1/groups");
                       ("items", VList [VDict [("name", VStr "admins")]])]);
     ("createdAt", VStr "2014-01-01T00:00:00Z");
     ("customData", VDict [("href", VStr "/accounts/1/customData")])] [] =
  Ok [("href", VStr "/accounts/1"); ("given_name", VStr "Ann");
       ("directory",
        VResource (Entity "Directory") None None [("href", VStr "/directories/9")]);
       ("groups",
        VResource (Collection None (Entity "Group")) None None
          [("href", VStr "/accounts/1/groups");
           ("items",
            VList [VResource (Entity "Group") None None [("name", VStr "admins")]])]);
       ("created_at", VDatetime 0);
       ("custom_data",
        VResource Resource_cls None None [("href", VStr "/accounts/1/customData")])].
Proof. reflexivity. Qed.

(** Saving a persisted account sends its writable attributes in wire
    form, then the signal. *)
Example save_account :
  trace (snd (save (schema := demo_schema) (store := fixed_store account_payload)
                (start saved_account []))) =
  [UpdateResource (VStr "/accounts/1")
     [("email", VStr "a@example.com"); ("givenName", VStr "Ann")];
   Send SIGNAL_RESOURCE_UPDATED (VStr "/accounts/1")
     (Some [("email", VStr "a@example.com"); ("givenName", VStr "Ann")]);
   GetResource (VStr "/accounts/1") None].
Proof. reflexivity. Qed.

Example delete_account :
  trace (snd (delete (store := fixed_store account_payload)
                (start saved_account []))) =
  [DeleteResource (VStr "/accounts/1");
   Send SIGNAL_RESOURCE_DELETED (VStr "/accounts/1") None].
Proof. reflexivity. Qed.

(** [refresh()] evicts and fetches again. *)
Example refresh_applications :
  trace (snd (refresh (schema := bare_schema)
                (store := paged_store (remote_refs 2) 25) applications)) =
  [UncacheResource (VStr "/applications");
   GetResource (VStr "/applications") None].
Proof. reflexivity. Qed.

Example is_enabled_account :
  fst (is_enabled (schema := demo_schema) (store := fixed_store account_payload)
         (start (lazy (Entity "Account") "/accounts/1") [])) = Ret true.
Proof. reflexivity. Qed.

(** A pass over seven elements in pages of three. *)
Example iter_seven_by_three :
  trace (snd (iter (schema := bare_schema) (store := paged_store (remote_refs 7) 3)
                8 applications)) =
  [GetResource (VStr "/applications") None;
   GetResource (VStr "/applications")
     (Some [("offset", VInt 3); ("limit", VInt 3)]);
   GetResource (VStr "/applications")
     (Some [("offset", VInt 6); ("limit", VInt 3)])].
Proof. reflexivity. Qed.

(** A pass on an instance that records a window of its own: with offset
    2 and limit 3 recorded, the pass asks for that window again and goes
    on from there, five of the seven elements in two fetches. *)
Example iter_from_recorded_window :
  let run :=
    iter (schema := bare_schema) (store := paged_store (remote_refs 7) 3) 8
      (start
         (mkResource CollectionResource_cls None None
            [("href", VStr "/applications"); ("offset", VInt 2);
             ("limit", VInt 3)]) []) in
  match fst run with
  | Ret yielded => length yielded = 5%nat
  | _ => False
  end /\
  fetches (trace (snd run)) = 2%nat.
Proof. split; reflexivity. Qed.

(** ** Characters *)

Lemma eqb_lower_char (c : ascii) :
  Ascii.eqb c (Py.lower_char c) = negb (Py.isupper c).
Proof. destruct c as [[] [] [] [] [] [] [] []]; reflexivity. Qed.

Lemma islower_upper_char (c : ascii) :
  Py.islower c = true ->
  Py.isupper (Py.upper_char c) = true /\
  Py.lower_char (Py.upper_char c) = c /\
  Ascii.eqb (Py.upper_char c) Py.UNDERSCORE = false /\
  Py.isupper c = false /\
  Ascii.eqb c Py.UNDERSCORE = false.
Proof.
  destruct c as [[] [] [] [] [] [] [] []]; intros H;
    try discriminate H; repeat split; reflexivity.
Qed.

Lemma isdigit_plain (c : ascii) :
  Py.isdigit c = true ->
  Py.islower c = false /\ Py.isupper c = false /\
  Ascii.eqb c Py.UNDERSCORE = false.
Proof.
  destruct c as [[] [] [] [] [] [] [] []]; intros H;
    try discriminate H; repeat split; reflexivity.
Qed.

(** ** [from_camel_case], one character at a time *)

Lemma append_nil_r (s : string) : s ++ "" = s.
Proof. induction s as [|c s IH]; simpl; [reflexivity | now rewrite IH]. Qed.

Lemma append_assoc (a b c : string) : (a ++ b) ++ c = a ++ (b ++ c).
Proof. induction a as [|x a IH]; simpl; [reflexivity | now rewrite IH]. Qed.

Lemma append_cancel_l (a b c : string) : a ++ b = a ++ c <-> b = c.
Proof.
  split; [|now intros ->].
  induction a as [|x a IH]; simpl; intros H; [exact H|].
  injection H as H. auto.
Qed.

Lemma join_app (a b : list string) : Py.join (a ++ b) = Py.join a ++ Py.join b.
Proof.
  induction a as [|p a IH]; simpl.
  - reflexivity.
  - rewrite IH. now rewrite append_assoc.
Qed.

Lemma from_camel_case_loop_acc (name : string) (cs : list string) :
  Py.join (from_camel_case_loop name cs) =
  Py.join cs ++ Py.join (from_camel_case_loop name []).
Proof.
  revert cs. induction name as [|c rest IH]; intros cs; simpl.
  - now rewrite append_nil_r.
  - destruct (Ascii.eqb c (Py.lower_char c)).
    + rewrite (IH (cs ++ _)%list), (IH [_]), join_app.
      now rewrite append_assoc.
    + rewrite (IH (cs ++ _)%list), (IH [_; _]), join_app.
      now rewrite append_assoc.
Qed.

Lemma from_camel_case_cons (c : ascii) (rest : string) :
  from_camel_case (String c rest) = snake_char c ++ from_camel_case rest.
Proof.
  unfold from_camel_case, snake_char. simpl.
  rewrite eqb_lower_char.
  destruct (Py.isupper c); simpl; rewrite from_camel_case_loop_acc; reflexivity.
Qed.

Lemma from_camel_case_app (a b : string) :
  from_camel_case (a ++ b) = from_camel_case a ++ from_camel_case b.
Proof.
  induction a as [|c a IH]; simpl.
  - reflexivity.
  - rewrite !from_camel_case_cons, IH. now rewrite append_assoc.
Qed.

(** C6, as the code has it: [from_camel_case] turns every uppercase
    character of the name, the leading one included, into an underscore
    followed by its lowercase form, and copies every other character; so
    for a name split anywhere as [pre ++ c ++ post] the character [c]
    contributes ["_" ++ lower c] when it is uppercase and [c] otherwise. *)
Theorem from_camel_case_every_uppercase (pre post : string) (c : ascii) :
  from_camel_case (pre ++ String c post) =
  from_camel_case pre ++
  (if Py.isupper c then String Py.UNDERSCORE (String (Py.lower_char c) "")
   else String c "") ++
  from_camel_case post.
Proof.
  rewrite from_camel_case_app, from_camel_case_cons. reflexivity.
Qed.

(** C6 fails on the name [Foo]: the leading [F] gains an underscore and is
    lowered. *)
Lemma from_camel_case_leading_upper :
  from_camel_case "Foo" = "_foo" /\
  from_camel_case "Foo" <> leading_case_preserved "Foo".
Proof. split; [reflexivity | discriminate]. Qed.

(** ** The round trip through [to_camel_case] *)

Lemma ident_char_cases (c : ascii) :
  ident_char c = true ->
  Py.islower c = true \/
  (Py.islower c = false /\ Py.isdigit c = true) \/
  (Py.islower c = false /\ Py.isdigit c = false /\ c = Py.UNDERSCORE).
Proof.
  unfold ident_char. intros H.
  destruct (Py.islower c); [now left | right].
  destruct (Py.isdigit c); [now left | right].
  simpl in H. apply Ascii.eqb_eq in H. auto.
Qed.

Lemma back_nil (b : bool) : back b "" = "".
Proof. reflexivity. Qed.

Lemma back_letter (b : bool) (c : ascii) (s : string) :
  Py.islower c = true ->
  back b (String c s) =
  (if b then String c "" else String Py.UNDERSCORE (String c "")) ++ back true s.
Proof.
  intros Hc. destruct (islower_upper_char c Hc) as (Hu & Hl & Hn & Hnu & Hcn).
  unfold back. simpl. rewrite Hc. destruct b; simpl.
  - rewrite Hcn, from_camel_case_cons. unfold snake_char. now rewrite Hnu.
  - rewrite Hn, from_camel_case_cons. unfold snake_char. now rewrite Hu, Hl.
Qed.

Lemma back_digit (b : bool) (c : ascii) (s : string) :
  Py.isdigit c = true -> back b (String c s) = String c (back false s).
Proof.
  intros Hc. destruct (isdigit_plain c Hc) as (Hl & Hu & Hn).
  unfold back. simpl. rewrite Hl, Hu. simpl.
  rewrite Hn, from_camel_case_cons. unfold snake_char. now rewrite Hu.
Qed.

Lemma back_underscore (b : bool) (s : string) :
  back b (String Py.UNDERSCORE s) = back false s.
Proof. reflexivity. Qed.

Lemma back_no_double_underscore (s t : string) :
  identifier s = true ->
  back false s <> String Py.UNDERSCORE (String Py.UNDERSCORE t).
Proof.
  induction s as [|c s IH]; simpl; intros Hs.
  - discriminate.
  - apply andb_true_iff in Hs as [Hc Hs].
    destruct (ident_char_cases c Hc) as [Hl | [[_ Hd] | (_ & _ & ->)]].
    + rewrite (back_letter _ _ _ Hl). simpl. intros E. injection E as E _.
      destruct (islower_upper_char c Hl) as (_ & _ & _ & _ & Hn).
      rewrite E in Hn. discriminate.
    + rewrite (back_digit _ _ _ Hd). intros E. injection E as E _.
      destruct (isdigit_plain c Hd) as (_ & _ & Hn).
      rewrite E in Hn. discriminate.
    + rewrite back_underscore. auto.
Qed.

Lemma back_expected (s : string) :
  identifier s = true ->
  forall p, back (cased p) s = expected p s <-> well_separated_from p s = true.
Proof.
  induction s as [|c s IH]; simpl; intros Hs p.
  - destruct p; simpl; rewrite ?back_nil; split; (reflexivity || discriminate).
  - apply andb_true_iff in Hs as [Hc Hs]. specialize (IH Hs).
    destruct (ident_char_cases c Hc) as [Hl | [[Hl Hd] | (Hl & Hd & ->)]].
    + rewrite Hl, (back_letter _ _ _ Hl).
      destruct (islower_upper_char c Hl) as (_ & _ & _ & _ & Hn).
      destruct p; simpl.
      * rewrite <- (IH AfterLetter). simpl.
        split; [intros E; now injection E | now intros ->].
      * rewrite <- (IH AfterLetter). simpl.
        split; [intros E; now injection E | now intros ->].
      * split; [|discriminate]. intros E. injection E as E _.
        rewrite <- E in Hn. discriminate.
    + rewrite Hl, Hd, (back_digit _ _ _ Hd).
      destruct (isdigit_plain c Hd) as (_ & _ & Hn).
      destruct p; simpl.
      * split; [|discriminate]. intros E. injection E as E _.
        rewrite E in Hn. discriminate.
      * rewrite <- (IH AfterDigit). simpl.
        split; [intros E; now injection E | now intros ->].
      * rewrite <- (IH AfterDigit). simpl.
        split; [intros E; now injection E | now intros ->].
    + rewrite Hl, Hd, back_underscore.
      destruct p; simpl.
      * split; [|discriminate]. intros E.
        now apply back_no_double_underscore in E.
      * apply (IH AfterUnderscore).
      * apply (IH AfterUnderscore).
Qed.

Lemma from_camel_case_identifier (s : string) :
  identifier s = true -> from_camel_case s = s.
Proof.
  induction s as [|c s IH]; simpl; intros Hs.
  - reflexivity.
  - apply andb_true_iff in Hs as [Hc Hs].
    rewrite from_camel_case_cons, (IH Hs). unfold snake_char.
    destruct (ident_char_cases c Hc) as [Hl | [[_ Hd] | (_ & _ & ->)]].
    + destruct (islower_upper_char c Hl) as (_ & _ & _ & -> & _). reflexivity.
    + destruct (isdigit_plain c Hd) as (_ & -> & _). reflexivity.
    + reflexivity.
Qed.

Lemma split_once_spec (ch : ascii) (s : string) :
  Py.contains ch s = true ->
  s = fst (Py.split_once ch s) ++ String ch (snd (Py.split_once ch s)).
Proof.
  induction s as [|c s IH]; simpl; intros H.
  - discriminate.
  - destruct (Ascii.eqb c ch) eqn:E.
    + apply Ascii.eqb_eq in E. now subst.
    + specialize (IH H). destruct (Py.split_once ch s) as [head tail].
      simpl in *. now rewrite <- IH.
Qed.

Lemma split_once_identifier (ch : ascii) (s : string) :
  identifier s = true ->
  identifier (fst (Py.split_once ch s)) = true /\
  identifier (snd (Py.split_once ch s)) = true.
Proof.
  induction s as [|c s IH]; simpl; intros H.
  - auto.
  - apply andb_true_iff in H as [Hc Hs]. specialize (IH Hs).
    destruct (Ascii.eqb c ch).
    + auto.
    + destruct (Py.split_once ch s) as [head tail]. simpl in *.
      rewrite Hc. tauto.
Qed.

(** C5, as the code has it: for an identifier made of lowercase letters,
    digits and underscores, converting to camelCase and back gives the
    identifier again exactly when it is well separated: it has no
    underscore, or every underscore is directly followed by a lowercase
    letter and, after the first underscore, no letter directly follows a
    digit. *)
Theorem camel_case_round_trip (x : string) :
  identifier x = true ->
  (from_camel_case (to_camel_case x) = x <-> well_separated x = true).
Proof.
  intros Hx. unfold to_camel_case, well_separated.
  destruct (Py.contains Py.UNDERSCORE x) eqn:Hu; simpl.
  - pose proof (split_once_spec _ _ Hu) as Hsplit.
    destruct (split_once_identifier Py.UNDERSCORE x Hx) as [Hhead Htail].
    destruct (Py.split_once Py.UNDERSCORE x) as [head tail]. simpl in *.
    rewrite from_camel_case_app, (from_camel_case_identifier _ Hhead).
    rewrite Hsplit at 1. rewrite append_cancel_l.
    apply (back_expected tail Htail AfterUnderscore).
  - rewrite (from_camel_case_identifier _ Hx). tauto.
Qed.

Lemma camel_case_round_trip_created_at :
  identifier "created_at" = true /\
  (from_camel_case (to_camel_case "created_at") = "created_at" <->
   well_separated "created_at" = true).
Proof.
  split; [reflexivity | apply (camel_case_round_trip "created_at"); reflexivity].
Defined.

(** C5 fails on the identifier [a_1]: it comes back as [a1]. *)
Lemma camel_case_round_trip_digit :
  identifier "a_1" = true /\ from_camel_case (to_camel_case "a_1") <> "a_1".
Proof. split; [reflexivity | discriminate]. Qed.

(** ** New resources *)

Section NewResources.
Context {schema : Schema} {store : DataStore}.

Lemma is_new_pure (st : state) :
  is_new st =
  (Ret (match dict_href (r_dict (self st)) with VNone => true | _ => false end), st).
Proof. reflexivity. Qed.

Lemma dict_href_none (r : Resource) :
  dict_href (r_dict r) = VNone <-> href_absent r.
Proof.
  unfold dict_href, href_absent.
  destruct (dict_get "href" (r_dict r)) as [v|].
  - split; [intros ->; now right | intros [H|H]; [discriminate | now injection H]].
  - split; auto.
Qed.

(** C7: [is_new()] answers true exactly when the locator is absent, and
    reads nothing remote; on an instance for which it answers true,
    [save()] raises the invalid-state error ([ValueError]) and [delete()]
    returns, both leaving the state as it was: no update or delete call
    reached the data store and no signal was sent. *)
Theorem new_resource_lifecycle (st : state) :
  (fst (is_new st) = Ret true <-> href_absent (self st)) /\
  snd (is_new st) = st /\
  (href_absent (self st) ->
   save st = (Raise ValueError, st) /\ delete st = (Ret tt, st)).
Proof.
  rewrite is_new_pure. simpl. repeat split.
  - intros H. apply dict_href_none.
    destruct (dict_href (r_dict (self st))); (reflexivity || discriminate H || (injection H; discriminate)).
  - intros H. apply dict_href_none in H. now rewrite H.
  - apply dict_href_none in H. unfold save, bind. rewrite is_new_pure, H. reflexivity.
  - apply dict_href_none in H. unfold delete, bind. rewrite is_new_pure, H. reflexivity.
Qed.

End NewResources.

Lemma new_resource_lifecycle_unsaved_account :
  href_absent unsaved_account /\
  @save demo_schema (fixed_store []) (start unsaved_account []) =
    (Raise ValueError, start unsaved_account []) /\
  @delete (fixed_store []) (start unsaved_account []) =
    (Ret tt, start unsaved_account []).
Proof.
  assert (H : href_absent unsaved_account) by (left; reflexivity).
  split; [exact H|].
  apply (@new_resource_lifecycle demo_schema (fixed_store [])
           (start unsaved_account [])).
  exact H.
Defined.

(** ** Dictionaries *)

Section DictFacts.
Context {V : Type}.
Implicit Types (d : list (string * V)) (k : string).

Lemma dict_get_set_same k (v : V) d : dict_get k (dict_set k v d) = Some v.
Proof.
  induction d as [|[k' v'] d IH]; simpl.
  - now rewrite String.eqb_refl.
  - destruct (String.eqb k' k) eqn:E; simpl; rewrite E; auto.
Qed.

Lemma dict_get_set_other k k' (v : V) d :
  k <> k' -> dict_get k (dict_set k' v d) = dict_get k d.
Proof.
  intros Hk. induction d as [|[k0 v0] d IH]; simpl.
  - destruct (String.eqb_spec k' k); [congruence | reflexivity].
  - destruct (String.eqb_spec k0 k'); simpl.
    + subst. destruct (String.eqb_spec k' k); [congruence | reflexivity].
    + destruct (String.eqb_spec k0 k); auto.
Qed.

End DictFacts.

(** ** Materialisation of undeclared attributes *)

Section SetProperties.
Context {schema : Schema}.

Lemma set_properties_loop_app (in_fixed popped : bool)
  (attrs : list (string * class)) (a b dict : props) :
  set_properties_loop wrap_resource_attr in_fixed popped attrs (a ++ b)%list dict =
  rbind (set_properties_loop wrap_resource_attr in_fixed popped attrs a dict)
    (fun d => set_properties_loop wrap_resource_attr in_fixed popped attrs b d).
Proof.
  revert dict. induction a as [|[key v] a IH]; intros dict; simpl.
  - reflexivity.
  - destruct (popped && String.eqb key "items"); [apply IH|].
    match goal with |- rbind ?o _ = _ => destruct o as [w|] end; simpl; auto.
Qed.

Lemma set_properties_loop_keeps (in_fixed popped : bool)
  (attrs : list (string * class)) (name : string) (post dict d1 : props) :
  (forall k v, In (k, v) post -> from_camel_case k <> name) ->
  set_properties_loop wrap_resource_attr in_fixed popped attrs post dict = Ok d1 ->
  dict_get name d1 = dict_get name dict.
Proof.
  revert dict. induction post as [|[key v] post IH]; intros dict Hpost; simpl.
  - intros H. now injection H as ->.
  - assert (Hrest : forall k v, In (k, v) post -> from_camel_case k <> name)
      by (intros k' v' Hin; apply (Hpost k' v'); now right).
    destruct (popped && String.eqb key "items"); [now apply IH|].
    match goal with |- rbind ?o _ = _ -> _ => destruct o as [w|] end; simpl;
      try discriminate.
    intros H. rewrite (IH _ Hrest H).
    apply dict_get_set_other. intros E. apply (Hpost key v); [now left | auto].
Qed.

Lemma set_properties_plain (cls : class) (properties dict : props) :
  plain_resource_class cls = true ->
  set_properties cls properties dict =
  set_properties_loop wrap_resource_attr false false
    (get_resource_attributes cls) properties dict.
Proof. destruct cls; simpl; (discriminate || reflexivity). Qed.

(** The entry [(key, v)] of a payload, [conv] being what the loop makes
    of it: the value it stores, or the exception it raises there. *)
Lemma set_properties_entry (cls : class) (key : string) (v : value)
  (conv : result value) (pre post d0 : props) :
  merged_by_loop cls key = true ->
  (forall popped rest d,
     popped && String.eqb key "items" = false ->
     set_properties_loop wrap_resource_attr false popped
       (get_resource_attributes cls) ((key, v) :: rest) d =
     rbind conv
       (fun w =>
          set_properties_loop wrap_resource_attr false popped
            (get_resource_attributes cls) rest
            (dict_set (from_camel_case key) w d))) ->
  (forall k' v', In (k', v') post -> from_camel_case k' <> from_camel_case key) ->
  match conv with
  | Ok w =>
      set_properties cls [(key, v)] d0 = Ok (dict_set (from_camel_case key) w d0) /\
      (forall d1, set_properties cls (pre ++ (key, v) :: post)%list d0 = Ok d1 ->
                  dict_get (from_camel_case key) d1 = Some w)
  | Error e =>
      set_properties cls ((key, v) :: post) d0 = Error e /\
      (forall d1, set_properties cls (pre ++ (key, v) :: post)%list d0 <> Ok d1)
  end.
Proof.
  intros Hm Hstep Hpost.
  assert (Hplain : plain_resource_class cls = true ->
            match conv with
            | Ok w =>
                set_properties cls [(key, v)] d0 =
                  Ok (dict_set (from_camel_case key) w d0) /\
                (forall d1,
                   set_properties cls (pre ++ (key, v) :: post)%list d0 = Ok d1 ->
                   dict_get (from_camel_case key) d1 = Some w)
            | Error e =>
                set_properties cls ((key, v) :: post) d0 = Error e /\
                (forall d1,
                   set_properties cls (pre ++ (key, v) :: post)%list d0 <> Ok d1)
            end).
  { intros Hcls. rewrite !set_properties_plain by exact Hcls.
    destruct conv as [w|e]; split.
    - now rewrite Hstep.
    - intros d1. rewrite set_properties_loop_app.
      destruct (set_properties_loop _ _ _ _ pre d0) as [d|]; cbn [rbind];
        try discriminate.
      rewrite Hstep by reflexivity. cbn [rbind]. intros H.
      rewrite (set_properties_loop_keeps _ _ _ _ _ _ _ Hpost H).
      apply dict_get_set_same.
    - now rewrite Hstep.
    - intros d1. rewrite set_properties_loop_app.
      destruct (set_properties_loop _ _ _ _ pre d0) as [d|]; cbn [rbind];
        [rewrite Hstep by reflexivity|]; discriminate. }
  destruct cls as [|name|cp rc|name]; try discriminate Hm;
    try (now apply Hplain).
  clear Hplain. cbn [merged_by_loop] in Hm. apply negb_true_iff in Hm.
  assert (Hname : from_camel_case key <> "items")
    by (intros E; rewrite E in Hm; discriminate Hm).
  assert (Hkey : true && String.eqb key "items" = false).
  { destruct (String.eqb_spec key "items") as [->|_]; [|reflexivity].
    exfalso. now apply Hname. }
  unfold set_properties, collection_set_properties.
  destruct conv as [w|e]; split.
  - rewrite Hstep by exact Hkey.
    cbn [rbind set_properties_loop wrap_popped_items].
    cbn [andb] in Hkey. now rewrite Hkey.
  - intros d1. rewrite set_properties_loop_app.
    destruct (set_properties_loop _ _ _ _ pre d0) as [d|]; cbn [rbind];
      try discriminate.
    rewrite Hstep by exact Hkey. cbn [rbind].
    destruct (set_properties_loop _ _ _ _ post _) as [d'|] eqn:Hl; cbn [rbind];
      try discriminate.
    destruct (wrap_popped_items _ _ _) as [[ws|]|]; cbn [rbind];
      try discriminate; intros [= <-].
    + rewrite dict_get_set_other by exact Hname.
      rewrite (set_properties_loop_keeps _ _ _ _ _ _ _ Hpost Hl).
      apply dict_get_set_same.
    + rewrite (set_properties_loop_keeps _ _ _ _ _ _ _ Hpost Hl).
      apply dict_get_set_same.
  - now rewrite Hstep by exact Hkey.
  - intros d1. rewrite set_properties_loop_app.
    destruct (set_properties_loop _ _ _ _ pre d0) as [d|]; cbn [rbind];
      [rewrite Hstep by exact Hkey|]; discriminate.
Qed.

(** C9, as the code has it: while a [Resource] is materialised (on a
    collection: for an attribute other than ['items']), an incoming
    attribute whose local name is neither declared in
    [get_resource_attributes()] nor a timestamp name is stored as a
    generic lazy [Resource] on the locator when its wire value is a
    mapping with a string under ['href'], and is stored as it came when
    its wire value is not a mapping with an ['href'] key.  Stored: a
    payload with just this attribute materialises to the dictionary with
    that entry, and whenever a payload containing it (with no later
    attribute of the same local name) materialises, the entry is there.
    But a mapping that has under ['href'] something that is not a string
    is not stored at all: the materialisation of every payload that
    contains it raises, [ValueError] from this attribute when the value
    under ['href'] is [None] and [TypeError] when it is anything else. *)
Theorem undeclared_attribute_storage (cls : class) (key : string) (v : value)
  (pre post d0 : props) :
  merged_by_loop cls key = true ->
  dict_get (from_camel_case key) (get_resource_attributes cls) = None ->
  name_in (from_camel_case key) TIMESTAMPS = false ->
  (forall k' v', In (k', v') post -> from_camel_case k' <> from_camel_case key) ->
  (forall h, reference_to v = Some h ->
     set_properties cls [(key, v)] d0 =
       Ok (dict_set (from_camel_case key)
              (value_of_resource (lazy Resource_cls h)) d0) /\
     (forall d1, set_properties cls (pre ++ (key, v) :: post)%list d0 = Ok d1 ->
        dict_get (from_camel_case key) d1 =
          Some (value_of_resource (lazy Resource_cls h)))) /\
  (has_href v = false ->
     set_properties cls [(key, v)] d0 = Ok (dict_set (from_camel_case key) v d0) /\
     (forall d1, set_properties cls (pre ++ (key, v) :: post)%list d0 = Ok d1 ->
        dict_get (from_camel_case key) d1 = Some v)) /\
  (forall entries x,
     v = VDict entries -> dict_get "href" entries = Some x ->
     (forall h, x <> VStr h) ->
     set_properties cls ((key, v) :: post) d0 =
       Error (match x with VNone => ValueError | _ => TypeError end) /\
     (forall d1, set_properties cls (pre ++ (key, v) :: post)%list d0 <> Ok d1)).
Proof.
  intros Hm Hattr Hstamp Hpost.
  assert (Hstep : forall popped rest d,
            popped && String.eqb key "items" = false ->
            set_properties_loop wrap_resource_attr false popped
              (get_resource_attributes cls) ((key, v) :: rest) d =
            rbind
              (match v with
               | VDict entries =>
                   match dict_get "href" entries with
                   | Some href => generic_resource href
                   | None => Ok v
                   end
               | _ => Ok v
               end)
              (fun w =>
                 set_properties_loop wrap_resource_attr false popped
                   (get_resource_attributes cls) rest
                   (dict_set (from_camel_case key) w d))).
  { intros popped rest d Hpop. cbn [set_properties_loop].
    rewrite Hpop, Hattr, Hstamp. destruct v; reflexivity. }
  pose proof (set_properties_entry cls key v _ pre post d0 Hm Hstep Hpost) as H.
  split; [|split].
  - intros h Hv. destruct v as [| | | | |entries| |]; try discriminate Hv.
    simpl in Hv.
    destruct (dict_get "href" entries) as [[| |s| | | | |]|]; try discriminate Hv.
    injection Hv as ->. exact H.
  - intros Hv. destruct v as [| | | | |entries| |]; try exact H.
    simpl in Hv. unfold dict_has in Hv.
    destruct (dict_get "href" entries); [discriminate | exact H].
  - intros entries x -> Hx Hstr. rewrite Hx in H.
    destruct x; try exact H. exfalso. now apply (Hstr s).
Qed.

End SetProperties.

Lemma undeclared_attribute_storage_account :
  set_properties (schema := demo_schema) (Entity "Account")
    [("tenant", VDict [("href", VStr "/tenants/1")])] [] =
    Ok [("tenant", value_of_resource (lazy Resource_cls "/tenants/1"))] /\
  set_properties (schema := demo_schema) (Entity "Account")
    [("fullName", VStr "Ann Lee")] [] = Ok [("full_name", VStr "Ann Lee")].
Proof.
  split.
  - apply (@undeclared_attribute_storage demo_schema (Entity "Account")
             "tenant" (VDict [("href", VStr "/tenants/1")]) [] [] []);
      try reflexivity.
    intros k' v' [].
  - apply (@undeclared_attribute_storage demo_schema (Entity "Account")
             "fullName" (VStr "Ann Lee") [] [] []);
      try reflexivity.
    intros k' v' [].
Defined.

(** C9 fails on a mapping whose ['href'] is not a string: the attribute
    is not stored as a generic resource, the materialisation raises. *)
Lemma undeclared_reference_without_locator :
  has_href (VDict [("href", VNone)]) = true /\
  set_properties (schema := demo_schema) (Entity "Account")
    [("tenant", VDict [("href", VNone)])] [] = Error ValueError /\
  has_href (VDict [("href", VInt 5)]) = true /\
  set_properties (schema := demo_schema) (Entity "Account")
    [("tenant", VDict [("href", VInt 5)])] [] = Error TypeError.
Proof. repeat split. Qed.

(** ** [query] and the dictionary it updates *)

Lemma nth_list_assign_same {A} (l : nat) (a d : A) (xs : list A) :
  (l < length xs)%nat -> nth l (list_assign l a xs) d = a.
Proof.
  revert l. induction xs as [|x xs IH]; intros [|l] H; simpl in *;
    try lia; auto. apply IH. lia.
Qed.

Lemma length_list_assign {A} (l : nat) (a : A) (xs : list A) :
  length (list_assign l a xs) = length xs.
Proof.
  revert l. induction xs as [|x xs IH]; intros [|l]; simpl; auto.
Qed.

Lemma nth_nonempty_in_range {A} (l : nat) (xs : list (list A)) (e : A) (es : list A) :
  nth l xs [] = e :: es -> (l < length xs)%nat.
Proof.
  intros H. destruct (Nat.lt_ge_cases l (length xs)) as [|Hge]; [assumption|].
  rewrite nth_overflow in H by assumption. discriminate.
Qed.

Section Query.
Context {schema : Schema}.

(** What [query] does, step by step: the mapping it layers the keyword
    arguments on is the present query of the receiver; the new instance
    refers to a new dictionary; the receiver keeps its slots. *)
Lemma query_steps (st : state) (kwargs : props) :
  exists hp : list props,
    query kwargs st =
      lift (Resource_init (r_cls (self st)) (dict_href (r_dict (self st))) None
              (Some (length hp)) None)
        (mkState (self st)
           (hp ++ [camel_keys (dict_update (current_query st) kwargs)])%list
           (trace st)) /\
    (length (heap st) <= length hp)%nat /\
    (forall l e es, r_query (self st) = Some l ->
       nth l (heap st) [] = e :: es ->
       nth l hp [] = dict_update (e :: es) kwargs).
Proof.
  destruct st as [[cls q e d] hp t].
  unfold query, bind, get_self, read_query, held_query, current_query. simpl.
  destruct q as [l|]; simpl.
  - destruct (nth l hp []) as [|e0 es0] eqn:Hq; simpl.
    + unfold href, bind, get_dict, deref, assign, alloc, ret, lift. simpl.
      rewrite app_nth2, Nat.sub_diag by lia. simpl.
      exists (list_assign (length hp) (dict_update [] kwargs) (hp ++ [[]]))%list.
      rewrite nth_list_assign_same by (rewrite length_app; simpl; lia).
      split; [reflexivity|].
      rewrite !length_list_assign, length_app. simpl. split; [lia|].
      intros l' e' es' [= <-] H'. rewrite Hq in H'. discriminate.
    + pose proof (nth_nonempty_in_range _ _ _ _ Hq) as Hl.
      unfold href, bind, get_dict, deref, assign, alloc, ret, lift. simpl.
      rewrite Hq. simpl.
      rewrite nth_list_assign_same by assumption.
      exists (list_assign l (dict_update (e0 :: es0) kwargs) hp).
      split; [reflexivity|].
      rewrite !length_list_assign. split; [lia|].
      intros l' e' es' [= <-] H'. rewrite Hq in H'. injection H' as <- <-.
      now apply nth_list_assign_same.
  - unfold href, bind, get_dict, deref, assign, alloc, ret, lift. simpl.
    rewrite app_nth2, Nat.sub_diag by lia. simpl.
    exists (list_assign (length hp) (dict_update [] kwargs) (hp ++ [[]]))%list.
    rewrite nth_list_assign_same by (rewrite length_app; simpl; lia).
    split; [reflexivity|].
    rewrite !length_list_assign, length_app. simpl.
    split; [lia|]. intros l' e' es' [=].
Qed.

Lemma query_run (st : state) (kwargs : props) (h : string)
  (cp : option string) (rc : class) :
  r_cls (self st) = Collection cp rc ->
  dict_href (r_dict (self st)) = VStr h ->
  exists hp : list props,
    query kwargs st =
      (Ret (mkResource (Collection cp rc) (Some (length hp)) None [("href", VStr h)]),
       mkState (self st)
         (hp ++ [camel_keys (dict_update (current_query st) kwargs)])%list
         (trace st)) /\
    (length (heap st) <= length hp)%nat /\
    (forall l e es, r_query (self st) = Some l ->
       nth l (heap st) [] = e :: es ->
       nth l hp [] = dict_update (e :: es) kwargs).
Proof.
  intros Hcls Hhref.
  destruct (query_steps st kwargs) as (hp & Hrun & Hrest).
  exists hp. split; [|exact Hrest].
  rewrite Hrun, Hcls, Hhref. reflexivity.
Qed.

(** C4 at its failing inputs: when the receiver's [_query] is a non-empty
    mapping, [query(kwargs)] writes the keyword arguments into that very
    mapping; the receiver's active query is changed to the layered one. *)
Theorem query_writes_through (st : state) (kwargs : props) (h : string)
  (cp : option string) (rc : class) (l : ref) (e : string * value) (es : props) :
  r_cls (self st) = Collection cp rc ->
  dict_href (r_dict (self st)) = VStr h ->
  r_query (self st) = Some l ->
  nth l (heap st) [] = e :: es ->
  current_query (snd (query kwargs st)) = dict_update (e :: es) kwargs.
Proof.
  intros Hcls Hhref Hq Hl.
  destruct (query_run st kwargs h cp rc Hcls Hhref) as (hp & Hrun & Hlen & Hput).
  rewrite Hrun. unfold current_query. simpl. rewrite Hq.
  pose proof (nth_nonempty_in_range _ _ _ _ Hl).
  rewrite app_nth1 by lia. now apply Hput.
Qed.

End Query.

Lemma query_writes_through_filtered :
  current_query filtered_start = [("q", VStr "a")] /\
  current_query (snd (query (schema := bare_schema) [("offset", VInt 5)] filtered_start)) =
    [("q", VStr "a"); ("offset", VInt 5)].
Proof.
  split; [reflexivity|].
  apply (@query_writes_through bare_schema filtered_start [("offset", VInt 5)]
           "/applications" None Resource_cls 0%nat ("q", VStr "a") []);
    reflexivity.
Defined.

(** ** Laziness: what fetches and what does not *)

Arguments ensure_data_params : simpl never.

Lemma fetches_app (t1 t2 : list effect) :
  fetches (t1 ++ t2) = (fetches t1 + fetches t2)%nat.
Proof. unfold fetches. now rewrite filter_app, length_app. Qed.

Section Laziness.
Context {schema : Schema} {store : DataStore}.

Lemma is_new_absent (st : state) : is_new st = (Ret (absent st), st).
Proof. reflexivity. Qed.

(** [_ensure_data] never looks at whether the data is there already: it
    calls the data store whenever the locator is present.  It leaves the
    heap and the slots of the receiver alone. *)
Lemma ensure_data_effect (st : state) :
  heap (snd (ensure_data st)) = heap st /\
  r_query (self (snd (ensure_data st))) = r_query (self st) /\
  r_cls (self (snd (ensure_data st))) = r_cls (self st) /\
  exists t, trace (snd (ensure_data st)) = (trace st ++ t)%list /\
            fetches t = if absent st then 0%nat else 1%nat.
Proof.
  destruct (ensure_data st) as [o st'] eqn:E. simpl.
  unfold ensure_data in E. unfold bind at 1 in E. rewrite is_new_absent in E.
  destruct (absent st).
  - injection E as <- <-.
    split; [reflexivity | split; [reflexivity | split; [reflexivity|]]].
    exists []. now rewrite app_nil_r.
  - unfold bind, read_query, get_self, href, get_dict, deref, emit, lift,
      put_dict, ret in E. simpl in E.
    match type of E with
    | context [get_resource ?h ?p] => destruct (get_resource h p); simpl in E
    end;
      try match type of E with
      | context [set_properties ?c ?a ?b] =>
          destruct (set_properties c a b); simpl in E
      end;
      injection E as <- <-; simpl;
      (split; [reflexivity | split; [reflexivity | split; [reflexivity|]]]);
      eexists; split; reflexivity.
Qed.

Lemma ensure_data_fetches (st : state) :
  fetches (trace (snd (ensure_data st))) =
  (fetches (trace st) + (if absent st then 0 else 1))%nat.
Proof.
  destruct (ensure_data_effect st) as (_ & _ & _ & t & Ht & Hn).
  now rewrite Ht, fetches_app, Hn.
Qed.


(** The state after [m ;; k] when [k] does not change the trace. *)
Lemma trace_bind_reader {A B} (m : M A) (k : A -> M B) (st : state) :
  (forall a s, trace (snd (k a s)) = trace s) ->
  trace (snd (bind m k st)) = trace (snd (m st)).
Proof.
  intros Hk. unfold bind. destruct (m st) as [[a|e|] s]; simpl; auto.
Qed.

Lemma absent_false (st : state) :
  dict_href (r_dict (self st)) <> VNone -> absent st = false.
Proof.
  unfold absent. destruct (dict_href (r_dict (self st))); congruence.
Qed.

Lemma getattr_trace_grows (st : state) (name : string) :
  exists t, trace (snd (getattr name st)) = (trace st ++ t)%list.
Proof.
  unfold getattr. run.
  destruct (dict_get name (r_dict (self st))).
  - exists []. now rewrite app_nil_r.
  - unfold getattr_hook. destruct (String.eqb name "href").
    + exists []. run. now rewrite app_nil_r.
    + destruct (ensure_data_effect st) as (_ & _ & _ & t & Ht & _).
      exists t. rewrite trace_bind_reader; [exact Ht|].
      intros [] s. run. destruct (dict_get name (r_dict (self s))); reflexivity.
Qed.

(** What [get_status] does after [_ensure_data]: nothing the data store
    sees, unless the status found is itself a [Resource]. *)
Lemma get_status_after (st : state) :
  let st1 := snd (ensure_data st) in
  (fetches (trace st1) <= fetches (trace (snd (get_status st))))%nat /\
  (status_is_resource st1 = false ->
   trace (snd (get_status st)) = trace st1).
Proof.
  unfold get_status.
  match goal with |- context [bind ensure_data ?k] => set (body := k) end.
  assert (Hbody : forall s,
            (fetches (trace s) <= fetches (trace (snd (body tt s))))%nat /\
            (status_is_resource s = false -> trace (snd (body tt s)) = trace s)).
  { intros s. unfold body, status_is_resource. run.
    destruct (dict_get "status" (r_dict (self s))) as [v|]; [|now split].
    destruct v as [| | | | | |c q e d|c d]; try now split.
    - split; [|discriminate].
      unfold str_method_on_other, visit. run.
      destruct (getattr_trace_grows
                  (mkState (mkResource c q e d) (heap s) (trace s)) "upper")
        as [t Ht].
      destruct (getattr "upper" _) as [[u|x|] s2]; cbn [snd trace] in *;
        rewrite Ht, fetches_app; lia.
    - unfold str_method_on_other. destruct (dict_has "upper" d); now split. }
  clearbody body. unfold bind.
  destruct (ensure_data st) as [[[]|e|] st1]; cbn [snd]; auto.
Qed.

(** C1, as the code has it: building a [Resource] from a locator and
    reading [href] fetch nothing, and reading an attribute that is in the
    instance dictionary fetches nothing; but there is no record of having
    fetched: every call of [_ensure_data] on an instance with a locator
    (by [__getattr__] for a name other than [href], which is where a read
    ends when the name is not in the dictionary, by [get_status()],
    [keys()] or [dir()]) issues one more fetch call.
    ([get_status()] issues just that one unless the status it finds is
    itself a [Resource], whose own attribute lookup may fetch too.) *)
Theorem fetch_on_every_materialisation (st : state) :
  (forall h, Resource_init Resource_cls (VStr h) None None None =
             Ok (lazy Resource_cls h)) /\
  getattr "href" st = (Ret (dict_href (r_dict (self st))), st) /\
  (forall name v, dict_get name (r_dict (self st)) = Some v ->
                  getattr name st = (Ret v, st)) /\
  (dict_href (r_dict (self st)) <> VNone ->
   fetches (trace (snd (ensure_data st))) = S (fetches (trace st)) /\
   (S (fetches (trace st)) <= fetches (trace (snd (get_status st))))%nat /\
   (status_is_resource (snd (ensure_data st)) = false ->
    fetches (trace (snd (get_status st))) = S (fetches (trace st))) /\
   fetches (trace (snd (keys st))) = S (fetches (trace st)) /\
   fetches (trace (snd (dir st))) = S (fetches (trace st)) /\
   (forall name, name <> "href" ->
      fetches (trace (snd (getattr_hook name st))) = S (fetches (trace st)) /\
      (dict_get name (r_dict (self st)) = None ->
       getattr name st = getattr_hook name st))).
Proof.
  split; [reflexivity|]. split; [|split].
  - unfold getattr, bind, get_dict, dict_href.
    cbn [fst snd]. destruct (dict_get "href" (r_dict (self st))) eqn:E;
      [reflexivity|].
    unfold getattr_hook, bind, get_dict, dict_href, ret.
    rewrite String.eqb_refl. now rewrite E.
  - intros name v H. unfold getattr, bind, get_dict. simpl. now rewrite H.
  - intros Hhref. pose proof (ensure_data_fetches st) as He.
    rewrite (absent_false _ Hhref), Nat.add_1_r in He.
    destruct (get_status_after st) as [Hlow Hexact].
    assert (Hkeys : fetches (trace (snd (keys st))) = S (fetches (trace st))).
    { unfold keys. rewrite trace_bind_reader; [exact He|]. reflexivity. }
    assert (Hdir : fetches (trace (snd (dir st))) = S (fetches (trace st))).
    { unfold dir. rewrite trace_bind_reader; [exact He|]. reflexivity. }
    split; [exact He|]. split; [now rewrite <- He|].
    split; [intros Hplain; now rewrite (Hexact Hplain)|].
    split; [exact Hkeys|]. split; [exact Hdir|].
    intros name Hname. split.
    + unfold getattr_hook.
      destruct (String.eqb_spec name "href") as [|_]; [contradiction|].
      rewrite trace_bind_reader; [exact He|].
      intros [] s. unfold bind, get_dict. simpl.
      destruct (dict_get name (r_dict (self s))); reflexivity.
    + intros Hmiss. unfold getattr. run. now rewrite Hmiss.
Qed.

End Laziness.

Lemma fetch_on_every_materialisation_account :
  dict_href (r_dict (lazy (Entity "Account") "/accounts/1")) <> VNone /\
  fetches (trace (snd (keys (schema := demo_schema) (store := fixed_store account_payload)
                         (start (lazy (Entity "Account") "/accounts/1") [])))) = 1%nat.
Proof.
  assert (H : dict_href (r_dict (lazy (Entity "Account") "/accounts/1")) <> VNone)
    by discriminate.
  split; [exact H|].
  apply (@fetch_on_every_materialisation demo_schema (fixed_store account_payload)
           (start (lazy (Entity "Account") "/accounts/1") [])).
  exact H.
Defined.

(** C1 fails on an account read three times: each of the reads after the
    first fetches again, three fetch calls in all and no [refresh()]. *)
Lemma three_reads_three_fetches :
  fst (three_reads (schema := demo_schema) (store := fixed_store account_payload)
         (start (lazy (Entity "Account") "/accounts/1") [])) =
    Ret ["href"; "email"; "status"] /\
  fetches (trace (snd (three_reads (schema := demo_schema)
                         (store := fixed_store account_payload)
                         (start (lazy (Entity "Account") "/accounts/1") [])))) = 3%nat.
Proof. split; reflexivity. Qed.

(** ** Explicit windows *)

Section DictKeys.
Context {V : Type}.
Implicit Types (d kw : list (string * V)) (k : string).





End DictKeys.




Section ExplicitWindows.
Context {schema : Schema} {store : DataStore}.

Lemma or_empty_held_query (st : state) :
  or_empty (held_query st) = current_query st.
Proof.
  unfold or_empty, held_query, current_query.
  destruct (r_query (self st)) as [l|]; [|reflexivity].
  destruct (nth l (heap st) []); reflexivity.
Qed.














End ExplicitWindows.



(** ** Paging *)

Lemma dict_get_update_absent {V} (k : string) (d kw : list (string * V)) :
  dict_has k kw = false -> dict_get k (dict_update d kw) = dict_get k d.
Proof.
  revert d. induction kw as [|[k' v] kw IH]; intros d; simpl; auto.
  unfold dict_has. simpl. destruct (String.eqb_spec k' k) as [->|Hk].
  - discriminate.
  - intros H. rewrite IH by exact H. apply dict_get_set_other. congruence.
Qed.

(** Rewriting lookups through the writes of a page merge. *)
Ltac dict_lookup :=
  repeat first
    [ rewrite dict_get_set_same
    | rewrite dict_get_set_other by discriminate ].

Section Windows.
Context {schema : Schema}.
Variable rc : class.

Lemma wrap_items_length (items ws : list value) :
  wrap_items wrap_resource_attr rc items = Ok ws -> length ws = length items.
Proof.
  revert ws. induction items as [|x items IH]; intros ws; simpl.
  - now intros [= <-].
  - destruct (wrap_resource_attr false rc x); simpl; try discriminate.
    destruct (wrap_items wrap_resource_attr rc items); simpl; try discriminate.
    intros [= <-]. simpl. now rewrite (IH _ eq_refl).
Qed.

Lemma wrap_items_firstn (n : nat) (items ws : list value) :
  wrap_items wrap_resource_attr rc items = Ok ws ->
  wrap_items wrap_resource_attr rc (firstn n items) = Ok (firstn n ws).
Proof.
  revert items ws. induction n as [|n IH]; intros [|x items] ws; simpl;
    try reflexivity.
  - now intros [= <-].
  - destruct (wrap_resource_attr false rc x); simpl; try discriminate.
    destruct (wrap_items wrap_resource_attr rc items) eqn:E; simpl;
      try discriminate.
    intros [= <-]. simpl. now rewrite (IH _ _ E).
Qed.

Lemma wrap_items_skipn (n : nat) (items ws : list value) :
  wrap_items wrap_resource_attr rc items = Ok ws ->
  wrap_items wrap_resource_attr rc (skipn n items) = Ok (skipn n ws).
Proof.
  revert items ws. induction n as [|n IH]; intros [|x items] ws; simpl; auto.
  - now intros [= <-].
  - destruct (wrap_resource_attr false rc x); simpl; try discriminate.
    destruct (wrap_items wrap_resource_attr rc items) eqn:E; simpl;
      try discriminate.
    intros [= <-]. simpl. now apply IH.
Qed.

Lemma wrap_items_window (offset limit : Z) (items ws : list value) :
  wrap_items wrap_resource_attr rc items = Ok ws ->
  wrap_items wrap_resource_attr rc (window offset limit items) =
  Ok (window offset limit ws).
Proof.
  intros H. unfold window. now apply wrap_items_firstn, wrap_items_skipn.
Qed.

(** Merging a page answer into the dictionary of a collection. *)
Lemma set_properties_page (cp : option string) (h : string)
  (offset limit size : Z) (items ws : list value) (d : props) :
  wrap_items wrap_resource_attr rc items = Ok ws ->
  set_properties (Collection cp rc)
    [("href", VStr h); ("offset", VInt offset); ("limit", VInt limit);
     ("size", VInt size); ("items", VList items)] d =
  Ok (page_dict h offset limit size ws d).
Proof.
  intros H. unfold set_properties, collection_set_properties. simpl.
  rewrite H. reflexivity.
Qed.

End Windows.

Section Paging.
Context {schema : Schema} {store : DataStore}.
Variables (remote ws : list value) (L : Z) (h : string)
  (cp : option string) (rc : class).
Hypothesis Hserves : serves remote L.
Hypothesis Hwrap : wrap_items wrap_resource_attr rc remote = Ok ws.

(** [_ensure_data] against the paged remote: one fetch, whose answer is
    merged into the dictionary. *)
Lemma ensure_data_paged (st : state) :
  r_cls (self st) = Collection cp rc ->
  dict_href (r_dict (self st)) = VStr h ->
  let params := ensure_data_params (held_query st) (r_expand (self st))
                  (r_dict (self st)) in
  let o := int_param "offset" params 0 in
  let l := int_param "limit" params L in
  ensure_data st =
  (Ret tt,
   mkState
     (mkResource (Collection cp rc) (r_query (self st)) (r_expand (self st))
        (page_dict h o l (len remote) (window o l ws) (r_dict (self st))))
     (heap st) (trace st ++ [GetResource (VStr h) params])).
Proof.
  intros Hcls Hhref params o l.
  unfold ensure_data, is_new. run. rewrite Hhref. run.
  rewrite Hserves. unfold paged_get. run. rewrite Hcls, !Hhref.
  fold params. fold o. fold l.
  rewrite (set_properties_page rc cp h o l (len remote) _ _ _
             (wrap_items_window rc o l _ _ Hwrap)).
  reflexivity.
Qed.

Lemma bind_run {A B} (m : M A) (k : A -> M B) (st st' : state) (a : A) :
  m st = (Ret a, st') -> bind m k st = k a st'.
Proof. intros H. unfold bind. now rewrite H. Qed.

Lemma on_run {A} (r : Resource) (m : M A) (st s' : state) (a : A) :
  m (mkState r (heap st) (trace st)) = (Ret a, s') ->
  on r m st = (Ret (a, self s'), mkState (self st) (heap s') (trace s')).
Proof. intros H. unfold on. now rewrite H. Qed.

Lemma getattr_held (st : state) (name : string) (v : value) :
  dict_get name (r_dict (self st)) = Some v -> getattr name st = (Ret v, st).
Proof. intros H. unfold getattr. run. now rewrite H. Qed.

Lemma getattr_missing (st : state) (name : string) :
  dict_get name (r_dict (self st)) = None ->
  getattr name st = getattr_hook name st.
Proof. intros H. unfold getattr. run. now rewrite H. Qed.

Lemma page_dict_size (o l n : Z) (items : list value) (d : props) :
  dict_get "size" (page_dict h o l n items d) = Some (VInt n).
Proof. unfold page_dict. now dict_lookup. Qed.

Lemma page_dict_href (o l n : Z) (items : list value) (d : props) :
  dict_href (page_dict h o l n items d) = VStr h.
Proof. unfold dict_href, page_dict. now dict_lookup. Qed.

Lemma page_dict_sliced_size (o l n : Z) (items : list value) (d : props) :
  dict_get "_sliced_size" (page_dict h o l n items d) = dict_get "_sliced_size" d.
Proof. unfold page_dict. now dict_lookup. Qed.

(** [len(self)] on a view that carries a sliced size: that size. *)
Lemma length_of_sliced (st : state) (n : value) :
  r_cls (self st) = Collection cp rc ->
  dict_href (r_dict (self st)) = VStr h ->
  dict_get "_sliced_size" (r_dict (self st)) = Some n ->
  fst (length_of st) = Ret n.
Proof.
  intros Hcls Hhref Hn. unfold length_of.
  rewrite (bind_run _ _ _ _ _ (ensure_data_paged st Hcls Hhref)).
  erewrite bind_run by (apply getattr_held; apply page_dict_size).
  run. now rewrite page_dict_sliced_size, Hn.
Qed.

(** The slice branch of [__getitem__] against the paged remote. *)
Lemma getitem_slice_paged (st : state) (start stop : option Z) :
  r_cls (self st) = Collection cp rc ->
  dict_href (r_dict (self st)) = VStr h ->
  let a := match start with Some s => s | None => 0 end in
  let b := match stop with Some s => s | None => 0 end in
  let limited := negb (b =? 0) && (a <? b) in
  let query_ := if limited then [("offset", VInt a); ("limit", VInt (b - a))]
                else [("offset", VInt a)] in
  let bound := if limited then b - a else len remote in
  exists (hp : list props) (d : props) (t : list effect),
    getitem_slice start stop st =
      (Ret (mkResource (Collection cp rc) (Some (length hp)) None
              (dict_set "_sliced_size"
                 (VInt (Z.min bound (Z.max 0 (len remote - a)))) d)),
       mkState (self st)
         (hp ++ [camel_keys (dict_update (current_query st) query_)])%list t) /\
    dict_href d = VStr h /\
    fetches t = S (fetches (trace st)).
Proof.
  intros Hcls Hhref a b limited query_ bound.
  destruct (query_run st query_ h cp rc Hcls Hhref) as (hp & Hq & _).
  unfold getitem_slice. fold a. fold b. fold limited.
  replace (if limited then dict_set "limit" (VInt (b - a)) [("offset", VInt a)]
           else [("offset", VInt a)]) with query_
    by (unfold query_; destruct limited; reflexivity).
  rewrite (bind_run _ _ _ _ _ Hq).
  set (r0 := mkResource (Collection cp rc) (Some (length hp)) None
               [("href", VStr h)]).
  set (st1 := mkState (self st) _ (trace st)).
  set (s0 := mkState r0 (heap st1) (trace st1)).
  assert (Hsize : exists s1, getattr "size" s0 = (Ret (VInt (len remote)), s1) /\
            r_cls (self s1) = Collection cp rc /\
            r_query (self s1) = Some (length hp) /\
            r_expand (self s1) = None /\
            dict_href (r_dict (self s1)) = VStr h /\
            dict_get "size" (r_dict (self s1)) = Some (VInt (len remote)) /\
            heap s1 = heap st1 /\
            fetches (trace s1) = S (fetches (trace st))).
  { eexists. split.
    - rewrite getattr_missing by reflexivity. unfold getattr_hook.
      change (String.eqb "size" "href") with false. cbn iota.
      rewrite (bind_run _ _ _ _ _ (ensure_data_paged s0 eq_refl eq_refl)).
      run. rewrite page_dict_size. reflexivity.
    - cbn [self r_cls r_query r_expand r_dict heap trace].
      rewrite page_dict_size, page_dict_href, fetches_app.
      repeat split. unfold fetches at 2. simpl. lia. }
  destruct Hsize as (s1 & Hget & Hc1 & Hq1 & He1 & Hh1 & Hs1 & Hheap & Hf).
  rewrite (bind_run _ _ _ _ _ (on_run _ _ _ _ _ Hget)). cbn beta iota.
  assert (Hself : mkState (self s1) (heap s1) (trace s1) = s1) by now destruct s1.
  erewrite bind_run
    by (apply on_run; cbn [heap trace]; rewrite Hself;
        apply getattr_held; exact Hs1).
  cbn beta iota.
  replace (match dict_get "limit" query_ with
           | Some l => l
           | None => VInt (len remote)
           end) with (VInt bound)
    by (unfold query_, bound; destruct limited; reflexivity).
  run. unfold on. run.
  exists hp, (r_dict (self s1)), (trace s1).
  rewrite Hc1, Hq1, He1, Hheap. repeat split; assumption.
Qed.

(** *** One full pass *)

Hypothesis HL : 0 < L.

Lemma int_param_params (k : string) (p : props) (default : Z) :
  int_param k (match p with [] => None | _ => Some p end) default =
  match dict_get k p with Some (VInt z) => z | _ => default end.
Proof. destruct p; reflexivity. Qed.

(** Without a pinned window, and with no window recorded other than the
    first page, [_ensure_data] asks for the first page. *)
Lemma ensure_data_params_first_window (st : state) :
  pinned st = false -> first_window L st ->
  let params := ensure_data_params (held_query st) (r_expand (self st))
                  (r_dict (self st)) in
  int_param "offset" params 0 = 0 /\ int_param "limit" params L = L.
Proof.
  intros Hp Hw params. subst params. unfold ensure_data_params.
  set (qp := match held_query st with
             | Some (e :: es) => dict_update [] (e :: es)
             | _ => []
             end).
  set (base := match r_expand (self st) with
               | Some e => dict_update qp [("expand", VStr (get_params e))]
               | None => qp
               end).
  apply orb_false_iff in Hp as [Ho Hl]. rewrite <- or_empty_held_query in Ho, Hl.
  assert (Hqp : dict_get "offset" qp = None /\ dict_get "limit" qp = None).
  { unfold qp. destruct (held_query st) as [[|e es]|]; auto.
    simpl in Ho, Hl. now rewrite !dict_get_update_absent by assumption. }
  assert (Hbase : dict_get "offset" base = None /\ dict_get "limit" base = None).
  { unfold base. destruct (r_expand (self st)); [|exact Hqp].
    cbn [dict_update]. now dict_lookup. }
  destruct Hbase as [Hbo Hbl]. rewrite !int_param_params.
  destruct Hw as [[Hw|Hw]|[Hwl Hwo]].
  - rewrite Hw, Hbo, Hbl. auto.
  - rewrite Hw. destruct (dict_get "limit" (r_dict (self st)));
      rewrite Hbo, Hbl; auto.
  - rewrite Hwl, Hwo. now dict_lookup.
Qed.

Lemma len_window (o : Z) :
  0 <= o -> len (window o L ws) = Z.min L (Z.max 0 (len remote - o)).
Proof.
  intros Ho. unfold len, window.
  rewrite length_firstn, length_skipn, (wrap_items_length rc _ _ Hwrap). lia.
Qed.










Lemma len_of_slice_paged (st : state) (start stop : option Z) :
  r_cls (self st) = Collection cp rc ->
  dict_href (r_dict (self st)) = VStr h ->
  let a := match start with Some s => s | None => 0 end in
  let b := match stop with Some s => s | None => 0 end in
  let bound := if negb (b =? 0) && (a <? b) then b - a else len remote in
  fst (len_of_slice start stop st) =
  Ret (VInt (Z.min bound (Z.max 0 (len remote - a)))).
Proof.
  intros Hcls Hhref a b bound.
  destruct (getitem_slice_paged st start stop Hcls Hhref)
    as (hp & d & t & Hrun & Hd & _).
  unfold len_of_slice. rewrite (bind_run _ _ _ _ _ Hrun).
  cbn beta. unfold bind, on. cbn [heap trace].
  match goal with
  | |- context [length_of ?s] =>
      pose proof (length_of_sliced s
                    (VInt (Z.min bound (Z.max 0 (len remote - a))))
                    eq_refl) as Hlen;
      destruct (length_of s) as [o s2]
  end.
  cbn [self r_dict fst] in Hlen. rewrite Hlen.
  - reflexivity.
  - unfold dict_href. rewrite dict_get_set_other by discriminate. exact Hd.
  - apply dict_get_set_same.
Qed.

(** C8: a slice with a stop beyond its start records
    [min(limit, max(0, size - offset))] as its sliced size and [len]
    reports it; so [collection[2:8]] reports 6 on a collection of size 10
    and 3 on a collection of size 5. *)
Theorem slice_reports_sliced_size (st : state) :
  r_cls (self st) = Collection cp rc ->
  dict_href (r_dict (self st)) = VStr h ->
  (forall a b, b <> 0 -> a < b ->
     fst (len_of_slice (Some a) (Some b) st) =
     Ret (VInt (Z.min (b - a) (Z.max 0 (len remote - a))))) /\
  (len remote = 10 -> fst (len_of_slice (Some 2) (Some 8) st) = Ret (VInt 6)) /\
  (len remote = 5 -> fst (len_of_slice (Some 2) (Some 8) st) = Ret (VInt 3)).
Proof.
  intros Hcls Hhref. split; [|split].
  - intros a b Hb Hab.
    rewrite (len_of_slice_paged st (Some a) (Some b) Hcls Hhref).
    apply Z.eqb_neq in Hb. apply Z.ltb_lt in Hab. now rewrite Hb, Hab.
  - intros HN. rewrite (len_of_slice_paged st (Some 2) (Some 8) Hcls Hhref).
    now rewrite HN.
  - intros HN. rewrite (len_of_slice_paged st (Some 2) (Some 8) Hcls Hhref).
    now rewrite HN.
Qed.

(** C10, as the code has it: a slice whose stop is absent, zero or not
    beyond its start adds [offset = a] and nothing else to the query of
    the receiver, so the derived query is the receiver's own with that
    offset layered on it (just [offset = a] when the receiver has no
    query); its reported length is [min(size, max(0, size - a))], which
    is [max(0, size - a)] for a start that is not negative. *)
Theorem open_slice (st : state) (start stop : option Z) :
  r_cls (self st) = Collection cp rc ->
  dict_href (r_dict (self st)) = VStr h ->
  let a := match start with Some s => s | None => 0 end in
  let b := match stop with Some s => s | None => 0 end in
  b = 0 \/ b <= a ->
  current_query (enter (getitem_slice start stop st)) =
    camel_keys (dict_update (current_query st) [("offset", VInt a)]) /\
  (current_query st = [] ->
   current_query (enter (getitem_slice start stop st)) = [("offset", VInt a)]) /\
  fst (len_of_slice start stop st) =
    Ret (VInt (Z.min (len remote) (Z.max 0 (len remote - a)))) /\
  (0 <= a ->
   fst (len_of_slice start stop st) = Ret (VInt (Z.max 0 (len remote - a)))).
Proof.
  intros Hcls Hhref a b Hb.
  assert (Hopen : negb (b =? 0) && (a <? b) = false).
  { destruct Hb as [->|Hb]; [reflexivity|].
    apply andb_false_iff. right. now apply Z.ltb_ge. }
  assert (Hq : current_query (enter (getitem_slice start stop st)) =
               camel_keys (dict_update (current_query st) [("offset", VInt a)])).
  { destruct (getitem_slice_paged st start stop Hcls Hhref)
      as (hp & d & t & Hrun & _).
    fold a b in Hrun. rewrite Hopen in Hrun. rewrite Hrun.
    unfold enter, current_query. cbn [fst snd self heap r_query].
    now rewrite app_nth2, Nat.sub_diag by lia. }
  assert (Hlen : fst (len_of_slice start stop st) =
                 Ret (VInt (Z.min (len remote) (Z.max 0 (len remote - a))))).
  { rewrite (len_of_slice_paged st start stop Hcls Hhref).
    fold a b. now rewrite Hopen. }
  split; [exact Hq|]. split; [|split].
  - intros Hnone. rewrite Hq, Hnone. reflexivity.
  - exact Hlen.
  - intros Ha. rewrite Hlen. do 2 f_equal. unfold len. lia.
Qed.

End Paging.

Lemma slice_reports_sliced_size_applications :
  fst (len_of_slice (schema := bare_schema)
         (store := paged_store (remote_refs 10) 25)
         (Some 2) (Some 8) applications) = Ret (VInt 6) /\
  fst (len_of_slice (schema := bare_schema)
         (store := paged_store (remote_refs 5) 25)
         (Some 2) (Some 8) applications) = Ret (VInt 3).
Proof.
  split.
  - eapply (@slice_reports_sliced_size bare_schema
              (paged_store (remote_refs 10) 25) (remote_refs 10) _ 25
              "/applications" None Resource_cls);
      try reflexivity. intros href params. reflexivity.
  - eapply (@slice_reports_sliced_size bare_schema
              (paged_store (remote_refs 5) 25) (remote_refs 5) _ 25
              "/applications" None Resource_cls);
      try reflexivity. intros href params. reflexivity.
Defined.

Lemma open_slice_applications :
  current_query
    (enter (getitem_slice (schema := bare_schema)
              (store := paged_store (remote_refs 10) 25)
              (Some 2) (Some 2) applications)) = [("offset", VInt 2)] /\
  fst (len_of_slice (schema := bare_schema)
         (store := paged_store (remote_refs 10) 25)
         (Some 2) (Some 2) applications) = Ret (VInt 8).
Proof.
  destruct (@open_slice bare_schema (paged_store (remote_refs 10) 25)
              (remote_refs 10) _ 25 "/applications" None Resource_cls
              (fun _ _ => eq_refl) eq_refl applications (Some 2) (Some 2)
              eq_refl eq_refl (or_intror (Z.le_refl 2)))
    as (_ & Hq & _ & Hlen).
  split; [apply Hq; reflexivity | apply Hlen; discriminate].
Defined.

(** C10 fails on the collection [query(limit=3)]: its slice [[2:2]] has
    the query [limit = 3, offset = 2], a limit as well as the offset. *)
Lemma open_slice_keeps_limit :
  current_query limited_applications = [("limit", VInt 3)] /\
  current_query
    (enter (getitem_slice (schema := bare_schema)
              (store := paged_store (remote_refs 10) 25)
              (Some 2) (Some 2) limited_applications)) =
    [("limit", VInt 3); ("offset", VInt 2)].
Proof. split; reflexivity. Qed.



(** * Further properties *)

Lemma contains_app (ch : ascii) (a b : string) :
  Py.contains ch (a ++ b) = Py.contains ch a || Py.contains ch b.
Proof.
  induction a as [|c a IH]; simpl; [reflexivity|].
  destruct (Ascii.eqb c ch); auto.
Qed.

Lemma contains_remove (ch : ascii) (s : string) :
  Py.contains ch (Py.remove ch s) = false.
Proof.
  induction s as [|c s IH]; simpl; [reflexivity|].
  destruct (Ascii.eqb c ch) eqn:E; simpl; [exact IH|]. now rewrite E.
Qed.

Lemma contains_split_head (ch : ascii) (s : string) :
  Py.contains ch (fst (Py.split_once ch s)) = false.
Proof.
  induction s as [|c s IH]; simpl; [reflexivity|].
  destruct (Ascii.eqb c ch) eqn:E; simpl; [reflexivity|].
  destruct (Py.split_once ch s) as [head tail]. simpl in *. now rewrite E.
Qed.

Lemma to_camel_case_plain (x : string) :
  Py.contains Py.UNDERSCORE x = false -> to_camel_case x = x.
Proof. intros H. unfold to_camel_case. now rewrite H. Qed.

Lemma to_camel_case_underscore_free (x : string) :
  Py.contains Py.UNDERSCORE (to_camel_case x) = false.
Proof.
  unfold to_camel_case.
  destruct (Py.contains Py.UNDERSCORE x) eqn:E; simpl; [|exact E].
  pose proof (contains_split_head Py.UNDERSCORE x) as Hh.
  destruct (Py.split_once Py.UNDERSCORE x) as [head tail]. simpl in Hh.
  now rewrite contains_app, Hh, contains_remove.
Qed.

(** X1: the result of [to_camel_case] never holds an underscore, whatever
    the name given, and converting a second time changes nothing. *)
Theorem to_camel_case_idempotent (x : string) :
  Py.contains Py.UNDERSCORE (to_camel_case x) = false /\
  to_camel_case (to_camel_case x) = to_camel_case x.
Proof.
  split; [apply to_camel_case_underscore_free|].
  apply to_camel_case_plain, to_camel_case_underscore_free.
Qed.

Lemma has_upper_app (a b : string) :
  has_upper (a ++ b) = has_upper a || has_upper b.
Proof.
  induction a as [|c a IH]; simpl; [reflexivity|].
  now rewrite IH, orb_assoc.
Qed.

Lemma has_upper_snake_char (c : ascii) : has_upper (snake_char c) = false.
Proof. destruct c as [[] [] [] [] [] [] [] []]; reflexivity. Qed.

Lemma has_upper_from_camel_case (x : string) :
  has_upper (from_camel_case x) = false.
Proof.
  induction x as [|c x IH]; [reflexivity|].
  now rewrite from_camel_case_cons, has_upper_app, has_upper_snake_char, IH.
Qed.

Lemma from_camel_case_plain (x : string) :
  has_upper x = false -> from_camel_case x = x.
Proof.
  induction x as [|c x IH]; [reflexivity|]. simpl.
  intros H. apply orb_false_iff in H as [Hc Hx].
  rewrite from_camel_case_cons, (IH Hx). unfold snake_char. now rewrite Hc.
Qed.

(** X2: the result of [from_camel_case] holds no uppercase ASCII letter,
    converting a second time changes nothing, and the names that
    [from_camel_case] leaves as they are are exactly the names without an
    uppercase letter. *)
Theorem from_camel_case_lowercase (x : string) :
  has_upper (from_camel_case x) = false /\
  from_camel_case (from_camel_case x) = from_camel_case x /\
  (from_camel_case x = x <-> has_upper x = false).
Proof.
  split; [apply has_upper_from_camel_case|]. split.
  - apply from_camel_case_plain, has_upper_from_camel_case.
  - split; [|apply from_camel_case_plain].
    intros H. rewrite <- H. apply has_upper_from_camel_case.
Qed.

Lemma upper_lower_char (c : ascii) :
  Py.isupper c = true -> Py.upper_char (Py.lower_char c) = c.
Proof.
  destruct c as [[] [] [] [] [] [] [] []]; intros H; try discriminate H;
    reflexivity.
Qed.

Lemma lower_char_injective (c d : ascii) :
  Py.isupper c = true -> Py.isupper d = true ->
  Py.lower_char c = Py.lower_char d -> c = d.
Proof.
  intros Hc Hd H.
  rewrite <- (upper_lower_char c Hc), <- (upper_lower_char d Hd). now rewrite H.
Qed.

Lemma from_camel_case_inj (x y : string) :
  Py.contains Py.UNDERSCORE x = false ->
  Py.contains Py.UNDERSCORE y = false ->
  from_camel_case x = from_camel_case y -> x = y.
Proof.
  revert y. induction x as [|c x IH]; intros [|d y] Hx Hy; try reflexivity.
  - rewrite from_camel_case_cons. unfold snake_char.
    destruct (Py.isupper d); discriminate.
  - rewrite from_camel_case_cons. unfold snake_char.
    destruct (Py.isupper c); discriminate.
  - simpl in Hx, Hy.
    destruct (Ascii.eqb_spec c Py.UNDERSCORE) as [|Hc]; [discriminate|].
    destruct (Ascii.eqb_spec d Py.UNDERSCORE) as [|Hd]; [discriminate|].
    rewrite !from_camel_case_cons. unfold snake_char.
    destruct (Py.isupper c) eqn:Uc, (Py.isupper d) eqn:Ud; simpl; intros H.
    + injection H as H2 H3.
      now rewrite (lower_char_injective c d Uc Ud H2), (IH y Hx Hy H3).
    + injection H as H1 _. congruence.
    + injection H as H1 _. congruence.
    + injection H as H1 H2. now rewrite H1, (IH y Hx Hy H2).
Qed.

(** X3: two different names of 7-bit characters without underscores
    (ASCII wire names) never get the same local name from
    [from_camel_case]. *)
Theorem from_camel_case_injective (x y : string) :
  seven_bit x = true -> seven_bit y = true ->
  Py.contains Py.UNDERSCORE x = false ->
  Py.contains Py.UNDERSCORE y = false ->
  x <> y -> from_camel_case x <> from_camel_case y.
Proof.
  intros _ _ Hx Hy Hne H. apply Hne. now apply from_camel_case_inj.
Qed.

Lemma from_camel_case_injective_given_name :
  from_camel_case "givenName" <> from_camel_case "givenname".
Proof.
  apply (from_camel_case_injective "givenName" "givenname");
    [reflexivity | reflexivity | reflexivity | reflexivity | discriminate].
Defined.

Lemma to_camel_case_cons (c : ascii) (s : string) :
  Ascii.eqb c Py.UNDERSCORE = false ->
  to_camel_case (String c s) = String c (to_camel_case s).
Proof.
  intros Hc. unfold to_camel_case. simpl. rewrite Hc.
  destruct (Py.contains Py.UNDERSCORE s); simpl; [|reflexivity].
  destruct (Py.split_once Py.UNDERSCORE s) as [head tail]. reflexivity.
Qed.

Lemma to_camel_case_after_underscore (s : string) :
  to_camel_case (String Py.UNDERSCORE s) = Py.remove Py.UNDERSCORE (Py.title s).
Proof. reflexivity. Qed.

Lemma alnum_char_cases (c : ascii) :
  alnum_char c = true ->
  (Py.islower c = true /\ Py.isupper c = false /\
   Ascii.eqb c Py.UNDERSCORE = false /\ Py.upper_char c <> c /\
   Ascii.eqb (Py.upper_char c) Py.UNDERSCORE = false) \/
  (Py.isupper c = true /\ Py.islower c = false /\ Py.isdigit c = false /\
   Ascii.eqb c Py.UNDERSCORE = false /\ Py.islower (Py.lower_char c) = true /\
   Py.upper_char (Py.lower_char c) = c) \/
  (Py.isdigit c = true /\ Py.islower c = false /\ Py.isupper c = false /\
   Ascii.eqb c Py.UNDERSCORE = false).
Proof.
  destruct c as [[] [] [] [] [] [] [] []]; intros H; try discriminate H;
    first [ left; repeat split; (reflexivity || discriminate)
          | right; left; repeat split; reflexivity
          | right; right; repeat split; reflexivity ].
Qed.

(** After the first uppercase letter: the way back through [title]. *)
Lemma title_gives_back (s : string) :
  alnum s = true ->
  forall after_digit : bool,
    Py.remove Py.UNDERSCORE
      (Py.title_from (negb after_digit) (from_camel_case s)) = s <->
    no_lower_after_digit after_digit s = true.
Proof.
  induction s as [|c s IH]; intros Hs ad; [simpl; tauto|].
  simpl in Hs. apply andb_true_iff in Hs as [Hc Hs].
  rewrite from_camel_case_cons. unfold snake_char.
  destruct (alnum_char_cases c Hc)
    as [(Hl & Hu & He & Hne & Hue) | [(Hu & Hl & Hd & He & Hll & Hul) | (Hd & Hl & Hu & He)]].
  - rewrite Hu. cbn [append Py.title_from no_lower_after_digit]. rewrite Hl.
    destruct ad; cbn [negb andb Py.remove].
    + rewrite Hue. split; [|discriminate]. intros H. injection H as H _. contradiction.
    + rewrite He. rewrite <- (IH Hs false). cbn [negb].
      split; [intros H; now injection H | intros ->; reflexivity].
  - rewrite Hu. cbn [append Py.title_from no_lower_after_digit].
    change (Py.islower Py.UNDERSCORE) with false.
    change (Py.isupper Py.UNDERSCORE) with false. cbn iota.
    rewrite Hll, Hul, Hl, Hd. cbn [Py.remove].
    change (Ascii.eqb Py.UNDERSCORE Py.UNDERSCORE) with true. cbn iota.
    rewrite He. rewrite <- (IH Hs false). cbn [negb].
    split; [intros H; now injection H | intros ->; reflexivity].
  - rewrite Hu. cbn [append Py.title_from no_lower_after_digit].
    rewrite Hl, Hu, Hd. cbn [Py.remove]. rewrite He.
    rewrite <- (IH Hs true). cbn [negb].
    split; [intros H; now injection H | intros ->; reflexivity].
Qed.

(** Forth and back again, one character at a time. *)
Lemma forth_and_back (x : string) :
  alnum x = true ->
  (to_camel_case (from_camel_case x) = x <-> camel_separated x = true).
Proof.
  induction x as [|c x IH]; intros Hx; [simpl; tauto|].
  simpl in Hx. apply andb_true_iff in Hx as [Hc Hx].
  rewrite from_camel_case_cons. unfold snake_char. cbn [camel_separated].
  destruct (alnum_char_cases c Hc)
    as [(Hl & Hu & He & _) | [(Hu & Hl & Hd & He & Hll & Hul) | (Hd & Hl & Hu & He)]].
  - rewrite Hu. cbn [append]. rewrite to_camel_case_cons by exact He.
    rewrite <- (IH Hx).
    split; [intros H; now injection H | intros ->; reflexivity].
  - rewrite Hu. cbn [append]. rewrite to_camel_case_after_underscore.
    unfold Py.title. cbn [Py.title_from]. rewrite Hll, Hul.
    cbn [Py.remove]. rewrite He.
    rewrite <- (title_gives_back x Hx false). cbn [negb].
    split; [intros H; now injection H | intros ->; reflexivity].
  - rewrite Hu. cbn [append]. rewrite to_camel_case_cons by exact He.
    rewrite <- (IH Hx).
    split; [intros H; now injection H | intros ->; reflexivity].
Qed.

Lemma letters_camel_separated (x : string) :
  has_digit x = false -> camel_separated x = true.
Proof.
  assert (H : forall s, has_digit s = false -> no_lower_after_digit false s = true).
  { induction s as [|c s IH]; [reflexivity|]. simpl.
    intros Hd. apply orb_false_iff in Hd as [Hc Hs]. rewrite Hc, (IH Hs).
    now destruct (Py.islower c). }
  induction x as [|c x IH]; [reflexivity|]. simpl.
  intros Hd. apply orb_false_iff in Hd as [Hc Hx].
  destruct (Py.isupper c); [now apply H | now apply IH].
Qed.

(** X4: the round trip from the wire and back.  For a name made of
    ASCII letters and digits, [to_camel_case(from_camel_case(x))] is [x]
    exactly when, after the first uppercase letter of [x], no lowercase
    letter directly follows a digit; so every name of letters only comes
    back as it was. *)
Theorem wire_name_round_trip (x : string) :
  alnum x = true ->
  (to_camel_case (from_camel_case x) = x <-> camel_separated x = true) /\
  (has_digit x = false -> to_camel_case (from_camel_case x) = x).
Proof.
  intros Hx. split; [now apply forth_and_back|].
  intros Hd. apply (forth_and_back x Hx). now apply letters_camel_separated.
Qed.

Lemma wire_name_round_trip_modified_at :
  to_camel_case (from_camel_case "modifiedAt") = "modifiedAt" /\
  to_camel_case (from_camel_case "aB1c") <> "aB1c".
Proof.
  split.
  - apply (wire_name_round_trip "modifiedAt"); reflexivity.
  - intros H.
    apply (proj1 (wire_name_round_trip "aB1c" eq_refl)) in H. discriminate H.
Defined.

Lemma name_in_In (n : string) (l : list string) : name_in n l = true <-> In n l.
Proof.
  unfold name_in. rewrite existsb_exists. split.
  - intros (x & Hx & E). apply String.eqb_eq in E. now subst.
  - intros H. exists n. split; [exact H | apply String.eqb_refl].
Qed.

Lemma distinct_NoDup (l : list string) : distinct l = true <-> NoDup l.
Proof.
  induction l as [|n l IH]; simpl.
  - split; [constructor | reflexivity].
  - rewrite andb_true_iff, negb_true_iff, IH. split.
    + intros [Hn Hl]. constructor; [|exact Hl].
      rewrite <- name_in_In. now rewrite Hn.
    + intros H. inversion H as [|? ? Hn Hl]; subst. split; [|exact Hl].
      destruct (name_in n l) eqn:E; [|reflexivity].
      apply name_in_In in E. contradiction.
Qed.

Section DictShape.
Context {V : Type}.
Implicit Types (d : list (string * V)) (k : string).

Lemma dict_has_In k d : dict_has k d = true <-> In k (dict_keys d).
Proof.
  unfold dict_has. induction d as [|[k' v'] d IH]; simpl.
  - split; [discriminate | tauto].
  - destruct (String.eqb_spec k' k) as [->|Hk].
    + split; auto.
    + rewrite IH. split; [auto | intros [E|H]; [congruence | exact H]].
Qed.

Lemma dict_set_fresh k (v : V) d :
  dict_has k d = false -> dict_set k v d = (d ++ [(k, v)])%list.
Proof.
  unfold dict_has. induction d as [|[k' v'] d IH]; simpl; [reflexivity|].
  destruct (String.eqb k' k); [discriminate|]. intros H. now rewrite IH.
Qed.

Lemma dict_keys_set k (v : V) d :
  forall n, In n (dict_keys (dict_set k v d)) -> n = k \/ In n (dict_keys d).
Proof.
  induction d as [|[k' v'] d IH]; simpl; intros n.
  - intros [<-|[]]. now left.
  - destruct (String.eqb k' k); simpl.
    + intros [<-|H]; auto.
    + intros [<-|H]; auto. destruct (IH n H); auto.
Qed.

Lemma dict_has_app k d1 d2 :
  dict_has k (d1 ++ d2) = dict_has k d1 || dict_has k d2.
Proof.
  unfold dict_has. induction d1 as [|[k' v'] d1 IH]; simpl; [reflexivity|].
  destruct (String.eqb k' k); auto.
Qed.

End DictShape.

Lemma alnum_underscore_free (s : string) :
  alnum s = true -> Py.contains Py.UNDERSCORE s = false.
Proof.
  induction s as [|c s IH]; simpl; [reflexivity|].
  intros H. apply andb_true_iff in H as [Hc Hs].
  destruct (alnum_char_cases c Hc)
    as [(_ & _ & He & _) | [(_ & _ & _ & He & _) | (_ & _ & _ & He)]];
    rewrite He; auto.
Qed.

Section Serialisation.
Context {schema : Schema}.

(** The loop of [_get_properties] adds to [data] only keys that are the
    wire form of a writable attribute held by the instance. *)
Lemma get_properties_loop_keys (san : value -> value) (writable : list string)
  (dict data : props) (k : string) :
  In k (dict_keys (get_properties_loop san writable dict data)) ->
  In k (dict_keys data) \/
  exists a, name_in a writable = true /\ In a (dict_keys dict) /\
            k = to_camel_case a.
Proof.
  revert data. induction dict as [|[a v] dict IH]; intros data; simpl; auto.
  destruct (name_in a writable) eqn:Ha.
  - intros H. destruct (IH _ H) as [H1 | (a' & Hw & Hin & ->)].
    + destruct (dict_keys_set _ _ _ _ H1) as [->|H2]; [|now left].
      right. exists a. auto.
    + right. exists a'. auto.
  - intros H. destruct (IH _ H) as [H1 | (a' & Hw & Hin & ->)]; [now left|].
    right. exists a'. auto.
Qed.

(** X5: [_get_properties] never sends an attribute that is not
    writable: every key of its result is the wire form of a name that is
    in [writable_attrs] and in the instance dictionary. *)
Theorem get_properties_writable_only (r : Resource) (k : string) :
  In k (dict_keys (get_properties r)) ->
  exists a, name_in a (writable_attrs (r_cls r)) = true /\
            dict_has a (r_dict r) = true /\ k = to_camel_case a.
Proof.
  intros H. destruct (get_properties_loop_keys _ _ _ _ _ H)
    as [[] | (a & Hw & Hin & ->)].
  exists a. rewrite dict_has_In. auto.
Qed.

Lemma get_properties_loop_app (san : value -> value) (writable : list string)
  (a b data : props) :
  get_properties_loop san writable (a ++ b)%list data =
  get_properties_loop san writable b (get_properties_loop san writable a data).
Proof.
  revert data. induction a as [|[k v] a IH]; intros data; simpl; auto.
  destruct (name_in k writable); apply IH.
Qed.

Lemma get_properties_loop_keeps (san : value -> value) (writable : list string)
  (post data : props) (key : string) :
  (forall k v, In (k, v) post -> name_in k writable = true ->
               to_camel_case k <> key) ->
  dict_get key (get_properties_loop san writable post data) = dict_get key data.
Proof.
  revert data. induction post as [|[k v] post IH]; intros data Hpost; simpl; auto.
  assert (Hrest : forall k' v', In (k', v') post -> name_in k' writable = true ->
                                to_camel_case k' <> key)
    by (intros k' v' Hin; apply (Hpost k' v'); now right).
  destruct (name_in k writable) eqn:Hk; rewrite IH by exact Hrest; auto.
  apply dict_get_set_other. intros E. apply (Hpost k v); [now left | exact Hk | auto].
Qed.

(** X6: a writable attribute that holds a [Resource] with a non-empty
    locator is sent as the reference [{'href': locator}] and nothing else
    of the nested resource (no later writable attribute having the same
    wire name). *)
Theorem nested_resource_sent_as_reference (r : Resource) (pre post : props)
  (name h : string) (cls : class) (q : option ref) (e : option Expansion)
  (d : props) :
  r_dict r = (pre ++ (name, VResource cls q e d) :: post)%list ->
  name_in name (writable_attrs (r_cls r)) = true ->
  dict_href d = VStr h -> h <> "" ->
  (forall k v, In (k, v) post -> name_in k (writable_attrs (r_cls r)) = true ->
               to_camel_case k <> to_camel_case name) ->
  dict_get (to_camel_case name) (get_properties r) =
  Some (VDict [("href", VStr h)]).
Proof.
  intros Hd Hw Hh Hne Hpost. unfold get_properties. rewrite Hd.
  rewrite get_properties_loop_app. cbn [get_properties_loop]. rewrite Hw.
  rewrite get_properties_loop_keeps by exact Hpost.
  rewrite dict_get_set_same. cbn [sanitize_property]. rewrite Hh.
  cbn [truthy]. destruct (String.eqb_spec h ""); [contradiction | reflexivity].
Qed.

End Serialisation.

Lemma get_properties_writable_only_saved_account :
  exists a, name_in a ["email"; "given_name"; "status"] = true /\
            dict_has a (r_dict saved_account) = true /\
            "givenName" = to_camel_case a.
Proof.
  apply (@get_properties_writable_only demo_schema saved_account "givenName").
  simpl. auto.
Defined.

Lemma nested_resource_sent_as_reference_membership :
  dict_get "account" (get_properties (schema := membership_schema) membership) =
  Some (VDict [("href", VStr "/accounts/1")]).
Proof.
  apply (@nested_resource_sent_as_reference membership_schema membership
           [("href", VStr "/groupMemberships/1")]
           [("group", VResource (Entity "Group") None None [("href", VStr "/groups/2")])]
           "account" "/accounts/1" (Entity "Account") None None
           [("href", VStr "/accounts/1")]);
    try reflexivity; try discriminate.
  intros k v [H|[]] _. injection H as <- _. discriminate.
Defined.

(** ** What was materialised is what is sent *)

Section Echo.
Context {schema : Schema}.

Lemma set_properties_loop_shape (in_fixed : bool) (attrs : list (string * class))
  (p : props) :
  forall d0 d : props,
    set_properties_loop wrap_resource_attr in_fixed false attrs p d0 = Ok d ->
    NoDup (map (fun kv => from_camel_case (fst kv)) p) ->
    (forall kv, In kv p -> dict_has (from_camel_case (fst kv)) d0 = false) ->
    exists new, d = (d0 ++ new)%list /\ Forall2 (kept attrs) p new.
Proof.
  induction p as [|[key v] p IH]; intros d0 d H Hnd Hfresh.
  - injection H as <-. exists []. rewrite app_nil_r. split; constructor.
  - cbn [set_properties_loop andb] in H. cbn [map fst] in Hnd.
    inversion Hnd as [|? ? Hnot Hnd']; subst.
    match type of H with
    | rbind ?o _ = _ => destruct o as [w|] eqn:Hw; [|discriminate H]
    end.
    cbn [rbind] in H.
    rewrite dict_set_fresh in H by (apply (Hfresh (key, v)); now left).
    destruct (IH _ _ H Hnd') as (new & -> & Hall).
    { intros kv Hin. rewrite dict_has_app.
      rewrite (Hfresh kv) by now right. cbn [orb]. unfold dict_has.
      cbn [dict_get].
      destruct (String.eqb_spec (from_camel_case key) (from_camel_case (fst kv)))
        as [E|_]; [|reflexivity].
      exfalso. apply Hnot. rewrite E. now apply (in_map (fun kv => from_camel_case (fst kv))). }
    exists ((from_camel_case key, w) :: new). rewrite <- app_assoc. split; [reflexivity|].
    constructor; [|exact Hall]. split; [reflexivity|].
    cbn [fst snd]. unfold dict_has. intros Hattr Hstamp Hplain.
    destruct (dict_get (from_camel_case key) attrs); [discriminate Hattr|].
    rewrite Hstamp in Hw.
    destruct in_fixed; [now injection Hw|].
    destruct v; try discriminate Hplain; now injection Hw.
Qed.

Lemma sanitize_property_plain (in_fixed : bool) (v : value) :
  plain_value v = true -> sanitize_property in_fixed v = v.
Proof. destruct v; (discriminate || reflexivity). Qed.

Lemma get_properties_loop_echo (in_fixed : bool) (cls : class) (p : props) :
  forall new data : props,
    Forall2 (kept (get_resource_attributes cls)) p new ->
    forallb (echoed cls) p = true ->
    NoDup (dict_keys p) ->
    (forall k, In k (dict_keys p) -> dict_has k data = false) ->
    get_properties_loop (sanitize_property in_fixed) (writable_attrs cls) new data =
    (data ++ writable_part cls p)%list.
Proof.
  induction p as [|[key v] p IH]; intros new data Hall Hecho Hnd Hfresh;
    inversion Hall as [|? [n w] ? new' [Hn Hv] Hall']; subst.
  - simpl. now rewrite app_nil_r.
  - cbn [fst snd] in Hn, Hv. subst n.
    cbn [forallb] in Hecho. apply andb_true_iff in Hecho as [He Hecho].
    cbn [dict_keys map fst] in Hnd. inversion Hnd as [|? ? Hnot Hnd']; subst.
    unfold echoed in He. cbn [fst snd] in He.
    apply andb_true_iff in He as [Halnum He].
    cbn [get_properties_loop]. unfold writable_part. cbn [filter fst].
    fold (writable_part cls p).
    destruct (name_in (from_camel_case key) (writable_attrs cls)) eqn:Hw.
    + cbn [negb orb] in He.
      apply andb_true_iff in He as [He Hplain].
      apply andb_true_iff in He as [He Hstamp].
      apply andb_true_iff in He as [Hsep Hattr].
      apply negb_true_iff in Hstamp, Hattr.
      rewrite (Hv Hattr Hstamp Hplain), (sanitize_property_plain _ _ Hplain).
      rewrite (proj2 (forth_and_back key Halnum) Hsep).
      rewrite dict_set_fresh by (apply Hfresh; now left).
      rewrite (IH new' _ Hall' Hecho Hnd').
      * now rewrite <- app_assoc.
      * intros k Hk. rewrite dict_has_app, (Hfresh k) by now right.
        cbn [orb]. unfold dict_has. cbn [dict_get].
        destruct (String.eqb_spec key k) as [->|_]; [contradiction | reflexivity].
    + apply (IH new' _ Hall' Hecho Hnd').
      intros k Hk. apply Hfresh. now right.
Qed.

Lemma echoed_alnum (cls : class) (p : props) :
  forallb (echoed cls) p = true ->
  forall kv, In kv p -> Py.contains Py.UNDERSCORE (fst kv) = false.
Proof.
  rewrite forallb_forall. intros H kv Hin. specialize (H kv Hin).
  unfold echoed in H. apply andb_true_iff in H as [H _].
  now apply alnum_underscore_free.
Qed.

Lemma local_names_NoDup (p : props) :
  (forall kv, In kv p -> Py.contains Py.UNDERSCORE (fst kv) = false) ->
  NoDup (dict_keys p) ->
  NoDup (map (fun kv : string * value => from_camel_case (fst kv)) p).
Proof.
  induction p as [|[key v] p IH]; intros Hfree Hnd; [constructor|].
  cbn [dict_keys map fst] in *. inversion Hnd as [|? ? Hnot Hnd']; subst.
  constructor.
  - intros Hin. apply in_map_iff in Hin as ([k' v'] & E & Hin). cbn [fst] in E.
    apply Hnot. destruct (string_dec k' key) as [<-|Hne].
    + now apply (in_map fst) in Hin.
    + exfalso. apply Hne.
      apply (from_camel_case_inj k' key
               (Hfree (k', v') (or_intror Hin)) (Hfree (key, v) (or_introl eq_refl)) E).
  - apply IH; [|exact Hnd']. intros kv Hin. apply Hfree. now right.
Qed.

Lemma materialised_then_serialised (in_fixed : bool) (cls : class) (p d : props) :
  distinct (dict_keys p) = true ->
  forallb (echoed cls) p = true ->
  set_properties_loop wrap_resource_attr in_fixed false
    (get_resource_attributes cls) p [] = Ok d ->
  get_properties_loop (sanitize_property in_fixed) (writable_attrs cls) d [] =
  writable_part cls p.
Proof.
  intros Hd Hecho Hset. apply distinct_NoDup in Hd.
  destruct (set_properties_loop_shape _ _ _ _ _ Hset
              (local_names_NoDup p (echoed_alnum cls p Hecho) Hd)
              (fun _ _ => eq_refl))
    as (new & -> & Hall).
  cbn [app]. now apply (get_properties_loop_echo in_fixed cls p new []).
Qed.

(** X7: what was materialised is what is sent.  When a payload with
    distinct keys of letters and digits has been materialised by
    [_set_properties] into an empty dictionary, [_get_properties] gives
    back exactly the entries of the payload whose local name is writable,
    with their wire keys, their values and their order, provided each of
    these has a key that the codec gives back, is neither declared as a
    nested resource nor a timestamp, and holds a value that is neither a
    mapping nor an instance. *)
Theorem materialised_payload_sent_back (cls : class) (p d : props)
  (q : option ref) (e : option Expansion) :
  plain_resource_class cls = true ->
  distinct (dict_keys p) = true ->
  forallb (echoed cls) p = true ->
  set_properties cls p [] = Ok d ->
  get_properties (mkResource cls q e d) = writable_part cls p.
Proof.
  intros Hcls Hd Hecho Hset. rewrite set_properties_plain in Hset by exact Hcls.
  exact (materialised_then_serialised false cls p d Hd Hecho Hset).
Qed.

(** X8: the same round trip for a [FixedAttrsDict]: after
    [FixedAttrsDict(client, properties)], [_get_properties()] gives back
    the writable entries of [properties] as they came. *)
Theorem fixed_attrs_payload_sent_back (cls : class) (p d : props) :
  distinct (dict_keys p) = true ->
  forallb (echoed cls) p = true ->
  FixedAttrsDict.init cls p = Ok d ->
  FixedAttrsDict.get_properties cls d = writable_part cls p.
Proof. exact (materialised_then_serialised true cls p d). Qed.

End Echo.

Lemma materialised_payload_sent_back_account :
  get_properties (schema := demo_schema)
    (mkResource (Entity "Account") None None
       [("href", VStr "/accounts/1"); ("given_name", VStr "Ann");
        ("email", VStr "a@example.com");
        ("directory",
         VResource (Entity "Directory") None None [("href", VStr "/directories/9")])]) =
  [("givenName", VStr "Ann"); ("email", VStr "a@example.com")].
Proof.
  apply (@materialised_payload_sent_back demo_schema (Entity "Account")
           [("href", VStr "/accounts/1"); ("givenName", VStr "Ann");
            ("email", VStr "a@example.com");
            ("directory", VDict [("href", VStr "/directories/9")])]);
    reflexivity.
Defined.

Lemma fixed_attrs_payload_sent_back_name :
  FixedAttrsDict.get_properties (schema := demo_schema) (FixedAttrs "Provider")
    [("provider_id", VStr "google"); ("name", VStr "Google")] =
  [("name", VStr "Google")].
Proof.
  apply (@fixed_attrs_payload_sent_back demo_schema (FixedAttrs "Provider")
           [("providerId", VStr "google"); ("name", VStr "Google")]);
    reflexivity.
Defined.

(** ** Writing attributes *)

Section WritesFacts.
Context {schema : Schema} {store : DataStore}.

Lemma setattr_writable (st : state) (name : string) (v : value) :
  name_in name (writable_attrs (r_cls (self st))) = true ->
  setattr name v st = (Ret tt, with_dict st (dict_set name v (r_dict (self st)))).
Proof.
  intros H. unfold setattr. run. rewrite H, orb_true_r. reflexivity.
Qed.

Lemma setattr_refused (st : state) (name : string) (v : value) :
  Py.startswith "_" name = false ->
  name_in name (writable_attrs (r_cls (self st))) = false ->
  setattr name v st = (Raise AttributeError, st).
Proof. intros H1 H2. unfold setattr. run. now rewrite H1, H2. Qed.

(** X9: [__setattr__] refuses with [AttributeError], leaving the instance
    as it was, every name that neither starts with an underscore nor is in
    [writable_attrs]; a writable name is stored in [__dict__] without any
    call of the data store, the other entries stay as they were, and
    reading the name back gives the value without a fetch. *)
Theorem setattr_write_protection (st : state) (name : string) (v : value) :
  (Py.startswith "_" name = false ->
   name_in name (writable_attrs (r_cls (self st))) = false ->
   setattr name v st = (Raise AttributeError, st)) /\
  (name_in name (writable_attrs (r_cls (self st))) = true ->
   exists st',
     setattr name v st = (Ret tt, st') /\
     trace st' = trace st /\ heap st' = heap st /\
     getattr name st' = (Ret v, st') /\
     forall other, other <> name ->
       dict_get other (r_dict (self st')) = dict_get other (r_dict (self st))).
Proof.
  split; [apply setattr_refused|].
  intros H. eexists. split; [now apply setattr_writable|].
  split; [reflexivity|]. split; [reflexivity|]. split.
  - apply getattr_held. apply dict_get_set_same.
  - intros other Hne. now apply dict_get_set_other.
Qed.

(** ** The dictionary protocol *)

(** X10: [key in resource] asks the data store only when it has to.  A
    name that normal lookup finds (one the class defines, or a
    bookkeeping slot), ['href'], and every key held in [__dict__] are
    contained, without a fetch: ['href'] even in a new resource, whose
    locator is [None].  Any other key is not contained in a new resource,
    again without a fetch; in a resource with a locator it costs the
    fetch of [_ensure_data], and is contained exactly when the
    dictionary holds it afterwards. *)
Theorem contains_fetches_only_when_needed (defined : string -> bool)
  (st : state) :
  DictMixin.contains defined "href" st = (Ret true, st) /\
  (forall key, defined key = true ->
     DictMixin.contains defined key st = (Ret true, st)) /\
  (forall key v, dict_get key (r_dict (self st)) = Some v ->
     DictMixin.contains defined key st = (Ret true, st)) /\
  (forall key,
     defined key = false -> key <> "href" ->
     dict_get key (r_dict (self st)) = None ->
     (absent st = true -> DictMixin.contains defined key st = (Ret false, st)) /\
     (forall st1, ensure_data st = (Ret tt, st1) ->
        DictMixin.contains defined key st =
        (Ret (dict_has key (r_dict (self st1))), st1))).
Proof.
  unfold DictMixin.contains. split; [|split; [|split]].
  - destruct (defined "href"); [reflexivity|]. unfold has_attr, getattr. run.
    destruct (dict_get "href" (r_dict (self st))) eqn:E; [reflexivity|].
    unfold getattr_hook. reflexivity.
  - intros key ->. reflexivity.
  - intros key v H. destruct (defined key); [reflexivity|].
    unfold has_attr. now rewrite (getattr_held st key v H).
  - intros key -> Hkey Hmiss.
    assert (Hrun : forall st1, ensure_data st = (Ret tt, st1) ->
              has_attr (getattr key) st =
              (Ret (dict_has key (r_dict (self st1))), st1)).
    { intros st1 He. unfold has_attr. rewrite (getattr_missing st key Hmiss).
      unfold getattr_hook. destruct (String.eqb_spec key "href"); [contradiction|].
      rewrite (bind_run _ _ _ _ _ He). run. unfold dict_has.
      destruct (dict_get key (r_dict (self st1))); reflexivity. }
    split; [|exact Hrun].
    intros Hnew. rewrite (Hrun st).
    + unfold dict_has. now rewrite Hmiss.
    + unfold ensure_data. unfold bind at 1. now rewrite is_new_absent, Hnew.
Qed.

Lemma with_dict_with_dict (st : state) (d1 d2 : props) :
  with_dict (with_dict st d1) d2 = with_dict st d2.
Proof. reflexivity. Qed.

Lemma setattr_each_writable (dct : props) :
  forall st, all_writable (r_cls (self st)) dct = true ->
    DictMixin.setattr_each dct st =
    (Ret tt, with_dict st (dict_update (r_dict (self st)) dct)).
Proof.
  induction dct as [|[k v] dct IH]; intros st H.
  - destruct st as [[c q e d] hp t]. reflexivity.
  - cbn [all_writable forallb fst] in H. apply andb_true_iff in H as [Hk H].
    cbn [DictMixin.setattr_each].
    rewrite (bind_run _ _ _ _ _ (setattr_writable st k v Hk)).
    rewrite IH by exact H. reflexivity.
Qed.

(** X11: [update(dct)] is not atomic.  When the first entry that
    [__setattr__] refuses comes after writable ones, [update] raises
    [AttributeError] with the earlier entries written, the later ones not,
    and [save] not called; when every entry is writable it is [save] on
    the instance with all the entries written. *)
Theorem update_stops_at_first_refusal (save_method : option (M unit))
  (st : state) :
  (forall pre post k v,
     all_writable (r_cls (self st)) pre = true ->
     Py.startswith "_" k = false ->
     name_in k (writable_attrs (r_cls (self st))) = false ->
     DictMixin.update save_method (pre ++ (k, v) :: post)%list st =
     (Raise AttributeError, with_dict st (dict_update (r_dict (self st)) pre))) /\
  (forall dct,
     all_writable (r_cls (self st)) dct = true ->
     DictMixin.update (Some save) dct st =
     save (with_dict st (dict_update (r_dict (self st)) dct))).
Proof.
  split.
  - intros pre post k v Hpre Hk Hw. unfold DictMixin.update.
    assert (H : forall s, all_writable (r_cls (self s)) pre = true ->
              r_cls (self s) = r_cls (self st) ->
              DictMixin.setattr_each (pre ++ (k, v) :: post)%list s =
              (Raise AttributeError, with_dict s (dict_update (r_dict (self s)) pre))).
    { clear Hpre. induction pre as [|[k0 v0] pre IH]; intros s Hpre Hcls.
      - cbn [app DictMixin.setattr_each]. unfold bind.
        rewrite setattr_refused by (rewrite ?Hcls; assumption).
        destruct s as [[c q e d] hp t]. reflexivity.
      - cbn [all_writable forallb fst] in Hpre.
        apply andb_true_iff in Hpre as [Hk0 Hpre].
        cbn [app DictMixin.setattr_each].
        rewrite (bind_run _ _ _ _ _ (setattr_writable s k0 v0 Hk0)).
        rewrite IH by (assumption || exact Hcls). reflexivity. }
    unfold bind. now rewrite (H st Hpre eq_refl).
  - intros dct H. unfold DictMixin.update.
    now rewrite (bind_run _ _ _ _ _ (setattr_each_writable dct st H)).
Qed.

Lemma for_keys_held {A : Type} (f : string -> value -> A) (dict : props)
  (ks : list string) :
  (forall k, In k ks -> In k (dict_keys dict)) ->
  exists vs,
    DictMixin.for_keys (fun _ v => v) dict ks = Ok vs /\
    DictMixin.for_keys f dict ks = Ok (map (fun kv => f (fst kv) (snd kv)) (combine ks vs)) /\
    length vs = length ks /\
    (forall k v, In (k, v) (combine ks vs) -> dict_get k dict = Some v).
Proof.
  induction ks as [|k ks IH]; intros Hin.
  - exists []. repeat split. intros k v [].
  - destruct IH as (vs & Hv & Hf & Hlen & Hget);
      [intros k' Hk'; apply Hin; now right|].
    assert (Hk : dict_has k dict = true) by (apply dict_has_In, Hin; now left).
    unfold dict_has in Hk. cbn [DictMixin.for_keys].
    destruct (dict_get k dict) as [v|] eqn:E; [|discriminate].
    exists (v :: vs). rewrite Hv, Hf. cbn [rbind combine map fst snd length].
    repeat split; [now rewrite Hlen|].
    intros k' v' [H|H]; [injection H as <- <-; exact E | now apply Hget].
Qed.

(** X12: [values()] and [items()] agree with [keys()].  Whenever
    [keys()] returns, both return in the same state, [items()] pairs each
    key with a value and the value is the one [__dict__] holds for it;
    neither raises [KeyError]. *)
Theorem items_pair_keys_with_values (st st1 : state) (ks : list string) :
  keys st = (Ret ks, st1) ->
  exists vs,
    DictMixin.values st = (Ret vs, st1) /\
    DictMixin.items st = (Ret (combine ks vs), st1) /\
    length vs = length ks /\
    (forall k v, In (k, v) (combine ks vs) ->
       dict_get k (r_dict (self st1)) = Some v).
Proof.
  intros Hkeys.
  assert (Hks : forall k, In k ks -> In k (dict_keys (r_dict (self st1)))).
  { unfold keys, bind in Hkeys.
    destruct (ensure_data st) as [[[]|e|] s]; try discriminate Hkeys.
    run in Hkeys. injection Hkeys as <- <-.
    intros k Hk. now apply filter_In in Hk as [Hk _]. }
  destruct (for_keys_held (fun k v => (k, v)) (r_dict (self st1)) ks Hks)
    as (vs & Hv & Hi & Hlen & Hget).
  exists vs. unfold DictMixin.values, DictMixin.items.
  rewrite !(bind_run _ _ _ _ _ Hkeys). run. rewrite Hv, Hi.
  replace (map (fun kv : string * value => (fst kv, snd kv)) (combine ks vs))
    with (combine ks vs)
    by (clear; induction (combine ks vs) as [|[k v] l IH]; simpl; congruence).
  auto.
Qed.

End WritesFacts.

Lemma setattr_write_protection_account :
  setattr (schema := demo_schema) "href" (VStr "/accounts/2")
    (start saved_account []) =
    (Raise AttributeError, start saved_account []) /\
  exists st',
    setattr (schema := demo_schema) "email" (VStr "b@example.com")
      (start saved_account []) = (Ret tt, st') /\
    getattr (schema := demo_schema) (store := fixed_store account_payload)
      "email" st' = (Ret (VStr "b@example.com"), st').
Proof.
  split.
  - apply (@setattr_write_protection demo_schema (fixed_store account_payload));
      reflexivity.
  - destruct (proj2 (@setattr_write_protection demo_schema (fixed_store account_payload)
                       (start saved_account []) "email" (VStr "b@example.com"))
                eq_refl)
      as (st' & Hset & _ & _ & Hget & _).
    exists st'. split; assumption.
Defined.

Lemma contains_fetches_only_when_needed_unsaved :
  DictMixin.contains (schema := demo_schema) (store := fixed_store [])
    (fun key => name_in key ["keys"; "update"; "save"]) "keys"
    (start unsaved_account []) = (Ret true, start unsaved_account []) /\
  DictMixin.contains (schema := demo_schema) (store := fixed_store [])
    (fun key => name_in key ["keys"; "update"; "save"]) "surname"
    (start unsaved_account []) = (Ret false, start unsaved_account []).
Proof.
  destruct (@contains_fetches_only_when_needed demo_schema (fixed_store [])
              (fun key => name_in key ["keys"; "update"; "save"])
              (start unsaved_account []))
    as (_ & Hdefined & _ & Hother).
  split.
  - apply Hdefined. reflexivity.
  - apply Hother; [reflexivity | discriminate | reflexivity | reflexivity].
Defined.

Lemma update_stops_at_first_refusal_account :
  DictMixin.update (schema := demo_schema)
    (Some (save (schema := demo_schema) (store := fixed_store account_payload)))
    [("email", VStr "b@example.com"); ("href", VStr "/accounts/2");
     ("given_name", VStr "Bea")]
    (start saved_account []) =
  (Raise AttributeError,
   with_dict (start saved_account [])
     (dict_update (r_dict saved_account) [("email", VStr "b@example.com")])).
Proof.
  apply (proj1 (@update_stops_at_first_refusal demo_schema
                  (fixed_store account_payload)
                  (Some (save (schema := demo_schema) (store := fixed_store account_payload)))
                  (start saved_account []))
           [("email", VStr "b@example.com")] [("given_name", VStr "Bea")]
           "href" (VStr "/accounts/2"));
    reflexivity.
Defined.

Lemma items_pair_keys_with_values_account :
  exists vs,
    DictMixin.values (schema := demo_schema) (store := fixed_store account_payload)
      (start (lazy (Entity "Account") "/accounts/1") []) =
      (Ret vs, snd (keys (schema := demo_schema) (store := fixed_store account_payload)
                      (start (lazy (Entity "Account") "/accounts/1") []))) /\
    length vs = 3%nat.
Proof.
  destruct (@items_pair_keys_with_values demo_schema (fixed_store account_payload)
              (start (lazy (Entity "Account") "/accounts/1") []) _ _ eq_refl)
    as (vs & Hv & _ & Hlen & _).
  exists vs. split; [exact Hv | exact Hlen].
Defined.

(** ** The order of effects in [save], [delete] and [refresh] *)

Section Effects.
Context {schema : Schema} {store : DataStore}.

(** What [_ensure_data] adds to the trace: the one fetch, or nothing on a
    new resource. *)
Lemma ensure_data_trace (st : state) :
  trace (snd (ensure_data st)) =
  (trace st ++
   if absent st then []
   else [GetResource (dict_href (r_dict (self st)))
           (ensure_data_params (held_query st) (r_expand (self st))
              (r_dict (self st)))])%list.
Proof.
  destruct (ensure_data st) as [o st'] eqn:E. simpl.
  unfold ensure_data in E. unfold bind at 1 in E. rewrite is_new_absent in E.
  destruct (absent st).
  - injection E as <- <-. now rewrite app_nil_r.
  - run in E.
    match type of E with
    | context [get_resource ?h ?p] => destruct (get_resource h p)
    end;
      try match type of E with
      | context [set_properties ?c ?a ?b] => destruct (set_properties c a b)
      end;
      injection E as <- <-; reflexivity.
Qed.

Lemma getattr_trace (st : state) (name : string) :
  exists t, trace (snd (getattr name st)) = (trace st ++ t)%list /\
            only_fetches t = true /\ (length t <= 1)%nat.
Proof.
  unfold getattr. run.
  destruct (dict_get name (r_dict (self st))).
  - exists []. rewrite app_nil_r. auto.
  - unfold getattr_hook. destruct (String.eqb name "href").
    + exists []. run. rewrite app_nil_r. auto.
    + rewrite trace_bind_reader.
      * rewrite ensure_data_trace. eexists. split; [reflexivity|].
        destruct (absent st); simpl; auto.
      * intros [] s. run. destruct (dict_get name (r_dict (self s))); reflexivity.
Qed.

(** X13: [save()] on an instance with a locator calls [update_resource]
    once, with the locator and [_get_properties()], before anything else.
    If the call raises, [save] raises the same and nothing else is done:
    no signal is sent and the instance is as it was.  If it returns, the
    ['resource-updated'] signal follows with the same locator and
    properties, and after it there is nothing but at most one fetch (made
    when the test for [modified_at] has to materialise the instance). *)
Theorem save_updates_then_signals (st : state) :
  absent st = false ->
  let h := dict_href (r_dict (self st)) in
  let properties := get_properties (self st) in
  (forall e, update_resource h properties = Error e ->
     save st = (Raise e, after st [UpdateResource h properties])) /\
  (forall data, update_resource h properties = Ok data ->
     exists t,
       trace (snd (save st)) =
         (trace st ++
          [UpdateResource h properties;
           Send SIGNAL_RESOURCE_UPDATED h (Some properties)] ++ t)%list /\
       only_fetches t = true /\ (length t <= 1)%nat).
Proof.
  intros Hnew h properties. subst h properties. split.
  - intros e He. unfold save. unfold bind at 1.
    rewrite is_new_absent, Hnew. cbn iota. run. rewrite He. reflexivity.
  - intros data Hd.
    set (s1 := after
                 (after st [UpdateResource (dict_href (r_dict (self st)))
                              (get_properties (self st))])
                 [Send SIGNAL_RESOURCE_UPDATED (dict_href (r_dict (self st)))
                    (Some (get_properties (self st)))]).
    destruct (getattr_trace s1 "modified_at") as (t & Ht & Hf & Hlen).
    exists t. split; [|auto].
    unfold save. unfold bind at 1.
    rewrite is_new_absent, Hnew. cbn iota.
    run. rewrite Hd. cbn iota. fold (after st [UpdateResource (dict_href (r_dict (self st)))
                              (get_properties (self st))]).
    match goal with
    | |- context [has_attr (getattr "modified_at") ?s] => change s with s1
    end.
    match goal with
    | |- _ = (trace st ++ ?l ++ t)%list =>
        replace (trace st ++ l ++ t)%list with (trace s1 ++ t)%list
          by (unfold s1, after; cbn [trace]; now rewrite <- !app_assoc)
    end.
    rewrite <- Ht. unfold has_attr.
    destruct (getattr "modified_at" s1) as [[v|[]|] s2]; cbn [snd]; try reflexivity.
    destruct (dict_get "modifiedAt" data) as [stamp|]; [|reflexivity].
    destruct (parse stamp); reflexivity.
Qed.

(** X14: [delete()] on an instance with a locator calls
    [delete_resource] and then sends ['resource-deleted']; when the call
    raises, no signal is sent.  The instance keeps its locator, so a
    second [delete()] calls the data store again, and signals again when
    that call returns. *)
Theorem delete_calls_then_signals (st : state) :
  absent st = false ->
  let h := dict_href (r_dict (self st)) in
  (forall e, delete_resource h = Error e ->
     delete st = (Raise e, after st [DeleteResource h])) /\
  (delete_resource h = Ok tt ->
     delete st =
       (Ret tt, after st [DeleteResource h; Send SIGNAL_RESOURCE_DELETED h None]) /\
     (delete ;; delete) st =
       (Ret tt,
        after st [DeleteResource h; Send SIGNAL_RESOURCE_DELETED h None;
                  DeleteResource h; Send SIGNAL_RESOURCE_DELETED h None])).
Proof.
  intros Hnew h.
  assert (Hrun : forall s, self s = self st ->
            delete s =
            match delete_resource h with
            | Ok _ => (Ret tt, after s [DeleteResource h;
                                        Send SIGNAL_RESOURCE_DELETED h None])
            | Error e => (Raise e, after s [DeleteResource h])
            end).
  { intros s Hs. unfold delete. unfold bind at 1.
    rewrite is_new_absent. unfold absent. rewrite Hs. fold (absent st).
    rewrite Hnew. cbn iota. run. rewrite Hs. fold h.
    destruct (delete_resource h) as [[]|e]; unfold after; cbn [trace];
      rewrite ?Hs, <- ?app_assoc; reflexivity. }
  split.
  - intros e He. now rewrite (Hrun st eq_refl), He.
  - intros Hok. split.
    + now rewrite (Hrun st eq_refl), Hok.
    + unfold bind at 1. rewrite (Hrun st eq_refl), Hok.
      rewrite Hrun by reflexivity. rewrite Hok. unfold after. cbn [self heap trace].
      now rewrite <- app_assoc.
Qed.

(** X15: [refresh()] evicts before it fetches.  [uncache_resource] is
    called with the locator first; if it raises, nothing is fetched;
    otherwise [refresh] goes on as [_ensure_data].  So on a new resource
    it evicts [None] and fetches nothing, and on any other resource it
    evicts and then fetches once. *)
Theorem refresh_evicts_before_fetching (st : state) :
  let h := dict_href (r_dict (self st)) in
  (forall e, uncache_resource h = Error e ->
     refresh st = (Raise e, after st [UncacheResource h])) /\
  (uncache_resource h = Ok tt ->
     refresh st = ensure_data (after st [UncacheResource h]) /\
     (absent st = true -> refresh st = (Ret tt, after st [UncacheResource VNone])) /\
     (absent st = false ->
      trace (snd (refresh st)) =
        (trace st ++
         [UncacheResource h;
          GetResource h (ensure_data_params (held_query st) (r_expand (self st))
                           (r_dict (self st)))])%list)).
Proof.
  intros h. split.
  - intros e He. unfold refresh. run. fold h. now rewrite He.
  - intros Hok.
    assert (Hrun : refresh st = ensure_data (after st [UncacheResource h])).
    { unfold refresh. run. fold h. now rewrite Hok. }
    assert (Habs : absent (after st [UncacheResource h]) = absent st) by reflexivity.
    split; [exact Hrun|]. rewrite Hrun. split.
    + intros Hnew. unfold ensure_data. unfold bind at 1.
      rewrite is_new_absent, Habs, Hnew. cbn iota. unfold ret.
      unfold absent in Hnew. fold h in Hnew.
      destruct h; try discriminate Hnew. reflexivity.
    + intros Hnew.
      rewrite ensure_data_trace, Habs, Hnew. unfold after, held_query.
      cbn [self heap trace]. now rewrite <- app_assoc.
Qed.

Lemma upper_upper (s : string) : Py.upper (Py.upper s) = Py.upper s.
Proof.
  induction s as [|c s IH]; simpl; [reflexivity|]. rewrite IH. f_equal.
  destruct c as [[] [] [] [] [] [] [] []]; reflexivity.
Qed.

(** X16: [get_status()] normalises.  Once the instance is materialised,
    a missing status reads as ['DISABLED'], so that [is_disabled()] is
    true and [is_enabled()] false; a string status is compared in upper
    case, so that ['enabled'] counts as enabled; and the status returned
    is its own upper case. *)
Theorem status_is_normalised (st st1 : state) :
  ensure_data st = (Ret tt, st1) ->
  (dict_get "status" (r_dict (self st1)) = None ->
   get_status st = (Ret "DISABLED", st1) /\
   is_disabled st = (Ret true, st1) /\ is_enabled st = (Ret false, st1)) /\
  (forall s, dict_get "status" (r_dict (self st1)) = Some (VStr s) ->
   get_status st = (Ret (Py.upper s), st1) /\
   is_enabled st = (Ret (String.eqb (Py.upper s) "ENABLED"), st1) /\
   is_disabled st = (Ret (String.eqb (Py.upper s) "DISABLED"), st1) /\
   Py.upper (Py.upper s) = Py.upper s).
Proof.
  intros He. split.
  - intros Hs.
    assert (Hg : get_status st = (Ret "DISABLED", st1)).
    { unfold get_status. rewrite (bind_run _ _ _ _ _ He). run. now rewrite Hs. }
    split; [exact Hg|].
    unfold is_disabled, is_enabled. now rewrite !(bind_run _ _ _ _ _ Hg).
  - intros s Hs.
    assert (Hg : get_status st = (Ret (Py.upper s), st1)).
    { unfold get_status. rewrite (bind_run _ _ _ _ _ He). run. now rewrite Hs. }
    split; [exact Hg|].
    unfold is_disabled, is_enabled. rewrite !(bind_run _ _ _ _ _ Hg).
    repeat split. apply upper_upper.
Qed.

End Effects.

Lemma save_updates_then_signals_account :
  save (schema := demo_schema) (store := failing_store account_payload)
    (start saved_account []) =
  (Raise (RemoteError "update"),
   after (start saved_account [])
     [UpdateResource (VStr "/accounts/1")
        [("email", VStr "a@example.com"); ("givenName", VStr "Ann")]]).
Proof.
  apply (proj1 (@save_updates_then_signals demo_schema
                  (failing_store account_payload) (start saved_account [])
                  eq_refl)).
  reflexivity.
Defined.

Lemma delete_calls_then_signals_account :
  (delete (store := fixed_store account_payload) ;;
   delete (store := fixed_store account_payload)) (start saved_account []) =
  (Ret tt,
   after (start saved_account [])
     [DeleteResource (VStr "/accounts/1");
      Send SIGNAL_RESOURCE_DELETED (VStr "/accounts/1") None;
      DeleteResource (VStr "/accounts/1");
      Send SIGNAL_RESOURCE_DELETED (VStr "/accounts/1") None]).
Proof.
  apply (proj2 (@delete_calls_then_signals (fixed_store account_payload)
                  (start saved_account []) eq_refl) eq_refl).
Defined.

Lemma refresh_evicts_before_fetching_unsaved :
  refresh (schema := demo_schema) (store := fixed_store account_payload)
    (start unsaved_account []) =
  (Ret tt, after (start unsaved_account []) [UncacheResource VNone]).
Proof.
  apply (proj2 (@refresh_evicts_before_fetching demo_schema
                  (fixed_store account_payload) (start unsaved_account []))
           eq_refl);
    reflexivity.
Defined.

Lemma status_is_normalised_account :
  is_enabled (schema := demo_schema) (store := fixed_store account_payload)
    (start (lazy (Entity "Account") "/accounts/1") []) =
  (Ret true,
   snd (ensure_data (schema := demo_schema) (store := fixed_store account_payload)
          (start (lazy (Entity "Account") "/accounts/1") []))).
Proof.
  apply (proj2 (@status_is_normalised demo_schema (fixed_store account_payload)
                  (start (lazy (Entity "Account") "/accounts/1") []) _ eq_refl)
           "enabled" eq_refl).
Defined.

(** ** Views: [query], [search] and [order] *)

Lemma camel_keys_from_keys (q acc : props) (k : string) :
  In k (dict_keys (fold_left
                     (fun d kv => dict_set (to_camel_case (fst kv)) (snd kv) d)
                     q acc)) ->
  In k (dict_keys acc) \/ exists k0, In k0 (dict_keys q) /\ k = to_camel_case k0.
Proof.
  revert acc. induction q as [|[k0 v0] q IH]; intros acc; cbn [fold_left]; auto.
  intros H. destruct (IH _ H) as [H1 | (k1 & Hin & ->)].
  - destruct (dict_keys_set _ _ _ _ H1) as [->|H2]; [|now left].
    right. exists k0. split; [now left | reflexivity].
  - right. exists k1. split; [now right | reflexivity].
Qed.

Lemma camel_keys_underscore_free (q : props) (k : string) :
  In k (dict_keys (camel_keys q)) -> Py.contains Py.UNDERSCORE k = false.
Proof.
  intros H. destruct (camel_keys_from_keys q [] k H) as [[] | (k0 & _ & ->)].
  apply to_camel_case_underscore_free.
Qed.

Section Views.
Context {schema : Schema}.

(** X17: [query] never calls the data store and leaves the receiver's
    dictionary alone.  It returns a view of the receiver's class on the
    receiver's locator that holds nothing but the locator (so it is lazy)
    and has no expansion, whatever the receiver's; the view's query is the
    receiver's with the keyword arguments layered on it and the keys in
    camel case: no key of it holds an underscore. *)
Theorem query_builds_lazy_view (st : state) (kwargs : props) (h : string)
  (cp : option string) (rc : class) :
  r_cls (self st) = Collection cp rc ->
  dict_href (r_dict (self st)) = VStr h ->
  exists (r : Resource) (st' : state) (l : ref),
    query kwargs st = (Ret r, st') /\
    trace st' = trace st /\ r_dict (self st') = r_dict (self st) /\
    r = mkResource (Collection cp rc) (Some l) None [("href", VStr h)] /\
    nth l (heap st') [] = camel_keys (dict_update (current_query st) kwargs) /\
    (forall k, In k (dict_keys (nth l (heap st') [])) ->
               Py.contains Py.UNDERSCORE k = false).
Proof.
  intros Hcls Hhref.
  destruct (query_run st kwargs h cp rc Hcls Hhref) as (hp & Hrun & _).
  eexists _, _, (length hp). split; [exact Hrun|]. cbn [trace self heap].
  rewrite app_nth2, Nat.sub_diag by lia. cbn [nth].
  repeat split. apply camel_keys_underscore_free.
Qed.

Lemma query_view (st : state) (kwargs : props) (h : string)
  (cp : option string) (rc : class) :
  r_cls (self st) = Collection cp rc ->
  dict_href (r_dict (self st)) = VStr h ->
  let st' := enter (query kwargs st) in
  r_cls (self st') = Collection cp rc /\
  dict_href (r_dict (self st')) = VStr h /\
  current_query st' = camel_keys (dict_update (current_query st) kwargs) /\
  trace st' = trace st.
Proof.
  intros Hcls Hhref.
  destruct (query_run st kwargs h cp rc Hcls Hhref) as (hp & Hrun & _).
  rewrite Hrun. unfold enter, current_query.
  cbn [fst snd self heap trace r_cls r_dict r_query].
  rewrite app_nth2, Nat.sub_diag by lia. repeat split.
Qed.

(** X18: on a collection without a query, [search] with a string puts
    it under ['q'], [order] puts the field under ['orderBy'] in camel
    case, and the two compose: ordering a search has the query
    [{'q': text, 'orderBy': field}], with no call of the data store;
    [search] with a mapping is [query] with its entries. *)
Theorem search_then_order (st : state) (text field : string) (h : string)
  (cp : option string) (rc : class) :
  r_cls (self st) = Collection cp rc ->
  dict_href (r_dict (self st)) = VStr h ->
  current_query st = [] ->
  current_query (enter (search (VStr text) st)) = [("q", VStr text)] /\
  current_query (enter (order field st)) =
    [("orderBy", VStr (to_camel_case field))] /\
  current_query (enter (order field (enter (search (VStr text) st)))) =
    [("q", VStr text); ("orderBy", VStr (to_camel_case field))] /\
  trace (enter (order field (enter (search (VStr text) st)))) = trace st /\
  (forall kwargs, search (VDict kwargs) st = query kwargs st).
Proof.
  intros Hcls Hhref Hq. unfold search, order.
  destruct (query_view st [("q", VStr text)] h cp rc Hcls Hhref)
    as (Hcls1 & Hhref1 & Hq1 & Ht1).
  destruct (query_view st [("orderBy", VStr (to_camel_case field))] h cp rc
              Hcls Hhref) as (_ & _ & Hq2 & _).
  destruct (query_view (enter (query [("q", VStr text)] st))
              [("orderBy", VStr (to_camel_case field))] h cp rc Hcls1 Hhref1)
    as (_ & _ & Hq3 & Ht3).
  cbv zeta in *. rewrite Hq in Hq1, Hq2. rewrite Hq1 in Hq3.
  repeat split; try assumption. now rewrite Ht3.
Qed.

End Views.

Lemma query_builds_lazy_view_applications :
  exists (r : Resource) (st' : state) (l : ref),
    query (schema := bare_schema) [("given_name", VStr "Ann")] applications =
      (Ret r, st') /\
    trace st' = [] /\
    nth l (heap st') [] = [("givenName", VStr "Ann")].
Proof.
  destruct (@query_builds_lazy_view bare_schema applications
              [("given_name", VStr "Ann")] "/applications" None Resource_cls
              eq_refl eq_refl)
    as (r & st' & l & Hrun & Ht & _ & _ & Hq & _).
  exists r, st', l. split; [exact Hrun|]. split; [exact Ht | exact Hq].
Defined.

Lemma search_then_order_applications :
  current_query
    (enter (order (schema := bare_schema) "created_at"
              (enter (search (schema := bare_schema) (VStr "ann") applications)))) =
  [("q", VStr "ann"); ("orderBy", VStr "createdAt")].
Proof.
  apply (@search_then_order bare_schema applications "ann" "created_at"
           "/applications" None Resource_cls eq_refl eq_refl eq_refl).
Defined.

(** ** [get] and the create path *)

Lemma prefix_app (a b : string) : String.prefix a (a ++ b) = true.
Proof.
  induction a as [|c a IH]; [now destruct b|]. simpl.
  destruct (ascii_dec c c); [exact IH | contradiction].
Qed.

Lemma prefix_app_r (a b s : string) :
  String.prefix a b = true -> String.prefix a (b ++ s) = true.
Proof.
  revert b. induction a as [|x a IH]; intros b H; [now destruct (b ++ s)|].
  destruct b as [|y b]; simpl in *; [discriminate H|].
  destruct (ascii_dec x y); [now apply IH | discriminate H].
Qed.

Section Get.
Context {schema : Schema} {store : DataStore}.

Lemma Resource_init_lazy (rc : class) (target : string) (e : option Expansion) :
  plain_resource_class rc = true ->
  dict_get "href" (get_resource_attributes rc) = None ->
  Resource_init rc (VStr target) None None e =
  Ok (mkResource rc None e [("href", VStr target)]).
Proof.
  intros Hrc Hattr. unfold Resource_init.
  rewrite set_properties_plain by exact Hrc.
  cbn [set_properties_loop andb].
  change (from_camel_case "href") with "href". now rewrite Hattr.
Qed.

(** X19: [get] builds the element without any call of the data store
    and leaves the state as it was, and so does [collection[key]].  A
    target that holds a ['/'] is taken as the locator as it is; any other
    is put behind the create path and ['/'], and the locator then starts
    with [BASE_URL]; with no [create_path] and a collection locator that
    starts with [BASE_URL], the create path is that locator. *)
Theorem get_resolves_without_fetching (st : state) (target h : string)
  (e : option Expansion) (cp : option string) (rc : class) :
  r_cls (self st) = Collection cp rc ->
  dict_href (r_dict (self st)) = VStr h ->
  plain_resource_class rc = true ->
  dict_get "href" (get_resource_attributes rc) = None ->
  exists locator,
    get target e st = (Ret (mkResource rc None e [("href", VStr locator)]), st) /\
    getitem (Key target) st =
      (Ret (VResource rc None None [("href", VStr locator)]), st) /\
    (Py.contains "/"%char target = true -> locator = target) /\
    (Py.contains "/"%char target = false ->
     Py.startswith BASE_URL locator = true /\
     exists path, locator = path ++ "/" ++ target /\
                  Py.startswith BASE_URL path = true /\
                  (create_path_of (Collection cp rc) = None ->
                   Py.startswith BASE_URL h = true -> path = h)).
Proof.
  intros Hcls Hhref Hrc Hattr.
  assert (Hpath : exists path,
            get_create_path st = (Ret path, st) /\
            Py.startswith BASE_URL path = true /\
            (create_path_of (Collection cp rc) = None ->
             Py.startswith BASE_URL h = true -> path = h)).
  { unfold get_create_path. run. rewrite Hcls. cbn [create_path_of].
    destruct cp as [[|c p]|].
    - rewrite Hhref. destruct (Py.startswith BASE_URL h) eqn:Hb.
      + exists h. repeat split. exact Hb.
      + exists (BASE_URL ++ h). split; [reflexivity|].
        split; [apply prefix_app | discriminate].
    - exists (BASE_URL ++ String c p). split; [reflexivity|].
      split; [apply prefix_app | discriminate].
    - rewrite Hhref. destruct (Py.startswith BASE_URL h) eqn:Hb.
      + exists h. repeat split. exact Hb.
      + exists (BASE_URL ++ h). split; [reflexivity|].
        split; [apply prefix_app | discriminate]. }
  destruct Hpath as (path & Hrun & Hbase & Hown).
  exists (if Py.contains "/"%char target then target else path ++ "/" ++ target).
  assert (Hget : get target e st =
                 (Ret (mkResource rc None e
                         [("href", VStr (if Py.contains "/"%char target then target
                                         else path ++ "/" ++ target))]), st)).
  { unfold get. unfold bind at 1, get_self. rewrite Hcls. cbn [resource_class_of].
    destruct (Py.contains "/"%char target); cbn [negb].
    - run. now rewrite Resource_init_lazy.
    - rewrite (bind_run _ _ _ _ _ (bind_run _ _ _ _ _ Hrun)). run.
      now rewrite Resource_init_lazy. }
  split; [exact Hget|]. split; [|split].
  - cbn [getitem].
    assert (Hnone : get target None st =
                 (Ret (mkResource rc None None
                         [("href", VStr (if Py.contains "/"%char target then target
                                         else path ++ "/" ++ target))]), st)).
    { unfold get. unfold bind at 1, get_self. rewrite Hcls. cbn [resource_class_of].
      destruct (Py.contains "/"%char target); cbn [negb].
      - run. now rewrite Resource_init_lazy.
      - rewrite (bind_run _ _ _ _ _ (bind_run _ _ _ _ _ Hrun)). run.
        now rewrite Resource_init_lazy. }
    now rewrite (bind_run _ _ _ _ _ Hnone).
  - now intros ->.
  - intros ->. split; [now apply prefix_app_r|]. exists path. auto.
Qed.

End Get.

Lemma get_resolves_without_fetching_applications :
  exists locator,
    get (schema := bare_schema) (store := fixed_store []) "3f5a" None applications =
      (Ret (lazy Resource_cls locator), applications) /\
    Py.startswith "https://api.stormpath.com/v1" locator = true.
Proof.
  destruct (@get_resolves_without_fetching bare_schema (fixed_store [])
              applications "3f5a"
              "/applications" None None Resource_cls
              eq_refl eq_refl eq_refl eq_refl)
    as (locator & Hget & _ & _ & Hbare).
  exists locator. split; [exact Hget|].
  exact (proj1 (Hbare eq_refl)).
Defined.

(** ** Integer indices and [len] *)

Lemma from_camel_case_items (k : string) :
  from_camel_case k = "items" -> k = "items".
Proof.
  intros H.
  assert (Hu : has_upper k = false).
  { assert (Hc : forall s, has_upper s = true ->
                  Py.contains Py.UNDERSCORE (from_camel_case s) = true).
    { induction s as [|c s IH]; [discriminate|]. simpl.
      rewrite from_camel_case_cons, contains_app. unfold snake_char.
      destruct (Py.isupper c); [reflexivity|]. simpl. intros Hs.
      rewrite (IH Hs). apply orb_true_r. }
    destruct (has_upper k) eqn:E; [|reflexivity].
    apply Hc in E. rewrite H in E. discriminate E. }
  now rewrite (from_camel_case_plain k Hu) in H.
Qed.

Section CollectionItems.
Context {schema : Schema}.

Lemma popped_loop_keeps_items (attrs : list (string * class)) (p : props) :
  forall d d1 : props,
    set_properties_loop wrap_resource_attr false true attrs p d = Ok d1 ->
    dict_get "items" d1 = dict_get "items" d.
Proof.
  induction p as [|[key v] p IH]; intros d d1 H.
  - now injection H as ->.
  - cbn [set_properties_loop andb] in H.
    destruct (String.eqb_spec key "items") as [->|Hkey]; [now apply IH|].
    match type of H with
    | rbind ?o _ = _ => destruct o as [w|]; [|discriminate H]
    end.
    cbn [rbind] in H. rewrite (IH _ _ H).
    apply dict_get_set_other. intros E. apply Hkey.
    now apply from_camel_case_items.
Qed.

Lemma wrap_popped_items_lookup (rc : class) (p : props) :
  wrap_popped_items wrap_resource_attr rc p =
  match dict_get "items" p with
  | None | Some VNone => Ok None
  | Some (VList raw) =>
      rbind (wrap_items wrap_resource_attr rc raw) (fun ws => Ok (Some ws))
  | Some (VDict []) | Some (VStr "") => Ok (Some [])
  | Some _ => Error TypeError
  end.
Proof.
  induction p as [|[key v] p IH]; [reflexivity|].
  cbn [wrap_popped_items dict_get].
  destruct (String.eqb key "items"); [|exact IH].
  destruct v as [| |s| |l|[|]| |]; reflexivity.
Qed.

(** X20: [CollectionResource._set_properties] stores under ['items']
    the list of the payload with each element wrapped as an instance of
    [resource_class], so as many as the payload has; a payload without
    ['items'], or with [None] for it, leaves the items held as they
    were. *)
Theorem collection_items_are_wrapped (cp : option string) (rc : class)
  (payload d d' : props) :
  set_properties (Collection cp rc) payload d = Ok d' ->
  (forall raw, dict_get "items" payload = Some (VList raw) ->
     exists ws, wrap_items wrap_resource_attr rc raw = Ok ws /\
                dict_get "items" d' = Some (VList ws) /\
                length ws = length raw) /\
  (dict_get "items" payload = None \/ dict_get "items" payload = Some VNone ->
   dict_get "items" d' = dict_get "items" d).
Proof.
  unfold set_properties, collection_set_properties.
  destruct (set_properties_loop _ _ _ _ payload d) as [d1|] eqn:Hloop;
    [|discriminate].
  cbn [rbind]. rewrite wrap_popped_items_lookup. intros H. split.
  - intros raw Hraw. rewrite Hraw in H.
    destruct (wrap_items wrap_resource_attr rc raw) as [ws|] eqn:Hws;
      [|discriminate H].
    cbn [rbind] in H. injection H as <-. exists ws.
    split; [reflexivity|]. split; [apply dict_get_set_same|].
    exact (wrap_items_length rc raw ws Hws).
  - intros [Hnone|Hnone]; rewrite Hnone in H; cbn [rbind] in H;
      injection H as <-; exact (popped_loop_keeps_items _ _ _ _ Hloop).
Qed.

End CollectionItems.

Lemma collection_items_are_wrapped_page :
  exists ws,
    wrap_items (wrap_resource_attr (schema := bare_schema)) Resource_cls
      (remote_refs 2) = Ok ws /\
    length ws = 2%nat.
Proof.
  destruct (proj1 (@collection_items_are_wrapped bare_schema None Resource_cls
              [("href", VStr "/applications"); ("size", VInt 2);
               ("items", VList (remote_refs 2))] [] _ eq_refl)
              (remote_refs 2) eq_refl)
    as (ws & Hws & _ & Hlen).
  exists ws. split; [exact Hws | exact Hlen].
Defined.

Section Indexing.
Context {schema : Schema} {store : DataStore}.
Variables (remote ws : list value) (L : Z) (h : string)
  (cp : option string) (rc : class).
Hypothesis Hserves : serves remote L.
Hypothesis Hwrap : wrap_items wrap_resource_attr rc remote = Ok ws.
Hypothesis HL : 0 < L.

Lemma list_index_inside (items : list value) (i : Z) :
  0 <= i < len items ->
  list_index items i = Ok (nth (Z.to_nat i) items VNone).
Proof.
  intros Hi. unfold list_index.
  replace (0 <=? i) with true by (symmetry; apply Z.leb_le; lia).
  replace (i <? len items) with true by (symmetry; apply Z.ltb_lt; lia).
  cbn [andb]. unfold len in Hi.
  rewrite (nth_error_nth' items VNone) by lia. reflexivity.
Qed.

Lemma list_index_from_end (items : list value) (i : Z) :
  - len items <= i < 0 ->
  list_index items i = Ok (nth (Z.to_nat (len items + i)) items VNone).
Proof.
  intros Hi. unfold list_index.
  replace (0 <=? i) with false by (symmetry; apply Z.leb_gt; lia).
  replace (i <? 0) with true by (symmetry; apply Z.ltb_lt; lia).
  replace (- len items <=? i) with true by (symmetry; apply Z.leb_le; lia).
  cbn [andb]. unfold len in *.
  rewrite (nth_error_nth' items VNone) by lia. reflexivity.
Qed.

Lemma list_index_outside (items : list value) (i : Z) :
  len items <= i \/ i < - len items -> list_index items i = Error IndexError.
Proof.
  intros Hi. unfold list_index. unfold len in *.
  destruct (0 <=? i) eqn:H0, (i <? Z.of_nat (length items)) eqn:H1,
    (i <? 0) eqn:H2, (- Z.of_nat (length items) <=? i) eqn:H3;
    cbn [andb]; try reflexivity; lia.
Qed.

(** X21: an integer index reaches only the window that its own fetch
    returns.  [collection[i]] makes exactly one fetch, with the
    parameters of [_ensure_data], and indexes the window of the
    collection that these ask for (from their offset, as wide as their
    limit; from the start and as wide as the store's page [L] where they
    give none): with [n] the length of that window, an [i] from [0] to
    [n - 1] gives the element there, a negative [i] down to [-n] counts
    from the end of the window, and every other [i] raises [IndexError].
    On a collection whose window is not pinned and which records no
    window of its own or the first page, the window is the first
    [min(L, N)] elements, so that an index from [L] on raises
    [IndexError] although it is below the size [N] that
    [len(collection)] reports. *)
Theorem index_reaches_fetched_window_only (st : state) (i : Z) :
  r_cls (self st) = Collection cp rc ->
  dict_href (r_dict (self st)) = VStr h ->
  let params := ensure_data_params (held_query st) (r_expand (self st))
                  (r_dict (self st)) in
  let held := window (int_param "offset" params 0) (int_param "limit" params L)
                ws in
  let n := len held in
  (0 <= i < n ->
   fst (getitem (Position i) st) = Ret (nth (Z.to_nat i) held VNone)) /\
  (- n <= i < 0 ->
   fst (getitem (Position i) st) = Ret (nth (Z.to_nat (n + i)) held VNone)) /\
  (n <= i \/ i < - n -> fst (getitem (Position i) st) = Raise IndexError) /\
  trace (snd (getitem (Position i) st)) =
    (trace st ++ [GetResource (VStr h) params])%list /\
  (dict_get "_sliced_size" (r_dict (self st)) = None ->
   fst (length_of st) = Ret (VInt (len remote))) /\
  (pinned st = false -> first_window L st ->
   held = window 0 L ws /\ n = Z.min L (len remote)).
Proof.
  intros Hcls Hhref params held n.
  pose proof (ensure_data_paged remote ws L h cp rc Hserves Hwrap st Hcls Hhref)
    as He.
  cbv zeta in He. fold params in He. fold held in He.
  assert (Hrun : getitem (Position i) st =
                 lift (list_index held i) (snd (ensure_data st))).
  { cbn [getitem]. rewrite (bind_run _ _ _ _ _ He), He. unfold get_item. run.
    unfold page_dict. dict_lookup. reflexivity. }
  rewrite Hrun. unfold lift. cbn [fst snd].
  split; [|split; [|split; [|split; [|split]]]].
  - intros Hi. rewrite list_index_inside by exact Hi. reflexivity.
  - intros Hi. rewrite list_index_from_end by exact Hi. reflexivity.
  - intros Hi. rewrite list_index_outside by exact Hi. reflexivity.
  - now rewrite He.
  - intros Hs. unfold length_of. rewrite (bind_run _ _ _ _ _ He).
    erewrite bind_run by (apply getattr_held; apply page_dict_size).
    run. now rewrite page_dict_sliced_size, Hs.
  - intros Hp Hw.
    destruct (ensure_data_params_first_window L st Hp Hw) as [Ho Hl].
    cbv zeta in Ho, Hl. fold params in Ho, Hl.
    assert (Hheld : held = window 0 L ws) by (unfold held; now rewrite Ho, Hl).
    split; [exact Hheld|]. unfold n. rewrite Hheld.
    rewrite (len_window remote ws L rc Hwrap HL 0) by lia. unfold len. lia.
Qed.

End Indexing.

Lemma index_reaches_fetched_window_only_seven_by_three :
  fst (getitem (schema := bare_schema) (store := paged_store (remote_refs 7) 3)
         (Position 3) applications) = Raise IndexError /\
  fst (length_of (schema := bare_schema) (store := paged_store (remote_refs 7) 3)
         applications) = Ret (VInt 7).
Proof.
  destruct (@index_reaches_fetched_window_only bare_schema
              (paged_store (remote_refs 7) 3) (remote_refs 7) _ 3 "/applications"
              None Resource_cls (fun _ _ => eq_refl) eq_refl eq_refl
              applications 3 eq_refl eq_refl)
    as (_ & _ & Hout & _ & Hlen & _).
  split; [apply Hout; left; vm_compute; discriminate | apply Hlen; reflexivity].
Defined.

(** ** Expansions *)

Lemma join_comma_snoc (xs : list string) (y : string) :
  join_comma (xs ++ [y]) =
  match xs with
  | [] => y
  | _ => join_comma xs ++ "," ++ y
  end.
Proof.
  induction xs as [|x xs IH]; [reflexivity|].
  destruct xs as [|x' xs]; [reflexivity|].
  change (join_comma ((x :: x' :: xs) ++ [y]))
    with (x ++ "," ++ join_comma ((x' :: xs) ++ [y])).
  rewrite IH.
  change (join_comma (x :: x' :: xs)) with (x ++ "," ++ join_comma (x' :: xs)).
  now rewrite !append_assoc.
Qed.

Lemma Expansion_init_items (args : list string) :
  forall acc : list (string * list (string * Z)),
    NoDup args -> (forall k, In k args -> dict_has k acc = false) ->
    fold_left (fun items k => dict_set k [] items) args acc =
    (acc ++ map (fun k => (k, [])) args)%list.
Proof.
  induction args as [|k args IH]; intros acc Hnd Hfresh; cbn [fold_left map].
  - now rewrite app_nil_r.
  - inversion Hnd as [|? ? Hnot Hnd']; subst.
    rewrite dict_set_fresh by (apply Hfresh; now left).
    rewrite IH; [now rewrite <- app_assoc | exact Hnd' |].
    intros k' Hk'. rewrite dict_has_app, (Hfresh k') by now right.
    unfold dict_has. cbn [dict_get orb].
    destruct (String.eqb_spec k k') as [->|_]; [contradiction | reflexivity].
Qed.

(** X22: the text of the [expand] parameter.  [add_property] for an
    attribute that the expansion does not have yet adds one segment at the
    end of [get_params()], after a comma when there were segments before:
    the attribute's name, followed in parentheses by [offset:o] and
    [limit:l], in this order and as far as they were given, and by nothing
    when neither was.  An expansion built from distinct names alone reads
    as the names joined by commas. *)
Theorem expansion_parameter_text (e : Expansion) (attr : string)
  (offset limit : option Z) (args : list string) :
  (dict_has attr (expansion_items e) = false ->
   get_params (add_property e attr offset limit) =
   match expansion_items e with
   | [] => attr ++ window_text offset limit
   | _ => get_params e ++ "," ++ attr ++ window_text offset limit
   end) /\
  (distinct args = true -> get_params (Expansion_init args) = join_comma args).
Proof.
  split.
  - intros Hnew. unfold get_params, add_property. cbn [expansion_items].
    rewrite dict_set_fresh by exact Hnew. rewrite map_app. cbn [map].
    rewrite join_comma_snoc.
    destruct (expansion_items e) as [|i items]; cbn [map].
    + destruct offset as [o|], limit as [l|]; cbn; now rewrite ?append_assoc.
    + match goal with
      | |- context [join_comma (?x :: ?xs)] => generalize (join_comma (x :: xs))
      end.
      intros text. do 2 f_equal.
      destruct offset as [o|], limit as [l|]; cbn; now rewrite ?append_assoc.
  - intros Hd. apply distinct_NoDup in Hd.
    unfold get_params, Expansion_init. cbn [expansion_items].
    rewrite (Expansion_init_items args [] Hd (fun _ _ => eq_refl)).
    cbn [app]. rewrite map_map. cbn [fst snd map join_comma String.eqb].
    f_equal. clear. induction args as [|k args IH]; [reflexivity|].
    cbn [map]. now rewrite append_nil_r, IH.
Qed.

Lemma expansion_parameter_text_groups :
  get_params (add_property (Expansion_init ["tenant"; "accounts"]) "groups"
                (Some 0) (Some 10)) =
  "tenant,accounts,groups(offset:0,limit:10)".
Proof.
  apply (proj1 (expansion_parameter_text (Expansion_init ["tenant"; "accounts"])
                  "groups" (Some 0) (Some 10) [])).
  reflexivity.
Defined.

(** ** Building instances *)

Section Building.
Context {schema : Schema} {store : DataStore}.

(** X23: [Resource.__init__] needs a locator or properties: with neither
    it raises [ValueError]; a locator that is not a string raises
    [TypeError] whatever the properties; with a string locator the
    properties are not looked at.  An instance built from a string locator
    holds just the locator, is not new, and, built without query and
    expansion, makes its first fetch for that locator with no
    parameters. *)
Theorem Resource_init_needs_locator_or_properties (cls : class)
  (q : option ref) (e : option Expansion) :
  Resource_init cls VNone None q e = Error ValueError /\
  (forall v p, v <> VNone -> (forall h, v <> VStr h) ->
     Resource_init cls v p q e = Error TypeError) /\
  (forall h p, Resource_init cls (VStr h) p q e =
               Resource_init cls (VStr h) None q e) /\
  (forall h p hp,
     plain_resource_class cls = true ->
     dict_get "href" (get_resource_attributes cls) = None ->
     Resource_init cls (VStr h) p q e =
       Ok (mkResource cls q e [("href", VStr h)]) /\
     fst (is_new (start (mkResource cls q e [("href", VStr h)]) hp)) = Ret false /\
     (q = None -> e = None ->
      trace (snd (ensure_data (start (mkResource cls q e [("href", VStr h)]) hp))) =
      [GetResource (VStr h) None])).
Proof.
  split; [reflexivity|]. split; [|split; [reflexivity|]].
  - intros v p Hnone Hstr. destruct v; try reflexivity.
    + contradiction.
    + exfalso. now apply (Hstr s).
  - intros h p hp Hcls Hattr. split; [|split; [reflexivity|]].
    + unfold Resource_init. rewrite set_properties_plain by exact Hcls.
      cbn [set_properties_loop andb].
      change (from_camel_case "href") with "href". now rewrite Hattr.
    + intros -> ->. now rewrite ensure_data_trace.
Qed.

(** X24: [_wrap_resource_attr] settles: what it returns is [None] or an
    instance, and wrapping that again, for whatever class, gives it back
    unchanged (for [Resource._wrap_resource_attr] when the class is not a
    [FixedAttrsDict] class, whose instances it does not accept).  A value
    that is neither a mapping, an instance nor [None] raises
    [TypeError]. *)
Theorem wrap_resource_attr_settles (in_fixed : bool) (cls : class) (v : value) :
  (forall w cls',
     wrap_resource_attr in_fixed cls v = Ok w ->
     in_fixed = true \/ is_fixed cls = false ->
     wrap_resource_attr in_fixed cls' w = Ok w /\
     (w = VNone \/ is_instance w = true)) /\
  (plain_value v = true -> v <> VNone ->
   wrap_resource_attr in_fixed cls v = Error TypeError).
Proof.
  split.
  - intros w cls' Hw Hside.
    destruct v as [| | | | |properties|c q e d|c d]; cbn [wrap_resource_attr] in Hw;
      try discriminate Hw.
    + injection Hw as <-. split; [reflexivity | now left].
    + destruct cls as [|name|cp rc|name].
      * destruct in_fixed; [discriminate Hw|].
        destruct (set_properties_loop _ _ _ _ properties []); [|discriminate Hw].
        injection Hw as <-. split; [reflexivity | now right].
      * destruct in_fixed; [discriminate Hw|].
        destruct (set_properties_loop _ _ _ _ properties []); [|discriminate Hw].
        injection Hw as <-. split; [reflexivity | now right].
      * destruct in_fixed; [discriminate Hw|].
        destruct (collection_set_properties _ _ _ properties []); [|discriminate Hw].
        injection Hw as <-. split; [reflexivity | now right].
      * destruct (set_properties_loop _ _ _ _ properties []); [|discriminate Hw].
        injection Hw as <-.
        destruct Hside as [->|Hside]; [|discriminate Hside].
        split; [reflexivity | now right].
    + destruct in_fixed; [discriminate Hw|]. injection Hw as <-.
      split; [reflexivity | now right].
    + destruct in_fixed; [|discriminate Hw]. injection Hw as <-.
      split; [reflexivity | now right].
  - intros Hplain Hnone. destruct v; try discriminate Hplain; try reflexivity.
    contradiction.
Qed.

Lemma create_data_keys (rc : class) (properties : props) :
  forall data data' k,
    create_data rc properties data = Ok data' ->
    In k (dict_keys data') ->
    In k (dict_keys data) \/
    exists a, In a (dict_keys properties) /\
              name_in a (writable_attrs rc) = true /\ k = to_camel_case a.
Proof.
  induction properties as [|[a v] properties IH]; intros data data' k H Hin.
  - injection H as <-. now left.
  - cbn [create_data] in H.
    match type of H with
    | rbind ?o _ = _ => destruct o as [w|]; [|discriminate H]
    end.
    cbn [rbind] in H. destruct (name_in a (writable_attrs rc)) eqn:Ha.
    + destruct (IH _ _ _ H Hin) as [H1 | (a' & Hin' & Hw & ->)].
      * destruct (dict_keys_set _ _ _ _ H1) as [->|H2]; [|now left].
        right. exists a. repeat split; [now left | exact Ha].
      * right. exists a'. repeat split; [now right | exact Hw].
    + destruct (IH _ _ _ H Hin) as [H1 | (a' & Hin' & Hw & ->)]; [now left|].
      right. exists a'. repeat split; [now right | exact Hw].
Qed.

(** X25: the data that [create] sends holds writable attributes only:
    every key of it is the camel-case form, free of underscores, of a key
    of the given properties that is in the [writable_attrs] of the
    element class. *)
Theorem create_sends_writable_only (rc : class) (properties data : props)
  (k : string) :
  create_data rc properties [] = Ok data ->
  In k (dict_keys data) ->
  Py.contains Py.UNDERSCORE k = false /\
  exists a, In a (dict_keys properties) /\
            name_in a (writable_attrs rc) = true /\ k = to_camel_case a.
Proof.
  intros H Hin.
  destruct (create_data_keys rc properties [] data k H Hin)
    as [[] | (a & Ha & Hw & ->)].
  split; [apply to_camel_case_underscore_free|]. exists a. auto.
Qed.

(** X26: attributes of a [FixedAttrsDict].  [__setattr__] refuses with
    [AttributeError] a name that neither starts with an underscore nor is
    writable; a writable name is stored, reads back as the value and
    leaves the other names as they were; reading a name that is not held
    raises [AttributeError]; and [keys()] lists only names without a
    leading underscore, each of them listed by [__dir__()] and
    readable. *)
Theorem fixed_attrs_write_protection (cls : class) (dict : props)
  (name : string) (v : value) :
  (Py.startswith "_" name = false ->
   name_in name (writable_attrs cls) = false ->
   FixedAttrsDict.setattr cls name v dict = Error AttributeError) /\
  (name_in name (writable_attrs cls) = true ->
   exists dict',
     FixedAttrsDict.setattr cls name v dict = Ok dict' /\
     FixedAttrsDict.getattr name dict' = Ok v /\
     forall other, other <> name ->
       FixedAttrsDict.getattr other dict' = FixedAttrsDict.getattr other dict) /\
  (dict_has name dict = false ->
   FixedAttrsDict.getattr name dict = Error AttributeError) /\
  (forall k, In k (FixedAttrsDict.keys dict) ->
     Py.startswith "_" k = false /\ In k (FixedAttrsDict.dir dict) /\
     exists held, FixedAttrsDict.getattr k dict = Ok held).
Proof.
  unfold FixedAttrsDict.setattr, FixedAttrsDict.getattr. split; [|split; [|split]].
  - intros H1 H2. now rewrite H1, H2.
  - intros H. rewrite H, orb_true_r. eexists. split; [reflexivity|].
    split; [now rewrite dict_get_set_same|].
    intros other Hne. now rewrite dict_get_set_other.
  - unfold dict_has. now destruct (dict_get name dict).
  - intros k Hk. unfold FixedAttrsDict.keys, FixedAttrsDict.dir in *.
    apply filter_In in Hk as [Hin Hk]. apply negb_true_iff in Hk.
    split; [exact Hk|]. split; [exact Hin|].
    apply dict_has_In in Hin. unfold dict_has in Hin.
    destruct (dict_get k dict) as [held|]; [now exists held | discriminate].
Qed.

End Building.

Lemma Resource_init_needs_locator_or_properties_account :
  Resource_init (schema := demo_schema) (Entity "Account") (VInt 7)
    (Some account_payload) None None = Error TypeError.
Proof.
  apply (@Resource_init_needs_locator_or_properties demo_schema
           (fixed_store account_payload) (Entity "Account") None None);
    [discriminate | intros h; discriminate].
Defined.

Lemma wrap_resource_attr_settles_directory :
  wrap_resource_attr (schema := demo_schema) false (Entity "Account")
    (VResource (Entity "Directory") None None [("href", VStr "/directories/9")]) =
  Ok (VResource (Entity "Directory") None None [("href", VStr "/directories/9")]).
Proof.
  apply (proj1 (@wrap_resource_attr_settles demo_schema false (Entity "Directory")
                  (VDict [("href", VStr "/directories/9")])) _ (Entity "Account")
           eq_refl (or_intror eq_refl)).
Defined.

Lemma create_sends_writable_only_account :
  Py.contains Py.UNDERSCORE "givenName" = false /\
  exists a, In a ["given_name"; "href"; "unknown_field"] /\
            name_in a ["email"; "given_name"; "status"] = true /\
            "givenName" = to_camel_case a.
Proof.
  apply (@create_sends_writable_only demo_schema (Entity "Account")
           [("given_name", VStr "Ann"); ("href", VStr "/accounts/9");
            ("unknown_field", VInt 1)]
           [("givenName", VStr "Ann")] "givenName" eq_refl).
  now left.
Defined.

Lemma fixed_attrs_write_protection_provider :
  FixedAttrsDict.setattr (schema := demo_schema) (FixedAttrs "Provider")
    "provider_id" (VStr "github") [("provider_id", VStr "google")] =
  Error AttributeError.
Proof.
  apply (@fixed_attrs_write_protection demo_schema (FixedAttrs "Provider"));
    reflexivity.
Defined.

(** ** The parameters of a fetch *)

Section DictNonEmpty.
Context {V : Type}.

Lemma dict_set_not_nil (k : string) (v : V) (d : list (string * V)) :
  dict_set k v d <> [].
Proof. destruct d as [|[k' v'] d]; simpl; [|destruct (String.eqb k' k)]; discriminate. Qed.

Lemma dict_update_not_nil (d other : list (string * V)) :
  d <> [] \/ other <> [] -> dict_update d other <> [].
Proof.
  revert d. induction other as [|[k v] other IH]; intros d H; simpl.
  - destruct H as [H|H]; [exact H | contradiction].
  - apply IH. left. apply dict_set_not_nil.
Qed.

End DictNonEmpty.

(** X27: the parameters that [_ensure_data] sends.  They are [None]
    exactly when the query is absent or empty, there is no expansion, and
    the instance has not recorded both a limit and an offset.  A recorded
    window is always sent and wins over a limit or offset of the query;
    an expansion is always sent under ['expand'], as the text of
    [get_params()]. *)
Theorem ensure_data_params_contents (q : option props) (e : option Expansion)
  (dict : props) :
  (ensure_data_params q e dict = None <->
   or_empty q = [] /\ e = None /\
   (dict_get "limit" dict = None \/ dict_get "offset" dict = None)) /\
  (forall l o, dict_get "limit" dict = Some l -> dict_get "offset" dict = Some o ->
     exists p, ensure_data_params q e dict = Some p /\
               dict_get "limit" p = Some l /\ dict_get "offset" p = Some o) /\
  (forall x, e = Some x ->
     exists p, ensure_data_params q e dict = Some p /\
               dict_get "expand" p = Some (VStr (get_params x))).
Proof.
  unfold ensure_data_params.
  set (base1 := match q with
                | Some (x :: xs) => dict_update [] (x :: xs)
                | _ => []
                end).
  set (base2 := match e with
                | Some x => dict_update base1 [("expand", VStr (get_params x))]
                | None => base1
                end).
  assert (H1 : base1 = [] <-> or_empty q = []).
  { unfold base1, or_empty. destruct q as [[|x xs]|]; try tauto.
    split; [|discriminate]. intros H. exfalso.
    apply (dict_update_not_nil [] (x :: xs)); [right; discriminate | exact H]. }
  assert (H2 : base2 = [] <-> or_empty q = [] /\ e = None).
  { unfold base2. destruct e as [x|].
    - split; [|intros [_ H]; discriminate H]. intros H. exfalso.
      apply (dict_update_not_nil base1 [("expand", VStr (get_params x))]);
        [right; discriminate | exact H].
    - rewrite H1. tauto. }
  split; [|split].
  - destruct (dict_get "limit" dict) as [l|], (dict_get "offset" dict) as [o|].
    + split.
      * destruct (dict_set "offset" o (dict_set "limit" l base2)) eqn:E;
          [|discriminate]. exfalso. exact (dict_set_not_nil _ _ _ E).
      * intros (_ & _ & [H|H]); discriminate H.
    + destruct base2 eqn:E.
      * split; [intros _|reflexivity]. destruct (proj1 H2 eq_refl). auto.
      * split; [discriminate|]. intros (Hq & He & _).
        discriminate (proj2 H2 (conj Hq He)).
    + destruct base2 eqn:E.
      * split; [intros _|reflexivity]. destruct (proj1 H2 eq_refl). auto.
      * split; [discriminate|]. intros (Hq & He & _).
        discriminate (proj2 H2 (conj Hq He)).
    + destruct base2 eqn:E.
      * split; [intros _|reflexivity]. destruct (proj1 H2 eq_refl). auto.
      * split; [discriminate|]. intros (Hq & He & _).
        discriminate (proj2 H2 (conj Hq He)).
  - intros l o -> ->.
    destruct (dict_set "offset" o (dict_set "limit" l base2)) as [|kv p] eqn:E;
      [exfalso; exact (dict_set_not_nil _ _ _ E)|].
    exists (kv :: p). split; [reflexivity|]. rewrite <- E. now dict_lookup.
  - intros x ->.
    assert (Hx : dict_get "expand" base2 = Some (VStr (get_params x))).
    { unfold base2. cbn [dict_update]. apply dict_get_set_same. }
    destruct (dict_get "limit" dict) as [l|], (dict_get "offset" dict) as [o|].
    + destruct (dict_set "offset" o (dict_set "limit" l base2)) as [|kv p] eqn:E;
        [exfalso; exact (dict_set_not_nil _ _ _ E)|].
      exists (kv :: p). split; [reflexivity|]. rewrite <- E. now dict_lookup.
    + destruct base2 as [|kv p]; [discriminate Hx|]. now exists (kv :: p).
    + destruct base2 as [|kv p]; [discriminate Hx|]. now exists (kv :: p).
    + destruct base2 as [|kv p]; [discriminate Hx|]. now exists (kv :: p).
Qed.

Lemma ensure_data_params_contents_sliced :
  exists p,
    ensure_data_params (Some [("limit", VInt 50)]) None
      [("href", VStr "/applications"); ("offset", VInt 0); ("limit", VInt 3)] =
      Some p /\
    dict_get "limit" p = Some (VInt 3) /\ dict_get "offset" p = Some (VInt 0).
Proof.
  apply (proj1 (proj2 (ensure_data_params_contents (Some [("limit", VInt 50)]) None
                         [("href", VStr "/applications"); ("offset", VInt 0);
                          ("limit", VInt 3)])));
    reflexivity.
Defined.

(** ** What a collection holds after a pass *)


Section FullPass.
Context {schema : Schema} {store : DataStore}.
Variables (remote ws : list value) (L : Z) (h : string)
  (cp : option string) (rc : class).
Hypothesis Hserves : serves remote L.
Hypothesis Hwrap : wrap_items wrap_resource_attr rc remote = Ok ws.
Hypothesis HL : 0 < L.






End FullPass.


(** ** Declared attributes and timestamps *)

Section Conversions.
Context {schema : Schema}.

Lemma store_step (cls : class) (key : string) (v w : value)
  (pre post d0 : props) :
  plain_resource_class cls = true ->
  (forall rest d,
     set_properties_loop wrap_resource_attr false false
       (get_resource_attributes cls) ((key, v) :: rest) d =
     set_properties_loop wrap_resource_attr false false
       (get_resource_attributes cls) rest (dict_set (from_camel_case key) w d)) ->
  (forall k' v', In (k', v') post -> from_camel_case k' <> from_camel_case key) ->
  set_properties cls [(key, v)] d0 = Ok (dict_set (from_camel_case key) w d0) /\
  (forall d1, set_properties cls (pre ++ (key, v) :: post)%list d0 = Ok d1 ->
              dict_get (from_camel_case key) d1 = Some w).
Proof.
  intros Hcls Hstep Hpost. rewrite !set_properties_plain by exact Hcls.
  split.
  - now rewrite Hstep.
  - intros d1. rewrite set_properties_loop_app.
    destruct (set_properties_loop _ _ _ _ pre d0) as [d|]; cbn [rbind];
      try discriminate.
    rewrite Hstep. intros H.
    rewrite (set_properties_loop_keeps _ _ _ _ _ _ _ Hpost H).
    apply dict_get_set_same.
Qed.

(** X29: [_set_properties] converts declared attributes and timestamps.
    An attribute whose local name is declared in
    [get_resource_attributes()] is stored as [_wrap_resource_attr] returns
    it for the declared class, and when that raises (as it does for a
    string or a number) the materialisation raises the same; an
    undeclared attribute named [created_at] or [modified_at] whose wire
    value is a string is stored as the parsed date, and when the string
    cannot be parsed the materialisation raises [ValueError]. *)
Theorem declared_and_timestamp_attributes (cls : class) (key : string)
  (v : value) (pre post d0 : props) :
  plain_resource_class cls = true ->
  (forall k' v', In (k', v') post -> from_camel_case k' <> from_camel_case key) ->
  let name := from_camel_case key in
  (forall c w,
     dict_get name (get_resource_attributes cls) = Some c ->
     wrap_resource_attr false c v = Ok w ->
     set_properties cls [(key, v)] d0 = Ok (dict_set name w d0) /\
     (forall d1, set_properties cls (pre ++ (key, v) :: post)%list d0 = Ok d1 ->
                 dict_get name d1 = Some w)) /\
  (forall c e,
     dict_get name (get_resource_attributes cls) = Some c ->
     wrap_resource_attr false c v = Error e ->
     set_properties cls ((key, v) :: post) d0 = Error e) /\
  (forall s t,
     dict_get name (get_resource_attributes cls) = None ->
     name_in name TIMESTAMPS = true -> v = VStr s -> parse_date s = Some t ->
     set_properties cls [(key, v)] d0 = Ok (dict_set name (VDatetime t) d0) /\
     (forall d1, set_properties cls (pre ++ (key, v) :: post)%list d0 = Ok d1 ->
                 dict_get name d1 = Some (VDatetime t))) /\
  (forall s,
     dict_get name (get_resource_attributes cls) = None ->
     name_in name TIMESTAMPS = true -> v = VStr s -> parse_date s = None ->
     set_properties cls ((key, v) :: post) d0 = Error ValueError).
Proof.
  intros Hcls Hpost name. subst name. split; [|split; [|split]].
  - intros c w Hc Hw. apply store_step; auto.
    intros rest d. cbn [set_properties_loop andb]. now rewrite Hc, Hw.
  - intros c e Hc Hw. rewrite set_properties_plain by exact Hcls.
    cbn [set_properties_loop andb]. now rewrite Hc, Hw.
  - intros s t Hattr Hstamp -> Hparse. apply store_step; auto.
    intros rest d. cbn [set_properties_loop andb]. rewrite Hattr, Hstamp.
    unfold parse. now rewrite Hparse.
  - intros s Hattr Hstamp -> Hparse. rewrite set_properties_plain by exact Hcls.
    cbn [set_properties_loop andb]. rewrite Hattr, Hstamp.
    unfold parse. now rewrite Hparse.
Qed.

End Conversions.

Lemma declared_and_timestamp_attributes_account :
  set_properties (schema := demo_schema) (Entity "Account")
    [("directory", VDict [("href", VStr "/directories/9")])] [] =
    Ok [("directory",
         VResource (Entity "Directory") None None [("href", VStr "/directories/9")])] /\
  set_properties (schema := demo_schema) (Entity "Account")
    [("directory", VStr "/directories/9"); ("email", VStr "a@example.com")] [] =
    Error TypeError /\
  set_properties (schema := demo_schema) (Entity "Account")
    [("createdAt", VStr "2014-01-01T00:00:00Z")] [] =
    Ok [("created_at", VDatetime 0)].
Proof.
  split; [|split].
  - apply (proj1 (@declared_and_timestamp_attributes demo_schema (Entity "Account")
                    "directory" (VDict [("href", VStr "/directories/9")]) [] [] []
                    eq_refl (fun _ _ H => match H with end))
             (Entity "Directory") _ eq_refl eq_refl).
  - assert (Hpost : forall k' v', In (k', v') [("email", VStr "a@example.com")] ->
                      from_camel_case k' <> from_camel_case "directory")
      by (intros k' v' [H|[]]; injection H as <- _; discriminate).
    apply (proj1 (proj2 (@declared_and_timestamp_attributes demo_schema
                    (Entity "Account") "directory" (VStr "/directories/9") []
                    [("email", VStr "a@example.com")] [] eq_refl Hpost))
             (Entity "Directory") TypeError eq_refl eq_refl).
  - apply (proj1 (proj2 (proj2 (@declared_and_timestamp_attributes demo_schema
                    (Entity "Account") "createdAt" (VStr "2014-01-01T00:00:00Z")
                    [] [] [] eq_refl (fun _ _ H => match H with end))))
             "2014-01-01T00:00:00Z" 0 eq_refl eq_refl eq_refl eq_refl).
Defined.

(** ** Saving nested resources *)

Lemma dict_set_held {V : Type} (k : string) (v : V) (d : list (string * V)) :
  dict_get k d = Some v -> dict_set k v d = d.
Proof.
  induction d as [|[k' v'] d IH]; simpl; [discriminate|].
  destruct (String.eqb_spec k' k) as [->|_].
  - now intros [= ->].
  - intros H. now rewrite IH.
Qed.

Section AutoSaveFacts.
Context {schema : Schema} {store : DataStore}.

Lemma autosave_loop_nothing_held (nested_save : class -> option (M unit))
  (autosaves : list string) (st : state) :
  (forall res, In res autosaves -> dict_get res (r_dict (self st)) = None) ->
  autosave_loop nested_save autosaves st = (Ret tt, st).
Proof.
  induction autosaves as [|res rest IH]; intros H; [reflexivity|].
  cbn [autosave_loop]. run. rewrite (H res) by now left.
  apply IH. intros r Hr. apply H. now right.
Qed.

(** X30: [AutoSaveMixin.save()] saves the instance first and is not
    atomic.  When the instance's own [save] raises, nothing nested is
    touched; when none of the [autosaves] is held it is just [save]; and
    when the first of them holds a resource that has a [save] but no
    locator, it raises [ValueError] after the instance itself has been
    updated and signalled. *)
Theorem autosave_is_not_atomic (autosaves : list string)
  (nested_save : class -> option (M unit)) (st : state) :
  (forall e st', save st = (Raise e, st') ->
     AutoSaveMixin_save autosaves nested_save st = (Raise e, st')) /\
  (forall st1, save st = (Ret tt, st1) ->
     (forall res, In res autosaves -> dict_get res (r_dict (self st1)) = None) ->
     AutoSaveMixin_save autosaves nested_save st = (Ret tt, st1)) /\
  (forall st1 res rest c q e d,
     save st = (Ret tt, st1) ->
     autosaves = res :: rest ->
     dict_get res (r_dict (self st1)) = Some (VResource c q e d) ->
     nested_save c = Some save ->
     href_absent (mkResource c q e d) ->
     AutoSaveMixin_save autosaves nested_save st = (Raise ValueError, st1)).
Proof.
  unfold AutoSaveMixin_save. split; [|split].
  - intros e st' H. unfold bind. now rewrite H.
  - intros st1 H Hnone. rewrite (bind_run _ _ _ _ _ H).
    now apply autosave_loop_nothing_held.
  - intros st1 res rest c q e d H -> Hheld Hsave Hnew.
    rewrite (bind_run _ _ _ _ _ H). cbn [autosave_loop]. run.
    rewrite Hheld. cbn [save_held]. rewrite Hsave.
    unfold visit. cbn [self heap trace].
    assert (Hraise : forall s, href_absent (self s) -> save s = (Raise ValueError, s)).
    { intros s Hs. apply dict_href_none in Hs. unfold save, bind.
      rewrite is_new_pure, Hs. reflexivity. }
    rewrite Hraise by exact Hnew. cbn [self value_of_resource r_cls r_query r_expand r_dict].
    rewrite dict_set_held by exact Hheld.
    destruct st1 as [[c1 q1 e1 d1] hp1 t1]. reflexivity.
Qed.

End AutoSaveFacts.

Lemma autosave_is_not_atomic_account :
  fst (AutoSaveMixin_save (schema := demo_schema)
         (store := fixed_store account_payload) ["custom_data"]
         (fun _ => Some (save (schema := demo_schema)
                           (store := fixed_store account_payload)))
         (start account_with_new_data [])) = Raise ValueError /\
  trace (snd (AutoSaveMixin_save (schema := demo_schema)
                (store := fixed_store account_payload) ["custom_data"]
                (fun _ => Some (save (schema := demo_schema)
                                  (store := fixed_store account_payload)))
                (start account_with_new_data []))) =
  [UpdateResource (VStr "/accounts/1") [("email", VStr "a@example.com")];
   Send SIGNAL_RESOURCE_UPDATED (VStr "/accounts/1")
     (Some [("email", VStr "a@example.com")])].
Proof.
  rewrite (proj2 (proj2 (@autosave_is_not_atomic demo_schema
                           (fixed_store account_payload) ["custom_data"]
                           (fun _ => Some save) (start account_with_new_data [])))
             _ "custom_data" [] (Entity "CustomData") None None [("rank", VInt 1)]
             eq_refl eq_refl eq_refl eq_refl (or_introl eq_refl)).
  split; reflexivity.
Defined.
